(** * Aether posture monitor: metrics extraction, calibration store,
      calibrated classifier and temporal debouncer

    Shallow embedding of three JavaScript classes of the repository:
    - [PoseDetector]             (pose-detection.js),
    - [PostureCalibrator]        (calibration.js),
    - [CalibratedPostureMonitor] (calibrated-posture-monitor.js).

    JavaScript numbers are IEEE-754 binary64 values; they are modelled by
    Rocq's primitive floats, which are the same format with the same
    round-to-nearest-even operations, so [x / 0] is an infinity or a NaN
    exactly as in the source.  Frame counters and millisecond timestamps,
    which only ever hold integers, are modelled by [nat] and [Z] (exact in
    JavaScript below 2^53).  [Date.now()] is an explicit argument of every
    method that reads the clock; callbacks are opaque handles whose
    invocations are recorded in a trace.  Console output is not modelled. *)

From Stdlib Require Import Floats ZArith List String Ascii Bool Lia.
Import ListNotations.

Set Warnings "-inexact-float".

(* ================================================================= *)
(** ** JavaScript numbers *)

Module JS.

Open Scope float_scope.

(** [a > b] on numbers: false as soon as one side is NaN. *)
Definition gt (a b : float) : bool := b <? a.

Definition Math_abs (a : float) : float := abs a.
Definition Math_sqrt (a : float) : float := sqrt a.
Definition Math_PI : float := 0x1.921fb54442d18p+1.

(** An integer counter read as a number. *)
Definition of_nat (n : nat) : float :=
  SF2Prim (binary_normalize prec emax (Z.of_nat n) 0 false).

Definition is_nan (a : float) : bool :=
  match Prim2SF a with S754_nan => true | _ => false end.

Definition is_infinite (a : float) : bool :=
  match Prim2SF a with S754_infinity _ => true | _ => false end.

(** A call that either completes with a value or throws a TypeError
    (reading a property of [undefined]). *)
Inductive Completion (A : Type) :=
| Normal (a : A)
| Throws.
Arguments Normal {A} a.
Arguments Throws {A}.

(** Truthiness of a number: [0], [-0] and NaN are falsy. *)
Definition falsy (a : float) : bool := (a =? 0) || is_nan a.

Close Scope float_scope.
Open Scope Z_scope.
Local Infix "+++" := String.append (at level 60, right associativity).

(** *** Decimal output *)

Definition digit_char (d : Z) : ascii :=
  ascii_of_nat (48 + Z.to_nat d).

(** The decimal digits of [n >= 0], most significant first; [fuel] bounds
    the number of digits. *)
Fixpoint digits_fuel (fuel : nat) (n : Z) (acc : string) : string :=
  match fuel with
  | O => acc
  | S k =>
      let acc' := String (digit_char (n mod 10)) acc in
      if n / 10 =? 0 then acc' else digits_fuel k (n / 10) acc'
  end.

Definition Z_digits (n : Z) : string :=
  digits_fuel (S (Z.to_nat (Z.log2 n))) n ""%string.

Definition Z_to_string (n : Z) : string :=
  if n <? 0 then "-"%string +++ Z_digits (- n) else Z_digits n.

Fixpoint zeros (k : nat) : string :=
  match k with O => ""%string | S k' => String "0"%char (zeros k') end.

(** [n / 10^f] written with exactly [f] fractional digits. *)
Definition fixed_digits (n : Z) (f : nat) : string :=
  let m := Z_digits n in
  match f with
  | O => m
  | S _ =>
      let m' := zeros (S f - String.length m) +++ m in
      let k := String.length m' in
      substring 0 (k - f) m' +++ "."%string +++ substring (k - f) f m'
  end.

(** The value [m * 2^e * 10^f] rounded to the nearest integer, ties up. *)
Definition round_scaled (m : positive) (e : Z) (f : nat) : Z :=
  let num := Zpos m * 10 ^ Z.of_nat f in
  if 0 <=? e then num * 2 ^ e
  else (2 * num + 2 ^ (- e)) / (2 * 2 ^ (- e)).

(** *** Number::toString for values of magnitude at least 10^21

    The shortest decimal significand [s] (of [k] digits) such that
    [s * 10^(n-k)] reads back as the same double, printed in exponent
    form. *)

Definition SF_eqb (a b : spec_float) : bool :=
  match a, b with
  | S754_zero s1, S754_zero s2 => Bool.eqb s1 s2
  | S754_infinity s1, S754_infinity s2 => Bool.eqb s1 s2
  | S754_nan, S754_nan => true
  | S754_finite s1 m1 e1, S754_finite s2 m2 e2 =>
      Bool.eqb s1 s2 && Pos.eqb m1 m2 && Z.eqb e1 e2
  | _, _ => false
  end.

Definition reads_back (m : positive) (e : Z) (v : Z) : bool :=
  SF_eqb (binary_normalize prec emax v 0 false) (S754_finite false m e).

(** Search over the digit count [k = 18 - fuel .. 17]; [X] is the exact
    integer value and [nX] its number of digits.  Returns the value
    [s * 10^(nX - k)] and [k]. *)
Fixpoint shortest_fuel (fuel : nat) (k : Z) (m : positive) (e : Z)
    (X nX : Z) : Z * Z :=
  match fuel with
  | O => (X, nX)
  | S fuel' =>
      let p := 10 ^ (nX - k) in
      let lo := (X / p) * p in
      let hi := lo + p in
      let oklo := reads_back m e lo in
      let okhi := reads_back m e hi in
      if oklo && okhi then
        (if X - lo <? hi - X then (lo, k)
         else if hi - X <? X - lo then (hi, k)
         else if Z.even (X / p) then (lo, k) else (hi, k))
      else if oklo then (lo, k)
      else if okhi then (hi, k)
      else shortest_fuel fuel' (k + 1) m e X nX
  end.

Definition strip_zeros_fuel := fix go (fuel : nat) (v : Z) : Z :=
  match fuel with
  | O => v
  | S k => if (v mod 10 =? 0) && negb (v =? 0) then go k (v / 10) else v
  end.

Definition big_toString (m : positive) (e : Z) : string :=
  let X := Zpos m * 2 ^ e in
  let nX := Z.of_nat (String.length (Z_digits X)) in
  let '(v, _) := shortest_fuel 17 1 m e X nX in
  let n := Z.of_nat (String.length (Z_digits v)) in
  let s := Z_digits (strip_zeros_fuel (Z.to_nat n) v) in
  let mant :=
    match s with
    | String c EmptyString => String c EmptyString
    | String c rest => String c ("."%string +++ rest)
    | EmptyString => EmptyString
    end in
  mant +++ "e+"%string +++ Z_digits (n - 1).

(** [Number.prototype.toFixed(f)]. *)
Definition toFixed (a : float) (f : nat) : string :=
  match Prim2SF a with
  | S754_nan => "NaN"%string
  | S754_infinity s => if s then "-Infinity"%string else "Infinity"%string
  | S754_zero _ => fixed_digits 0 f
  | S754_finite s m e =>
      (if s then "-"%string else ""%string) +++
      (if (0 <=? e) && (10 ^ 21 <=? Zpos m * 2 ^ e) then big_toString m e
       else fixed_digits (round_scaled m e f) f)
  end.

Close Scope Z_scope.

End JS.

(* ================================================================= *)
(** ** PoseDetector: landmarks to posture metrics (pose-detection.js) *)

Module PoseDetector.

Open Scope float_scope.

(** One MediaPipe landmark. *)
Record Landmark := {
  x : float;
  y : float;
  z : float;
  visibility : option float
}.

(** The object built by [extractLandmarks]: an entry is [None] when the
    detector's array had no element at that index ([undefined]). *)
Record PostureLandmarks := {
  nose : option Landmark;
  leftShoulder : option Landmark;
  rightShoulder : option Landmark;
  leftHip : option Landmark;
  rightHip : option Landmark;
  leftEar : option Landmark;
  rightEar : option Landmark
}.

Record PostureMetrics := {
  headShoulderRatio : float;
  shoulderAsymmetry : float;
  torsoAngle : float;
  neckAngle : float;
  forwardLean : float;
  shoulderWidth : float;
  timestamp : Z
}.

(** A bare [{x, y, z}] object, as returned by [getMidpoint]. *)
Definition point (px py pz : float) : Landmark :=
  {| x := px; y := py; z := pz; visibility := None |}.

(** [extractLandmarks(results)]: [poseLandmarks] is [None] when the
    detector saw nobody; an index beyond the array reads [undefined]. *)
Definition extractLandmarks (poseLandmarks : option (list Landmark))
    : option PostureLandmarks :=
  match poseLandmarks with
  | None | Some [] => None
  | Some landmarks =>
      Some {| nose := nth_error landmarks 0;
              leftShoulder := nth_error landmarks 11;
              rightShoulder := nth_error landmarks 12;
              leftHip := nth_error landmarks 23;
              rightHip := nth_error landmarks 24;
              leftEar := nth_error landmarks 7;
              rightEar := nth_error landmarks 8 |}
  end.

Definition calculateDistance (point1 point2 : Landmark) : float :=
  let dx := x point1 - x point2 in
  let dy := y point1 - y point2 in
  let dz := z point1 - z point2 in
  JS.Math_sqrt (dx * dx + dy * dy + dz * dz).

Definition getMidpoint (point1 point2 : Landmark) : Landmark :=
  point ((x point1 + x point2) / 2)
        ((y point1 + y point2) / 2)
        ((z point1 + z point2) / 2).

Section WithAtan2.

(** [Math.atan2] is a built-in of the host; the embedding takes it as a
    parameter. *)
Variable Math_atan2 : float -> float -> float.

Definition calculateAngle (point1 point2 point3 : Landmark) : float :=
  let radians :=
    Math_atan2 (y point3 - y point2) (x point3 - x point2) -
    Math_atan2 (y point1 - y point2) (x point1 - x point2) in
  let angle := JS.Math_abs (radians * 180.0 / JS.Math_PI) in
  if JS.gt angle 180.0 then 360 - angle else angle.

(** Reading a coordinate of an [undefined] landmark throws a TypeError,
    which the [try]/[catch] of the method turns into [null]: the option
    monad below.  [now] is the value of [Date.now()]. *)
Definition calculatePostureMetrics (now : Z)
    (landmarks : option PostureLandmarks) : option PostureMetrics :=
  match landmarks with
  | None => None
  | Some lm =>
      match leftShoulder lm, rightShoulder lm, leftHip lm, rightHip lm,
            leftEar lm, rightEar lm, nose lm with
      | Some ls, Some rs, Some lh, Some rh, Some le, Some re, Some n =>
          let shoulderMidpoint := getMidpoint ls rs in
          let hipMidpoint := getMidpoint lh rh in
          let earMidpoint := getMidpoint le re in
          let shoulderWidth := calculateDistance ls rs in
          let headToShoulderDistance :=
            calculateDistance earMidpoint shoulderMidpoint in
          let headShoulderRatio := headToShoulderDistance / shoulderWidth in
          let shoulderHeightDiff := JS.Math_abs (y ls - y rs) in
          let shoulderAsymmetry := shoulderHeightDiff / shoulderWidth in
          let torsoAngle :=
            calculateAngle shoulderMidpoint hipMidpoint
              (point (x hipMidpoint) (y hipMidpoint + 0.1) (z hipMidpoint)) in
          let neckAngle := calculateAngle shoulderMidpoint earMidpoint n in
          let forwardLean :=
            JS.Math_abs (z shoulderMidpoint - z hipMidpoint) in
          Some {| headShoulderRatio := headShoulderRatio;
                  shoulderAsymmetry := shoulderAsymmetry;
                  torsoAngle := torsoAngle;
                  neckAngle := neckAngle;
                  forwardLean := forwardLean;
                  shoulderWidth := shoulderWidth;
                  timestamp := now |}
      | _, _, _, _, _, _, _ => None
      end
  end.

End WithAtan2.

(** *** Lighting check *)

Record LightingQuality := {
  quality : string;
  message : string
}.

(** [landmark.visibility || 0]. *)
Definition visibilityOrZero (landmark : Landmark) : float :=
  match visibility landmark with
  | Some v => if JS.falsy v then 0 else v
  | None => 0
  end.

(** [Object.values(landmarks)], in the order [extractLandmarks] writes
    the properties. *)
Definition values (lm : PostureLandmarks) : list (option Landmark) :=
  [nose lm; leftShoulder lm; rightShoulder lm; leftHip lm; rightHip lm;
   leftEar lm; rightEar lm].

(** The [reduce] over the values: reading [visibility] off an
    [undefined] entry throws, and nothing catches it. *)
Fixpoint sumVisibility (vals : list (option Landmark)) (sum : float)
    : JS.Completion float :=
  match vals with
  | [] => JS.Normal sum
  | None :: _ => JS.Throws
  | Some landmark :: rest =>
      sumVisibility rest (sum + visibilityOrZero landmark)
  end.

Definition checkLightingQuality (landmarks : option PostureLandmarks)
    : JS.Completion LightingQuality :=
  match landmarks with
  | None =>
      JS.Normal {| quality := "poor"; message := "No pose detected" |}
  | Some lm =>
      match sumVisibility (values lm) 0 with
      | JS.Throws => JS.Throws
      | JS.Normal total =>
          let avgVisibility :=
            total / JS.of_nat (List.length (values lm)) in
          if JS.gt avgVisibility 0.8 then
            JS.Normal {| quality := "good"; message := "Lighting is good" |}
          else if JS.gt avgVisibility 0.6 then
            JS.Normal {| quality := "medium";
                         message := "Lighting could be better" |}
          else
            JS.Normal {| quality := "poor";
                         message := "Poor lighting detected" |}
      end
  end.

Close Scope float_scope.

End PoseDetector.

(* ================================================================= *)
(** ** PostureCalibrator: the calibration store (calibration.js) *)

Module PostureCalibrator.

Local Infix "+++" := String.append (at level 60, right associativity).

(** The object literal [avgMetrics]: the five averaged features. *)
Record AvgMetrics := {
  headShoulderRatio : float;
  shoulderAsymmetry : float;
  torsoAngle : float;
  neckAngle : float;
  forwardLean : float
}.

(** [calibrationData]; [otherPostures] holds the properties written by
    [completeCalibration] for a posture type other than 'good' and
    'slouched'. *)
Record CalibrationData := {
  goodPosture : option AvgMetrics;
  slouchedPosture : option AvgMetrics;
  calibratedAt : Z;
  otherPostures : list (string * AvgMetrics)
}.

Record t := {
  calibrationData : option CalibrationData;
  isCalibrating : bool;
  calibrationFrames : list PoseDetector.PostureMetrics;
  requiredFrames : nat;
  (** [None] until [startCalibration] has set it *)
  currentPostureType : option string
}.

Record CalibrationProgress := {
  progress : float;
  framesCollected : nat;
  framesRequired : nat
}.

Record RecalibrationCheck := {
  needed : bool;
  reason : string
}.

(** The constructor. *)
Definition new : t :=
  {| calibrationData := None;
     isCalibrating := false;
     calibrationFrames := [];
     requiredFrames := 60;
     currentPostureType := None |}.

(** [startCalibration(posturType = 'good')]; [None] is an omitted
    argument. *)
Definition startCalibration (posturType : option string) (c : t) : t :=
  {| calibrationData := calibrationData c;
     isCalibrating := true;
     calibrationFrames := [];
     requiredFrames := requiredFrames c;
     currentPostureType :=
       Some (match posturType with Some s => s | None => "good"%string end) |}.

(** The [forEach] that accumulates the five features, frame by frame. *)
Definition accumulate (acc : AvgMetrics) (frame : PoseDetector.PostureMetrics)
    : AvgMetrics :=
  {| headShoulderRatio :=
       (headShoulderRatio acc + PoseDetector.headShoulderRatio frame)%float;
     shoulderAsymmetry :=
       (shoulderAsymmetry acc + PoseDetector.shoulderAsymmetry frame)%float;
     torsoAngle := (torsoAngle acc + PoseDetector.torsoAngle frame)%float;
     neckAngle := (neckAngle acc + PoseDetector.neckAngle frame)%float;
     forwardLean := (forwardLean acc + PoseDetector.forwardLean frame)%float |}.

Definition zeroMetrics : AvgMetrics :=
  {| headShoulderRatio := 0; shoulderAsymmetry := 0; torsoAngle := 0;
     neckAngle := 0; forwardLean := 0 |}.

(** [avgMetrics[key] /= frameCount] for every key. *)
Definition divideAll (acc : AvgMetrics) (frameCount : float) : AvgMetrics :=
  {| headShoulderRatio := (headShoulderRatio acc / frameCount)%float;
     shoulderAsymmetry := (shoulderAsymmetry acc / frameCount)%float;
     torsoAngle := (torsoAngle acc / frameCount)%float;
     neckAngle := (neckAngle acc / frameCount)%float;
     forwardLean := (forwardLean acc / frameCount)%float |}.

Definition calculateAverageMetrics (frames : list PoseDetector.PostureMetrics)
    : AvgMetrics :=
  divideAll (fold_left accumulate frames zeroMetrics)
            (JS.of_nat (List.length frames)).

(** [calibrationData[currentPostureType + 'Posture'] = avgMetrics]. *)
Fixpoint assoc_set (k : string) (v : AvgMetrics)
    (l : list (string * AvgMetrics)) : list (string * AvgMetrics) :=
  match l with
  | [] => [(k, v)]
  | (k', v') :: l' =>
      if String.eqb k k' then (k, v) :: l' else (k', v') :: assoc_set k v l'
  end.

Definition setPosture (postureType : option string) (avg : AvgMetrics)
    (d : CalibrationData) : CalibrationData :=
  let key :=
    (match postureType with Some s => s | None => "undefined"%string end)
    +++ "Posture"%string in
  if String.eqb key "goodPosture" then
    {| goodPosture := Some avg;
       slouchedPosture := slouchedPosture d;
       calibratedAt := calibratedAt d;
       otherPostures := otherPostures d |}
  else if String.eqb key "slouchedPosture" then
    {| goodPosture := goodPosture d;
       slouchedPosture := Some avg;
       calibratedAt := calibratedAt d;
       otherPostures := otherPostures d |}
  else
    {| goodPosture := goodPosture d;
       slouchedPosture := slouchedPosture d;
       calibratedAt := calibratedAt d;
       otherPostures := assoc_set key avg (otherPostures d) |}.

(** [completeCalibration()]; the result is [null] when no frame was
    collected.  [now] is [Date.now()], read only when [calibrationData]
    is created. *)
Definition completeCalibration (now : Z) (c : t) : t * option AvgMetrics :=
  match calibrationFrames c with
  | [] => (c, None)
  | _ :: _ =>
      let avgMetrics :=
        divideAll (fold_left accumulate (calibrationFrames c) zeroMetrics)
                  (JS.of_nat (List.length (calibrationFrames c))) in
      let data :=
        match calibrationData c with
        | Some d => d
        | None => {| goodPosture := None; slouchedPosture := None;
                     calibratedAt := now; otherPostures := [] |}
        end in
      ({| calibrationData :=
            Some (setPosture (currentPostureType c) avgMetrics data);
          isCalibrating := false;
          calibrationFrames := calibrationFrames c;
          requiredFrames := requiredFrames c;
          currentPostureType := currentPostureType c |},
       Some avgMetrics)
  end.

(** [addCalibrationFrame(metrics)]; [None] as argument is a falsy
    [metrics], [None] as result is [undefined]. *)
Definition addCalibrationFrame (now : Z)
    (metrics : option PoseDetector.PostureMetrics) (c : t)
    : t * option CalibrationProgress :=
  match isCalibrating c, metrics with
  | true, Some m =>
      let c1 :=
        {| calibrationData := calibrationData c;
           isCalibrating := isCalibrating c;
           calibrationFrames := calibrationFrames c ++ [m];
           requiredFrames := requiredFrames c;
           currentPostureType := currentPostureType c |} in
      let progress :=
        (JS.of_nat (List.length (calibrationFrames c1))
         / JS.of_nat (requiredFrames c1) * 100)%float in
      let c2 :=
        if requiredFrames c1 <=? List.length (calibrationFrames c1)
        then fst (completeCalibration now c1) else c1 in
      (c2, Some {| progress := progress;
                   framesCollected := List.length (calibrationFrames c2);
                   framesRequired := requiredFrames c2 |})
  | _, _ => (c, None)
  end.

(** [hasCalibration()], read as a truth value. *)
Definition hasCalibration (c : t) : bool :=
  match calibrationData c with
  | Some d =>
      match goodPosture d, slouchedPosture d with
      | Some _, Some _ => true
      | _, _ => false
      end
  | None => false
  end.

Definition getCalibrationData (c : t) : option CalibrationData :=
  calibrationData c.

(** [clearCalibration()]; the stored copy is outside the model. *)
Definition clearCalibration (c : t) : t :=
  {| calibrationData := None;
     isCalibrating := isCalibrating c;
     calibrationFrames := calibrationFrames c;
     requiredFrames := requiredFrames c;
     currentPostureType := currentPostureType c |}.

(** The own enumerable properties of an [avgMetrics] object, in creation
    order, as [for ... in] visits them. *)
Definition entries (a : AvgMetrics) : list (string * float) :=
  [("headShoulderRatio"%string, headShoulderRatio a);
   ("shoulderAsymmetry"%string, shoulderAsymmetry a);
   ("torsoAngle"%string, torsoAngle a);
   ("neckAngle"%string, neckAngle a);
   ("forwardLean"%string, forwardLean a)].

(** [calibrated[metric]] in a numeric context: a missing property is
    [undefined], which converts to NaN. *)
Definition prop (a : AvgMetrics) (metric : string) : float :=
  if String.eqb metric "headShoulderRatio" then headShoulderRatio a
  else if String.eqb metric "shoulderAsymmetry" then shoulderAsymmetry a
  else if String.eqb metric "torsoAngle" then torsoAngle a
  else if String.eqb metric "neckAngle" then neckAngle a
  else if String.eqb metric "forwardLean" then forwardLean a
  else nan.

(** The [for (let metric in currentMetrics)] loop, with the tolerance as
    a parameter. *)
Fixpoint driftLoop (tolerance : float) (calibrated : AvgMetrics)
    (currentMetrics : list (string * float)) : RecalibrationCheck :=
  match currentMetrics with
  | [] => {| needed := false; reason := "Within acceptable range" |}
  | (metric, value) :: rest =>
      let deviation :=
        JS.Math_abs ((value - prop calibrated metric)
                     / prop calibrated metric)%float in
      if JS.gt deviation tolerance then
        {| needed := true;
           reason := metric +++ " deviation: "%string
                     +++ JS.toFixed (deviation * 100)%float 1 +++ "%"%string |}
      else driftLoop tolerance calibrated rest
  end.

Definition checkDrift (tolerance : float)
    (currentMetrics : list (string * float)) (c : t) : RecalibrationCheck :=
  match calibrationData c with
  | Some d =>
      match goodPosture d with
      | Some calibrated => driftLoop tolerance calibrated currentMetrics
      | None => {| needed := true; reason := "No calibration data found" |}
      end
  | None => {| needed := true; reason := "No calibration data found" |}
  end.

(** [checkIfRecalibrationNeeded(currentMetrics)]: the tolerance is the
    constant 0.15 of the source. *)
Definition checkIfRecalibrationNeeded
    (currentMetrics : list (string * float)) (c : t) : RecalibrationCheck :=
  checkDrift 0.15%float currentMetrics c.

(** *** Persistence

    [localStorage] holds at most one value under the key
    'postureCalibration'.  A value written by [saveCalibration] is the
    JSON text of the calibration data with [userId] and [savedAt]; it is
    modelled by what [JSON.parse] reads back from that text.  Any other
    value (text that does not parse, or that parses to something without
    that [userId]) is [Foreign]: [loadCalibration] answers [false] on it
    either by catching the exception or by the [userId] test. *)

Inductive Item :=
| Foreign
| Saved (userId : string) (savedAt : Z) (data : CalibrationData).

Record Storage := {
  postureCalibration : option Item;
  (** [setItem] throws (quota exceeded, storage disabled) *)
  refusesWrites : bool
}.

(** A number after [JSON.stringify] and [JSON.parse]: a finite number is
    read back as itself; [-0] is written as 0; NaN and the infinities
    are written as [null], which every arithmetic use reads as 0. *)
Definition jsonSafe (a : float) : bool :=
  match Prim2SF a with
  | S754_finite _ _ _ => true
  | S754_zero false => true
  | _ => false
  end.

Definition jsonNumber (a : float) : float :=
  if jsonSafe a then a else 0%float.

Definition jsonMetrics (a : AvgMetrics) : AvgMetrics :=
  {| headShoulderRatio := jsonNumber (headShoulderRatio a);
     shoulderAsymmetry := jsonNumber (shoulderAsymmetry a);
     torsoAngle := jsonNumber (torsoAngle a);
     neckAngle := jsonNumber (neckAngle a);
     forwardLean := jsonNumber (forwardLean a) |}.

Definition jsonData (d : CalibrationData) : CalibrationData :=
  {| goodPosture := option_map jsonMetrics (goodPosture d);
     slouchedPosture := option_map jsonMetrics (slouchedPosture d);
     calibratedAt := calibratedAt d;
     otherPostures :=
       map (fun kv => (fst kv, jsonMetrics (snd kv))) (otherPostures d) |}.

(** [saveCalibration(userId = 'default')]; [None] is an omitted
    argument, [now] the [Date.now()] written as [savedAt]. *)
Definition saveCalibration (userId : option string) (now : Z)
    (st : Storage) (c : t) : Storage * bool :=
  match calibrationData c with
  | None => (st, false)
  | Some d =>
      if refusesWrites st then (st, false)
      else
        ({| postureCalibration :=
              Some (Saved (match userId with
                           | Some u => u
                           | None => "default"%string
                           end) now (jsonData d));
            refusesWrites := refusesWrites st |}, true)
  end.

(** [loadCalibration(userId = 'default')]. *)
Definition loadCalibration (userId : option string) (st : Storage) (c : t)
    : t * bool :=
  match postureCalibration st with
  | None => (c, false)
  | Some Foreign => (c, false)
  | Some (Saved savedFor _ data) =>
      if String.eqb savedFor (match userId with
                              | Some u => u
                              | None => "default"%string
                              end)
      then ({| calibrationData := Some data;
               isCalibrating := isCalibrating c;
               calibrationFrames := calibrationFrames c;
               requiredFrames := requiredFrames c;
               currentPostureType := currentPostureType c |}, true)
      else (c, false)
  end.

(** [clearCalibration()] with the stored copy it removes. *)
Definition clearCalibrationIn (st : Storage) (c : t) : t * Storage :=
  (clearCalibration c,
   {| postureCalibration := None; refusesWrites := refusesWrites st |}).

End PostureCalibrator.

(* ----------------------------------------------------------------- *)
(** ** PostureCalibrator.performQuickReference *)

(** [performQuickReference(onProgress)] builds a promise whose executor
    declares the variables captured by [collectFrame] and ends with
    [resolve({ collector: collectFrame })]. *)
Module QuickReference.

Record ReferenceProgress := {
  progress : float;
  framesCollected : nat;
  message : string
}.

Record ReferenceResult := {
  referenceMetrics : PostureCalibrator.AvgMetrics;
  needsRecalibration : bool;
  reason : string;
  adjustedBaseline : option PostureCalibrator.AvgMetrics
}.

(** The two values [resolve] is called with. *)
Inductive Resolution :=
| Collector
| Reference (r : ReferenceResult).

(** A promise is pending or settled with a value; its [resolve] function
    acts on the first call only. *)
Definition Promise := option Resolution.

Definition resolve (v : Resolution) (p : Promise) : Promise :=
  match p with
  | None => Some v
  | Some _ => p
  end.

(** The variables of the executor and the promise they belong to. *)
Record t := {
  referenceFrames : list PoseDetector.PostureMetrics;
  frameCount : nat;
  promise : Promise
}.

Definition requiredFrames : nat := 50.

Definition performQuickReference : t :=
  {| referenceFrames := [];
     frameCount := 0;
     promise := resolve Collector None |}.

(** The object passed to [resolve] once enough frames are in. *)
Definition referenceResult (c : PostureCalibrator.t)
    (frames : list PoseDetector.PostureMetrics) : ReferenceResult :=
  let avgMetrics := PostureCalibrator.calculateAverageMetrics frames in
  let needsRecalibration :=
    PostureCalibrator.checkIfRecalibrationNeeded
      (PostureCalibrator.entries avgMetrics) c in
  {| referenceMetrics := avgMetrics;
     needsRecalibration := PostureCalibrator.needed needsRecalibration;
     reason := PostureCalibrator.reason needsRecalibration;
     adjustedBaseline :=
       if PostureCalibrator.needed needsRecalibration then None
       else Some avgMetrics |}.

(** [collectFrame(metrics)], the calibrator being in state [c];
    [onProgress] tells whether a progress callback was given, and the
    second component is the argument it is called with. *)
Definition collectFrame (c : PostureCalibrator.t) (onProgress : bool)
    (metrics : option PoseDetector.PostureMetrics) (q : t)
    : t * option ReferenceProgress :=
  match metrics with
  | None => (q, None)
  | Some m =>
      let referenceFrames := referenceFrames q ++ [m] in
      let frameCount := S (frameCount q) in
      let report :=
        if onProgress then
          Some {| progress :=
                    (JS.of_nat frameCount / JS.of_nat requiredFrames
                     * 100)%float;
                  framesCollected := frameCount;
                  message := "Hold your comfortable posture..." |}
        else None in
      let promise :=
        if requiredFrames <=? frameCount then
          resolve (Reference (referenceResult c referenceFrames)) (promise q)
        else promise q in
      ({| referenceFrames := referenceFrames;
          frameCount := frameCount;
          promise := promise |}, report)
  end.

End QuickReference.

(* ================================================================= *)
(** ** CalibratedPostureMonitor (calibrated-posture-monitor.js) *)

(** The [stats] object of the monitor. *)
Module Stats.

Record t := {
  totalFrames : nat;
  slouchFrames : nat;
  goodFrames : nat;
  alerts : nat
}.

Definition zero : t :=
  {| totalFrames := 0; slouchFrames := 0; goodFrames := 0; alerts := 0 |}.

Definition incrTotalFrames (s : t) : t :=
  {| totalFrames := S (totalFrames s); slouchFrames := slouchFrames s;
     goodFrames := goodFrames s; alerts := alerts s |}.

Definition incrSlouchFrames (s : t) : t :=
  {| totalFrames := totalFrames s; slouchFrames := S (slouchFrames s);
     goodFrames := goodFrames s; alerts := alerts s |}.

Definition incrGoodFrames (s : t) : t :=
  {| totalFrames := totalFrames s; slouchFrames := slouchFrames s;
     goodFrames := S (goodFrames s); alerts := alerts s |}.

Definition incrAlerts (s : t) : t :=
  {| totalFrames := totalFrames s; slouchFrames := slouchFrames s;
     goodFrames := goodFrames s; alerts := S (alerts s) |}.

End Stats.

Module CalibratedPostureMonitor.

Local Infix "+++" := String.append (at level 60, right associativity).

Inductive Severity := mild | moderate | severe.

(** The [currentMetrics] display strings of an analysis. *)
Record MetricsView := {
  headShoulder : string;
  shoulders : string;
  torso : string;
  neck : string;
  lean : string
}.

Record PostureAnalysis := {
  isSlouching : bool;
  issues : list string;
  severity : Severity;
  totalDeviation : string;
  currentMetrics : MetricsView
}.

(** The argument of [onSlouchDetected]. *)
Record SlouchEvent := {
  reason : string;
  ev_severity : Severity;
  duration : float;
  deviation : string
}.

(** A registered callback is an opaque handle; what the monitor does with
    it is recorded as a [Call]. *)
Definition callback := nat.

Inductive Call :=
| SlouchDetected (cb : callback) (ev : SlouchEvent)
| PostureCorrected (cb : callback).

(** A method either returns or throws (a TypeError on a [null]
    calibration). *)
Inductive Outcome (A : Type) :=
| Returned (a : A)
| Threw.
Arguments Returned {A} a.
Arguments Threw {A}.

Record t := {
  isMonitoring : bool;
  sessionStartTime : option Z;
  driftCheckInterval : Z;
  lastDriftCheck : option Z;
  slouchFrames : nat;
  goodPostureFrames : nat;
  requiredSlouchFrames : nat;
  requiredGoodFrames : nat;
  isCurrentlySlouched : bool;
  onSlouchDetected : option callback;
  onPostureCorrected : option callback;
  stats : Stats.t
}.

(** The constructor; the calibrator it receives is shared with the rest
    of the page, so every method below takes the calibrator's current
    state as an argument. *)
Definition new : t :=
  {| isMonitoring := false;
     sessionStartTime := None;
     driftCheckInterval := 3 * 60 * 1000;
     lastDriftCheck := None;
     slouchFrames := 0;
     goodPostureFrames := 0;
     requiredSlouchFrames := 100;
     requiredGoodFrames := 10;
     isCurrentlySlouched := false;
     onSlouchDetected := None;
     onPostureCorrected := None;
     stats := Stats.zero |}.

(** *** Field updates *)

Definition set_isMonitoring (b : bool) (m : t) : t :=
  {| isMonitoring := b; sessionStartTime := sessionStartTime m;
     driftCheckInterval := driftCheckInterval m;
     lastDriftCheck := lastDriftCheck m; slouchFrames := slouchFrames m;
     goodPostureFrames := goodPostureFrames m;
     requiredSlouchFrames := requiredSlouchFrames m;
     requiredGoodFrames := requiredGoodFrames m;
     isCurrentlySlouched := isCurrentlySlouched m;
     onSlouchDetected := onSlouchDetected m;
     onPostureCorrected := onPostureCorrected m; stats := stats m |}.

Definition set_sessionStartTime (v : option Z) (m : t) : t :=
  {| isMonitoring := isMonitoring m; sessionStartTime := v;
     driftCheckInterval := driftCheckInterval m;
     lastDriftCheck := lastDriftCheck m; slouchFrames := slouchFrames m;
     goodPostureFrames := goodPostureFrames m;
     requiredSlouchFrames := requiredSlouchFrames m;
     requiredGoodFrames := requiredGoodFrames m;
     isCurrentlySlouched := isCurrentlySlouched m;
     onSlouchDetected := onSlouchDetected m;
     onPostureCorrected := onPostureCorrected m; stats := stats m |}.

Definition set_lastDriftCheck (v : option Z) (m : t) : t :=
  {| isMonitoring := isMonitoring m; sessionStartTime := sessionStartTime m;
     driftCheckInterval := driftCheckInterval m;
     lastDriftCheck := v; slouchFrames := slouchFrames m;
     goodPostureFrames := goodPostureFrames m;
     requiredSlouchFrames := requiredSlouchFrames m;
     requiredGoodFrames := requiredGoodFrames m;
     isCurrentlySlouched := isCurrentlySlouched m;
     onSlouchDetected := onSlouchDetected m;
     onPostureCorrected := onPostureCorrected m; stats := stats m |}.

Definition set_slouchFrames (v : nat) (m : t) : t :=
  {| isMonitoring := isMonitoring m; sessionStartTime := sessionStartTime m;
     driftCheckInterval := driftCheckInterval m;
     lastDriftCheck := lastDriftCheck m; slouchFrames := v;
     goodPostureFrames := goodPostureFrames m;
     requiredSlouchFrames := requiredSlouchFrames m;
     requiredGoodFrames := requiredGoodFrames m;
     isCurrentlySlouched := isCurrentlySlouched m;
     onSlouchDetected := onSlouchDetected m;
     onPostureCorrected := onPostureCorrected m; stats := stats m |}.

Definition set_goodPostureFrames (v : nat) (m : t) : t :=
  {| isMonitoring := isMonitoring m; sessionStartTime := sessionStartTime m;
     driftCheckInterval := driftCheckInterval m;
     lastDriftCheck := lastDriftCheck m; slouchFrames := slouchFrames m;
     goodPostureFrames := v;
     requiredSlouchFrames := requiredSlouchFrames m;
     requiredGoodFrames := requiredGoodFrames m;
     isCurrentlySlouched := isCurrentlySlouched m;
     onSlouchDetected := onSlouchDetected m;
     onPostureCorrected := onPostureCorrected m; stats := stats m |}.

Definition set_isCurrentlySlouched (b : bool) (m : t) : t :=
  {| isMonitoring := isMonitoring m; sessionStartTime := sessionStartTime m;
     driftCheckInterval := driftCheckInterval m;
     lastDriftCheck := lastDriftCheck m; slouchFrames := slouchFrames m;
     goodPostureFrames := goodPostureFrames m;
     requiredSlouchFrames := requiredSlouchFrames m;
     requiredGoodFrames := requiredGoodFrames m;
     isCurrentlySlouched := b;
     onSlouchDetected := onSlouchDetected m;
     onPostureCorrected := onPostureCorrected m; stats := stats m |}.

Definition set_onSlouchDetected (v : option callback) (m : t) : t :=
  {| isMonitoring := isMonitoring m; sessionStartTime := sessionStartTime m;
     driftCheckInterval := driftCheckInterval m;
     lastDriftCheck := lastDriftCheck m; slouchFrames := slouchFrames m;
     goodPostureFrames := goodPostureFrames m;
     requiredSlouchFrames := requiredSlouchFrames m;
     requiredGoodFrames := requiredGoodFrames m;
     isCurrentlySlouched := isCurrentlySlouched m;
     onSlouchDetected := v;
     onPostureCorrected := onPostureCorrected m; stats := stats m |}.

Definition set_onPostureCorrected (v : option callback) (m : t) : t :=
  {| isMonitoring := isMonitoring m; sessionStartTime := sessionStartTime m;
     driftCheckInterval := driftCheckInterval m;
     lastDriftCheck := lastDriftCheck m; slouchFrames := slouchFrames m;
     goodPostureFrames := goodPostureFrames m;
     requiredSlouchFrames := requiredSlouchFrames m;
     requiredGoodFrames := requiredGoodFrames m;
     isCurrentlySlouched := isCurrentlySlouched m;
     onSlouchDetected := onSlouchDetected m;
     onPostureCorrected := v; stats := stats m |}.

Definition set_stats (s : Stats.t) (m : t) : t :=
  {| isMonitoring := isMonitoring m; sessionStartTime := sessionStartTime m;
     driftCheckInterval := driftCheckInterval m;
     lastDriftCheck := lastDriftCheck m; slouchFrames := slouchFrames m;
     goodPostureFrames := goodPostureFrames m;
     requiredSlouchFrames := requiredSlouchFrames m;
     requiredGoodFrames := requiredGoodFrames m;
     isCurrentlySlouched := isCurrentlySlouched m;
     onSlouchDetected := onSlouchDetected m;
     onPostureCorrected := onPostureCorrected m; stats := s |}.

(** *** The calibrated-comparison classifier *)

(** One [if (exceeded) { issues.push(issue); totalDeviation += score; }]
    acting on the pair of local variables [(issues, totalDeviation)]. *)
Definition flag (exceeded : bool) (issue : string) (score : float)
    (acc : list string * float) : list string * float :=
  if exceeded then (fst acc ++ [issue], (snd acc + score)%float) else acc.

(** The five feature blocks of [analyzePostureVsCalibration], in source
    order; the result is the final [(issues, totalDeviation)]. *)
Definition assess (goodPosture : PostureCalibrator.AvgMetrics)
    (cur : PoseDetector.PostureMetrics) : list string * float :=
  let acc := ([], 0%float) in
  (* 1. head-shoulder ratio *)
  let headShoulderDiff :=
    JS.Math_abs (PoseDetector.headShoulderRatio cur
                 - PostureCalibrator.headShoulderRatio goodPosture)%float in
  let headShoulderThreshold :=
    (PostureCalibrator.headShoulderRatio goodPosture * 0.20)%float in
  let acc :=
    flag (JS.gt headShoulderDiff headShoulderThreshold)
         "forward head posture"
         (headShoulderDiff / headShoulderThreshold * 30)%float acc in
  (* 2. shoulder asymmetry *)
  let shoulderAsymDiff :=
    JS.Math_abs (PoseDetector.shoulderAsymmetry cur
                 - PostureCalibrator.shoulderAsymmetry goodPosture)%float in
  let shoulderThreshold :=
    (PostureCalibrator.shoulderAsymmetry goodPosture + 0.05)%float in
  let acc :=
    flag (JS.gt (PoseDetector.shoulderAsymmetry cur) shoulderThreshold)
         "uneven shoulders"
         (shoulderAsymDiff / (shoulderThreshold + 0.01) * 20)%float acc in
  (* 3. torso angle *)
  let torsoAngleDiff :=
    JS.Math_abs (PoseDetector.torsoAngle cur
                 - PostureCalibrator.torsoAngle goodPosture)%float in
  let torsoThreshold := 18%float in
  let acc :=
    flag (JS.gt torsoAngleDiff torsoThreshold)
         "hunched spine"
         (torsoAngleDiff / torsoThreshold * 25)%float acc in
  (* 4. neck angle *)
  let neckAngleDiff :=
    JS.Math_abs (PoseDetector.neckAngle cur
                 - PostureCalibrator.neckAngle goodPosture)%float in
  let neckThreshold := 20%float in
  let acc :=
    flag (JS.gt neckAngleDiff neckThreshold)
         "head tilted down"
         (neckAngleDiff / neckThreshold * 20)%float acc in
  (* 5. forward lean *)
  let forwardLeanDiff :=
    JS.Math_abs (PoseDetector.forwardLean cur
                 - PostureCalibrator.forwardLean goodPosture)%float in
  let leanThreshold :=
    (PostureCalibrator.forwardLean goodPosture * 0.30)%float in
  flag (JS.gt forwardLeanDiff leanThreshold)
       "leaning into screen"
       (forwardLeanDiff / (leanThreshold + 0.01) * 15)%float acc.

(** The degree sign appended to the two angles. *)
Definition degree : string :=
  String (ascii_of_nat 194) (String (ascii_of_nat 176) EmptyString).

Definition viewOf (cur : PoseDetector.PostureMetrics) : MetricsView :=
  {| headShoulder := JS.toFixed (PoseDetector.headShoulderRatio cur) 3;
     shoulders := JS.toFixed (PoseDetector.shoulderAsymmetry cur) 3;
     torso := JS.toFixed (PoseDetector.torsoAngle cur) 1 +++ degree;
     neck := JS.toFixed (PoseDetector.neckAngle cur) 1 +++ degree;
     lean := JS.toFixed (PoseDetector.forwardLean cur) 3 |}.

(** The overall assessment computed from [(issues, totalDeviation)]. *)
Definition verdictOf (acc : list string * float)
    (cur : PoseDetector.PostureMetrics) : PostureAnalysis :=
  let issues := fst acc in
  let totalDeviation := snd acc in
  {| isSlouching := (2 <=? List.length issues) || JS.gt totalDeviation 35;
     issues := issues;
     severity :=
       if JS.gt totalDeviation 60 then severe
       else if JS.gt totalDeviation 40 then moderate
       else mild;
     totalDeviation := JS.toFixed totalDeviation 1;
     currentMetrics := viewOf cur |}.

(** [analyzePostureVsCalibration(currentMetrics)]: reading [goodPosture]
    off a [null] calibration, or a feature off a [null] [goodPosture],
    throws. *)
Definition analyzePostureVsCalibration (cal : PostureCalibrator.t)
    (cur : PoseDetector.PostureMetrics) : Outcome PostureAnalysis :=
  match PostureCalibrator.getCalibrationData cal with
  | None => Threw
  | Some calibration =>
      match PostureCalibrator.goodPosture calibration with
      | None => Threw
      | Some goodPosture => Returned (verdictOf (assess goodPosture cur) cur)
      end
  end.

(** *** Lifecycle *)

(** [start()]; [now] and [now'] are the two readings of [Date.now()]. *)
Definition start (cal : PostureCalibrator.t) (now now' : Z) (m : t)
    : t * bool :=
  if negb (PostureCalibrator.hasCalibration cal) then (m, false)
  else
    ({| isMonitoring := true;
        sessionStartTime := Some now;
        driftCheckInterval := driftCheckInterval m;
        lastDriftCheck := Some now';
        slouchFrames := 0;
        goodPostureFrames := 0;
        requiredSlouchFrames := requiredSlouchFrames m;
        requiredGoodFrames := requiredGoodFrames m;
        isCurrentlySlouched := false;
        onSlouchDetected := onSlouchDetected m;
        onPostureCorrected := onPostureCorrected m;
        stats := Stats.zero |}, true).

Definition stop (m : t) : t := set_isMonitoring false m.

Definition onSlouch (cb : callback) (m : t) : t :=
  set_onSlouchDetected (Some cb) m.

Definition onCorrection (cb : callback) (m : t) : t :=
  set_onPostureCorrected (Some cb) m.

Definition resetSession (now : Z) (m : t) : t :=
  set_isCurrentlySlouched false
    (set_goodPostureFrames 0
       (set_slouchFrames 0 (set_lastDriftCheck (Some now) m))).

(** *** processFrame *)

(** What one call leaves behind: the monitor, the value returned (or the
    exception), and the callbacks invoked, in order. *)
Record Result := {
  state : t;
  outcome : Outcome (option PostureAnalysis);
  calls : list Call
}.

(** The branch taken on a slouching verdict. *)
Definition onSlouchingFrame (postureAnalysis : PostureAnalysis) (m : t)
    : t * list Call :=
  let m := set_slouchFrames (S (slouchFrames m)) m in
  let m := set_goodPostureFrames 0 m in
  let m := set_stats (Stats.incrSlouchFrames (stats m)) m in
  if (requiredSlouchFrames m <=? slouchFrames m)
     && negb (isCurrentlySlouched m) then
    let m := set_isCurrentlySlouched true m in
    let m := set_stats (Stats.incrAlerts (stats m)) m in
    match onSlouchDetected m with
    | Some cb =>
        (m, [SlouchDetected cb
               {| reason := String.concat ", " (issues postureAnalysis);
                  ev_severity := severity postureAnalysis;
                  duration := (JS.of_nat (slouchFrames m) / 10)%float;
                  deviation := totalDeviation postureAnalysis |}])
    | None => (m, [])
    end
  else (m, []).

(** The branch taken on a good verdict. *)
Definition onGoodFrame (m : t) : t * list Call :=
  let m := set_slouchFrames 0 m in
  let m := set_goodPostureFrames (S (goodPostureFrames m)) m in
  let m := set_stats (Stats.incrGoodFrames (stats m)) m in
  if isCurrentlySlouched m
     && (requiredGoodFrames m <=? goodPostureFrames m) then
    let m := set_isCurrentlySlouched false m in
    match onPostureCorrected m with
    | Some cb => (m, [PostureCorrected cb])
    | None => (m, [])
    end
  else (m, []).

(** The 3-minute check: only its bookkeeping is visible (the check itself
    writes to the console).  A [null] [lastDriftCheck] subtracts as 0. *)
Definition driftCheck (now now' : Z) (m : t) : t :=
  let timeSinceLastCheck :=
    (now - match lastDriftCheck m with Some l => l | None => 0 end)%Z in
  if (driftCheckInterval m <=? timeSinceLastCheck)%Z
  then set_lastDriftCheck (Some now') m else m.

(** [processFrame(metrics)]; [None] is a falsy argument.  [now] is the
    clock read for the 3-minute check and [now'] the one stored when the
    check runs. *)
Definition processFrame (cal : PostureCalibrator.t) (now now' : Z)
    (metrics : option PoseDetector.PostureMetrics) (m : t) : Result :=
  match isMonitoring m, metrics with
  | true, Some cur =>
      let m := set_stats (Stats.incrTotalFrames (stats m)) m in
      match analyzePostureVsCalibration cal cur with
      | Threw => {| state := m; outcome := Threw; calls := [] |}
      | Returned postureAnalysis =>
          let '(m, cs) :=
            if isSlouching postureAnalysis
            then onSlouchingFrame postureAnalysis m
            else onGoodFrame m in
          {| state := driftCheck now now' m;
             outcome := Returned (Some postureAnalysis);
             calls := cs |}
      end
  | _, _ => {| state := m; outcome := Returned None; calls := [] |}
  end.

(** *** getStats *)

Record PostureStats := {
  sessionDuration : string;
  postureQuality : string;
  totalAlerts : nat;
  currentState : string
}.

(** [getStats()].  The session length is an integer number of
    milliseconds, so the two divisions and [Math.floor] are the integer
    quotient by 60000; a start time of 0 is falsy. *)
Definition getStats (now : Z) (m : t) : PostureStats :=
  let sessionDuration :=
    match sessionStartTime m with
    | Some s => if (s =? 0)%Z then 0%Z else ((now - s) / 1000 / 60)%Z
    | None => 0%Z
    end in
  let postureQuality :=
    if 0 <? Stats.totalFrames (stats m)
    then JS.toFixed (JS.of_nat (Stats.goodFrames (stats m))
                     / JS.of_nat (Stats.totalFrames (stats m)) * 100)%float 1
    else "0"%string in
  {| sessionDuration := JS.Z_to_string sessionDuration +++ " minutes"%string;
     postureQuality := postureQuality +++ "%"%string;
     totalAlerts := Stats.alerts (stats m);
     currentState :=
       if isCurrentlySlouched m then "SLOUCHED"%string else "GOOD"%string |}.

End CalibratedPostureMonitor.

(* ================================================================= *)
(** ** usePostureMonitor: the detector callback of the hook *)

Module UsePostureMonitor.

(** The callback handed to [detector.start]: landmarks are extracted,
    metrics computed and, when there are metrics, given to
    [processFrame].  [None] means [processFrame] was not called.
    [stamp] is the clock read by [calculatePostureMetrics]. *)
Definition onResults (Math_atan2 : float -> float -> float)
    (cal : PostureCalibrator.t) (stamp now now' : Z)
    (poseLandmarks : option (list PoseDetector.Landmark))
    (m : CalibratedPostureMonitor.t)
    : option CalibratedPostureMonitor.Result :=
  match PoseDetector.extractLandmarks poseLandmarks with
  | None => None
  | Some landmarks =>
      match PoseDetector.calculatePostureMetrics Math_atan2 stamp
              (Some landmarks) with
      | Some metrics =>
          Some (CalibratedPostureMonitor.processFrame cal now now'
                  (Some metrics) m)
      | None => None
      end
  end.

End UsePostureMonitor.

(* ================================================================= *)
(** * Sessions, reference values and sample data

    The definitions the properties are stated with: how a page drives
    the two objects, the values the specification expects, and the data
    of the specification's scenario. *)

(* ----------------------------------------------------------------- *)
(** ** Metrics records and landmark sets *)

Module Landmarks.

Import PoseDetector.

(** Two records that agree on the six geometric features. *)
Definition sameFeatures (r1 r2 : PostureMetrics) : Prop :=
  headShoulderRatio r1 = headShoulderRatio r2 /\
  shoulderAsymmetry r1 = shoulderAsymmetry r2 /\
  torsoAngle r1 = torsoAngle r2 /\
  neckAngle r1 = neckAngle r2 /\
  forwardLean r1 = forwardLean r2 /\
  shoulderWidth r1 = shoulderWidth r2.

(** A landmark set with every point present. *)
Definition complete (lm : PostureLandmarks) : Prop :=
  exists n ls rs lh rh le re,
    nose lm = Some n /\ leftShoulder lm = Some ls /\
    rightShoulder lm = Some rs /\ leftHip lm = Some lh /\
    rightHip lm = Some rh /\ leftEar lm = Some le /\ rightEar lm = Some re.

End Landmarks.

(* ----------------------------------------------------------------- *)
(** ** Driving the calibration store *)

Module Calibration.

Import PostureCalibrator.

(** [addCalibrationFrame(M)] called once per clock reading of [nows]. *)
Fixpoint addFrames (nows : list Z) (M : PoseDetector.PostureMetrics)
    (c : t) : t :=
  match nows with
  | [] => c
  | now :: rest => addFrames rest M (fst (addCalibrationFrame now (Some M) c))
  end.

(** The store right after [startCalibration(kind)] followed by
    [requiredFrames] calls of [addCalibrationFrame(M)]. *)
Definition calibrated (kind : string) (nows : list Z)
    (M : PoseDetector.PostureMetrics) (c : t) : t :=
  addFrames nows M (startCalibration (Some kind) c).

(** The baseline stored for a posture type:
    [calibrationData[kind + 'Posture']]. *)
Definition baselineFor (kind : string) (c : t) : option AvgMetrics :=
  match calibrationData c with
  | Some d =>
      let key := String.append kind "Posture" in
      if String.eqb key "goodPosture" then goodPosture d
      else if String.eqb key "slouchedPosture" then slouchedPosture d
      else option_map snd
             (find (fun kv => String.eqb key (fst kv)) (otherPostures d))
  | None => None
  end.

(** [acc + v + ... + v] ([n] additions, left to right) and the mean the
    store computes from [n] equal samples. *)
Fixpoint sumOf (n : nat) (v acc : float) : float :=
  match n with
  | O => acc
  | S k => sumOf k v (acc + v)%float
  end.

Definition meanOf (n : nat) (v : float) : float :=
  (sumOf n v 0 / JS.of_nat n)%float.

End Calibration.

(* ----------------------------------------------------------------- *)
(** ** The feature table of the specification *)

Module FeatureTable.

Import CalibratedPostureMonitor.

(** One row per feature: whether its tolerance is exceeded, the issue it
    names, its deviation [diff], the divisor of the deviation and its
    weight.  [pad] maps the tolerance of [shoulderAsymmetry] and of
    [forwardLean] to the divisor used for them: the identity gives the
    table as the specification words it ([diff / tolerance]). *)

Record Rule := {
  exceeded : bool;
  issue : string;
  diff : float;
  divisor : float;
  weight : float
}.

Definition rules (pad : float -> float)
    (good : PostureCalibrator.AvgMetrics)
    (cur : PoseDetector.PostureMetrics) : list Rule :=
  let d1 := JS.Math_abs (PoseDetector.headShoulderRatio cur
                         - PostureCalibrator.headShoulderRatio good)%float in
  let t1 := (PostureCalibrator.headShoulderRatio good * 0.20)%float in
  let d2 := JS.Math_abs (PoseDetector.shoulderAsymmetry cur
                         - PostureCalibrator.shoulderAsymmetry good)%float in
  let t2 := (PostureCalibrator.shoulderAsymmetry good + 0.05)%float in
  let d3 := JS.Math_abs (PoseDetector.torsoAngle cur
                         - PostureCalibrator.torsoAngle good)%float in
  let d4 := JS.Math_abs (PoseDetector.neckAngle cur
                         - PostureCalibrator.neckAngle good)%float in
  let d5 := JS.Math_abs (PoseDetector.forwardLean cur
                         - PostureCalibrator.forwardLean good)%float in
  let t5 := (PostureCalibrator.forwardLean good * 0.30)%float in
  [ {| exceeded := JS.gt d1 t1; issue := "forward head posture";
       diff := d1; divisor := t1; weight := 30 |};
    {| exceeded := JS.gt (PoseDetector.shoulderAsymmetry cur) t2;
       issue := "uneven shoulders";
       diff := d2; divisor := pad t2; weight := 20 |};
    {| exceeded := JS.gt d3 18; issue := "hunched spine";
       diff := d3; divisor := 18; weight := 25 |};
    {| exceeded := JS.gt d4 20; issue := "head tilted down";
       diff := d4; divisor := 20; weight := 20 |};
    {| exceeded := JS.gt d5 t5; issue := "leaning into screen";
       diff := d5; divisor := pad t5; weight := 15 |} ].

(** The table as the specification states it. *)
Definition statedRules := rules (fun tolerance => tolerance).

(** The table with 0.01 added to the two baseline-relative tolerances
    before dividing. *)
Definition paddedRules := rules (fun tolerance => (tolerance + 0.01)%float).

Definition exceededRules (rs : list Rule) : list Rule := filter exceeded rs.

(** Sum over the exceeded features of [(diff / divisor) * weight]. *)
Definition deviationOf (rs : list Rule) : float :=
  fold_left (fun acc r => (acc + diff r / divisor r * weight r)%float)
            (exceededRules rs) 0%float.

Definition slouchingBy (rs : list Rule) : bool :=
  (2 <=? List.length (exceededRules rs)) || JS.gt (deviationOf rs) 35.

Definition severityBy (rs : list Rule) : Severity :=
  if JS.gt (deviationOf rs) 60 then severe
  else if JS.gt (deviationOf rs) 40 then moderate
  else mild.

End FeatureTable.

(* ----------------------------------------------------------------- *)
(** ** Driving the monitor *)

Module Session.

Import CalibratedPostureMonitor.

(** One delivery of the detector: the two clock readings of the call and
    the metrics argument. *)
Record Frame := {
  readAt : Z;
  markAt : Z;
  metricsOf : option PoseDetector.PostureMetrics
}.

Definition feed (cal : PostureCalibrator.t) (f : Frame) (m : t) : Result :=
  processFrame cal (readAt f) (markAt f) (metricsOf f) m.

(** Frames processed one after the other; the calls are concatenated. *)
Fixpoint processFrames (cal : PostureCalibrator.t) (frames : list Frame)
    (m : t) : t * list Call :=
  match frames with
  | [] => (m, [])
  | f :: rest =>
      let r := feed cal f m in
      let '(m', cs) := processFrames cal rest (state r) in
      (m', calls r ++ cs)
  end.

(** How often each callback was invoked. *)
Definition isSlouchDetected (c : Call) : bool :=
  match c with SlouchDetected _ _ => true | PostureCorrected _ => false end.

Definition isPostureCorrected (c : Call) : bool :=
  match c with SlouchDetected _ _ => false | PostureCorrected _ => true end.

Definition slouchAlerts (cs : list Call) : nat :=
  List.length (filter isSlouchDetected cs).

Definition corrections (cs : list Call) : nat :=
  List.length (filter isPostureCorrected cs).

(** The classifier's verdict on a frame, when it has one. *)
Definition verdict (cal : PostureCalibrator.t) (f : Frame) : option bool :=
  match metricsOf f with
  | Some cur =>
      match analyzePostureVsCalibration cal cur with
      | Returned a => Some (isSlouching a)
      | Threw => None
      end
  | None => None
  end.

Definition slouchingFrame (cal : PostureCalibrator.t) (f : Frame) : bool :=
  match verdict cal f with Some true => true | _ => false end.

Definition goodFrame (cal : PostureCalibrator.t) (f : Frame) : bool :=
  match verdict cal f with Some false => true | _ => false end.

(** The part of the monitor that [processFrame] never writes. *)
Definition config (m : t) :=
  (isMonitoring m, requiredSlouchFrames m, requiredGoodFrames m,
   onSlouchDetected m, onPostureCorrected m).

(** The calls a page makes on the monitor. *)
Inductive Op :=
| Start (now now' : Z)
| Stop
| ProcessFrame (now now' : Z) (metrics : option PoseDetector.PostureMetrics)
| ResetSession (now : Z)
| OnSlouch (cb : callback)
| OnCorrection (cb : callback).

Definition perform (cal : PostureCalibrator.t) (m : t) (op : Op) : t :=
  match op with
  | Start now now' => fst (start cal now now' m)
  | Stop => stop m
  | ProcessFrame now now' metrics => state (processFrame cal now now' metrics m)
  | ResetSession now => resetSession now m
  | OnSlouch cb => onSlouch cb m
  | OnCorrection cb => onCorrection cb m
  end.

(** The monitor after a sequence of calls on a new instance, the
    calibrator being left alone meanwhile. *)
Definition session (cal : PostureCalibrator.t) (ops : list Op) : t :=
  fold_left (perform cal) ops new.

Definition balanced (m : t) : Prop :=
  Stats.totalFrames (stats m)
  = Stats.slouchFrames (stats m) + Stats.goodFrames (stats m).

(** What every call preserves: the counts are balanced, and a running
    monitor has a complete calibration behind it. *)
Definition sound (cal : PostureCalibrator.t) (m : t) : Prop :=
  balanced m /\
  (isMonitoring m = true -> PostureCalibrator.hasCalibration cal = true).

End Session.

(* ----------------------------------------------------------------- *)
(** ** Sample data *)

Module SamplePoses.

Import PoseDetector.

(** A sitting pose, shoulders level at [y = 0.4]. *)
Definition sittingPose : PostureLandmarks :=
  {| nose := Some (point 0.5 0.2 (-0.3));
     leftShoulder := Some (point 0.6 0.4 (-0.1));
     rightShoulder := Some (point 0.4 0.4 (-0.1));
     leftHip := Some (point 0.58 0.8 0);
     rightHip := Some (point 0.42 0.8 0);
     leftEar := Some (point 0.55 0.22 (-0.2));
     rightEar := Some (point 0.45 0.22 (-0.2)) |}.

(** The same pose with both shoulders reported at one point. *)
Definition collapsedShoulders : PostureLandmarks :=
  {| nose := nose sittingPose;
     leftShoulder := Some (point 0.5 0.4 (-0.1));
     rightShoulder := Some (point 0.5 0.4 (-0.1));
     leftHip := leftHip sittingPose;
     rightHip := rightHip sittingPose;
     leftEar := leftEar sittingPose;
     rightEar := rightEar sittingPose |}.

End SamplePoses.

Module SampleStores.

Import PostureCalibrator Calibration.

Definition sample (h s t n f : float) : PoseDetector.PostureMetrics :=
  {| PoseDetector.headShoulderRatio := h;
     PoseDetector.shoulderAsymmetry := s;
     PoseDetector.torsoAngle := t;
     PoseDetector.neckAngle := n;
     PoseDetector.forwardLean := f;
     PoseDetector.shoulderWidth := 0.4;
     PoseDetector.timestamp := 0 |}.

(** The good posture of the specification's scenario. *)
Definition uprightSample : PoseDetector.PostureMetrics :=
  sample 0.30 0.02 5 30 0.1.

Definition slouchedSample : PoseDetector.PostureMetrics :=
  sample 0.45 0.02 25 30 0.1.

(** The good posture, leaning 0.09 further into the screen. *)
Definition leaningSample : PoseDetector.PostureMetrics :=
  sample 0.30 0.02 5 30 0.19.

(** A store holding exactly the two baselines of the specification's
    scenario. *)
Definition scenarioGood : PostureCalibrator.AvgMetrics :=
  {| PostureCalibrator.headShoulderRatio := 0.30;
     PostureCalibrator.shoulderAsymmetry := 0.02;
     PostureCalibrator.torsoAngle := 5;
     PostureCalibrator.neckAngle := 30;
     PostureCalibrator.forwardLean := 0.1 |}.

Definition scenarioSlouched : PostureCalibrator.AvgMetrics :=
  {| PostureCalibrator.headShoulderRatio := 0.45;
     PostureCalibrator.shoulderAsymmetry := 0.02;
     PostureCalibrator.torsoAngle := 25;
     PostureCalibrator.neckAngle := 30;
     PostureCalibrator.forwardLean := 0.1 |}.

Definition scenarioStore : PostureCalibrator.t :=
  {| PostureCalibrator.calibrationData :=
       Some {| PostureCalibrator.goodPosture := Some scenarioGood;
               PostureCalibrator.slouchedPosture := Some scenarioSlouched;
               PostureCalibrator.calibratedAt := 0;
               PostureCalibrator.otherPostures := [] |};
     PostureCalibrator.isCalibrating := false;
     PostureCalibrator.calibrationFrames := [];
     PostureCalibrator.requiredFrames := 60;
     PostureCalibrator.currentPostureType := Some "slouched"%string |}.

(** A store calibrated for both postures from sixty equal frames each. *)
Definition calibratedStore : t :=
  calibrated "slouched" (repeat 0%Z 60) slouchedSample
    (calibrated "good" (repeat 0%Z 60) uprightSample new).

Definition storedGood : AvgMetrics :=
  {| headShoulderRatio := meanOf 60 0.30;
     shoulderAsymmetry := meanOf 60 0.02;
     torsoAngle := 5;
     neckAngle := 30;
     forwardLean := meanOf 60 0.1 |}.

End SampleStores.

Module SampleSessions.

Import CalibratedPostureMonitor Session.

Definition slouchedFrame : Frame :=
  {| readAt := 2000; markAt := 2000;
     metricsOf := Some SampleStores.slouchedSample |}.

Definition uprightFrame : Frame :=
  {| readAt := 3000; markAt := 3000;
     metricsOf := Some SampleStores.uprightSample |}.

(** The monitor of the constructor with both callbacks registered, then
    started on the calibrated store. *)
Definition wired : t := onCorrection 2 (onSlouch 1 new).

Definition started : t :=
  fst (start SampleStores.calibratedStore 1000 1000 wired).

(** The monitor once the alert is up, and nine good frames later. *)
Definition alerted : t :=
  fst (processFrames SampleStores.calibratedStore
         (repeat slouchedFrame 100) started).

Definition nineGoodFramesLater : t :=
  fst (processFrames SampleStores.calibratedStore
         (repeat uprightFrame 9) alerted).

(** A monitor that has counted five good frames out of six. *)
Definition fiveGoodOfSix : t :=
  set_stats {| Stats.totalFrames := 6; Stats.slouchFrames := 1;
               Stats.goodFrames := 5; Stats.alerts := 0 |} started.

(** A session of 57 slouching frames followed by 23 good ones. *)
Definition twentyThreeOfEighty : t :=
  fst (processFrames SampleStores.calibratedStore
         (repeat slouchedFrame 57 ++ repeat uprightFrame 23) started).

End SampleSessions.

(* ----------------------------------------------------------------- *)
(** ** Sequences of calls on the calibration store *)

Module CalibratorSessions.

Import PostureCalibrator.

(** The calls a page makes on the store; [LoadCalibration] carries the
    storage it reads. *)
Inductive Op :=
| StartCalibration (posturType : option string)
| AddCalibrationFrame (now : Z)
    (metrics : option PoseDetector.PostureMetrics)
| CompleteCalibration (now : Z)
| ClearCalibration
| LoadCalibration (userId : option string) (st : Storage).

Definition perform (c : t) (op : Op) : t :=
  match op with
  | StartCalibration posturType => startCalibration posturType c
  | AddCalibrationFrame now metrics =>
      fst (addCalibrationFrame now metrics c)
  | CompleteCalibration now => fst (completeCalibration now c)
  | ClearCalibration => clearCalibration c
  | LoadCalibration userId st => fst (loadCalibration userId st c)
  end.

Definition session (ops : list Op) : t := fold_left perform ops new.

(** The five property names of a baseline. *)
Definition featureNames : list string :=
  ["headShoulderRatio"; "shoulderAsymmetry"; "torsoAngle"; "neckAngle";
   "forwardLean"]%string.

Definition isFeature (metric : string) : bool :=
  existsb (String.eqb metric) featureNames.

(** The relative deviation [checkIfRecalibrationNeeded] computes for one
    property of the sample. *)
Definition deviationFrom (calibrated : AvgMetrics) (kv : string * float)
    : float :=
  JS.Math_abs ((snd kv - prop calibrated (fst kv))
               / prop calibrated (fst kv))%float.

(** Numbers that [JSON] writes and reads back unchanged, feature by
    feature. *)
Definition safeMetrics (a : AvgMetrics) : bool :=
  jsonSafe (headShoulderRatio a) && jsonSafe (shoulderAsymmetry a)
  && jsonSafe (torsoAngle a) && jsonSafe (neckAngle a)
  && jsonSafe (forwardLean a).

Definition safeBaseline (b : option AvgMetrics) : bool :=
  match b with Some a => safeMetrics a | None => true end.

Definition safeData (d : CalibrationData) : bool :=
  safeBaseline (goodPosture d) && safeBaseline (slouchedPosture d)
  && forallb (fun kv => safeMetrics (snd kv)) (otherPostures d).

(** The [userId] a call uses: the argument, or 'default'. *)
Definition userOf (userId : option string) : string :=
  match userId with Some u => u | None => "default"%string end.

Definition emptyStorage : Storage :=
  {| postureCalibration := None; refusesWrites := false |}.

End CalibratorSessions.

(* ----------------------------------------------------------------- *)
(** ** Calibration runs *)

Module CalibrationRuns.

Import PostureCalibrator.

(** One call of [addCalibrationFrame]: the clock reading and the metrics
    argument ([None] for a frame without metrics). *)
Definition Delivery : Type := Z * option PoseDetector.PostureMetrics.

Fixpoint collectFrames (run : list Delivery) (c : t) : t :=
  match run with
  | [] => c
  | (now, metrics) :: rest =>
      collectFrames rest (fst (addCalibrationFrame now metrics c))
  end.

(** [startCalibration(kind)] followed by the calls of [run]. *)
Definition calibrationRun (kind : string) (run : list Delivery) (c : t)
    : t :=
  collectFrames run (startCalibration (Some kind) c).

(** The metrics records a run delivers, in order. *)
Fixpoint metricsIn (run : list Delivery)
    : list PoseDetector.PostureMetrics :=
  match run with
  | [] => []
  | (_, Some M) :: rest => M :: metricsIn rest
  | (_, None) :: rest => metricsIn rest
  end.

(** The store while it collects, holding the frames [fs]. *)
Definition collecting (c : t) (fs : list PoseDetector.PostureMetrics) : t :=
  {| calibrationData := calibrationData c;
     isCalibrating := true;
     calibrationFrames := fs;
     requiredFrames := requiredFrames c;
     currentPostureType := currentPostureType c |}.

(** The store once the frames [fs] were averaged at time [now]. *)
Definition finalized (c : t) (now : Z)
    (fs : list PoseDetector.PostureMetrics) : t :=
  {| calibrationData :=
       Some (setPosture (currentPostureType c) (calculateAverageMetrics fs)
               match calibrationData c with
               | Some d => d
               | None => {| goodPosture := None; slouchedPosture := None;
                            calibratedAt := now; otherPostures := [] |}
               end);
     isCalibrating := false;
     calibrationFrames := fs;
     requiredFrames := requiredFrames c;
     currentPostureType := currentPostureType c |}.

(** Two runs of 70 frames with metrics each, the records alternating
    between two postures and every other call carrying no metrics. *)
Definition mixedGoodRun : list Delivery :=
  flat_map
    (fun i =>
       [(Z.of_nat i,
         Some (if Nat.even i then SampleStores.uprightSample
               else SampleStores.leaningSample));
        (Z.of_nat i, None)])
    (seq 0 70).

Definition mixedSlouchedRun : list Delivery :=
  flat_map
    (fun i =>
       [(Z.of_nat i, None);
        (Z.of_nat i,
         Some (if Nat.even i then SampleStores.slouchedSample
               else SampleStores.leaningSample))])
    (seq 100 70).

End CalibrationRuns.

(* ----------------------------------------------------------------- *)
(** ** Reading a printed percentage *)

Module Numerals.

Open Scope Z_scope.

(** The value of a decimal digit character. *)
Definition digit_of (c : ascii) : option Z :=
  let n := Z.of_nat (nat_of_ascii c) in
  if (48 <=? n) && (n <=? 57) then Some (n - 48) else None.

(** A string of decimal digits read left to right, [acc] being the value
    read so far. *)
Fixpoint read_digits (s : string) (acc : Z) : option Z :=
  match s with
  | EmptyString => Some acc
  | String c rest =>
      match digit_of c with
      | Some d => read_digits rest (10 * acc + d)
      | None => None
      end
  end.

(** A numeral: at least one digit, and no leading zero unless it is the
    single digit 0. *)
Definition read_natural (s : string) : option Z :=
  match s with
  | EmptyString => None
  | String c rest =>
      match rest, digit_of c with
      | String _ _, Some 0 => None
      | _, _ => read_digits s 0
      end
  end.

(** The text before the first point and the text after it. *)
Fixpoint before_point (s : string) : option (string * string) :=
  match s with
  | EmptyString => None
  | String c rest =>
      if Ascii.eqb c "."%char then Some (EmptyString, rest)
      else
        match before_point rest with
        | Some (a, b) => Some (String c a, b)
        | None => None
        end
  end.

(** A percentage with one decimal, [<numeral>.<digit>%], read as a
    number of tenths; any other text is refused. *)
Definition readTenths (s : string) : option Z :=
  match before_point s with
  | Some (whole, String d (String p EmptyString)) =>
      if Ascii.eqb p "%"%char then
        match read_natural whole, digit_of d with
        | Some w, Some f => Some (10 * w + f)
        | _, _ => None
        end
      else None
  | _ => None
  end.

(** Every character is one of the ten digits. *)
Fixpoint digits_only (s : string) : Prop :=
  match s with
  | EmptyString => True
  | String c rest =>
      (exists d, 0 <= d <= 9 /\ c = JS.digit_char d) /\ digits_only rest
  end.

Close Scope Z_scope.

End Numerals.

(* ----------------------------------------------------------------- *)
(** ** Posture quality *)

Module PostureQuality.

Open Scope Z_scope.

(** [nearestTenth x n]: [x] is a non-negative double below 10^21 and [n]
    is the integer nearest to [10 * x], a tie going up.  For
    [x = m * 2^e] with [e < 0] this is [n - 1/2 <= 10 * m * 2^e < n + 1/2],
    cleared of denominators. *)
Definition nearestTenth (x : float) (n : Z) : Prop :=
  match Prim2SF x with
  | S754_zero _ => n = 0
  | S754_finite false m e =>
      if e <? 0 then
        2 ^ (- e) * (2 * n - 1) <= 2 * (Zpos m * 10)
          < 2 ^ (- e) * (2 * n + 1)
      else Zpos m * 2 ^ e < 10 ^ 21 /\ n = Zpos m * 2 ^ e * 10
  | _ => False
  end.

(** The posture quality as the specification words it:
    [goodFrames / totalFrames * 100] in exact arithmetic, rounded to one
    decimal (a tie going up) and counted in tenths; 0 when [totalFrames]
    is 0. *)
Definition statedPostureQuality (s : Stats.t) : Z :=
  let good := Z.of_nat (Stats.goodFrames s) in
  let total := Z.of_nat (Stats.totalFrames s) in
  if total =? 0 then 0
  else (2 * (1000 * good) + total) / (2 * total).

Close Scope Z_scope.

End PostureQuality.

(* ----------------------------------------------------------------- *)
(** ** Runs of the quick reference *)

Module ReferenceRuns.

Import QuickReference.

(** One call of the collector: the calibrator at that moment and the
    metrics argument. *)
Definition Delivery : Type :=
  PostureCalibrator.t * option PoseDetector.PostureMetrics.

(** The collector called on each delivery in turn; the progress reports
    are gathered in order. *)
Fixpoint collect (onProgress : bool) (ds : list Delivery) (q : t)
    : t * list ReferenceProgress :=
  match ds with
  | [] => (q, [])
  | (c, metrics) :: rest =>
      let '(q1, report) := collectFrame c onProgress metrics q in
      let '(q2, reports) := collect onProgress rest q1 in
      (q2, match report with
           | Some r => r :: reports
           | None => reports
           end)
  end.

Definition carriesMetrics (d : Delivery) : bool :=
  match snd d with Some _ => true | None => false end.

End ReferenceRuns.

(* ----------------------------------------------------------------- *)
(** ** Views of the monitor *)

Module MonitorViews.

Import CalibratedPostureMonitor.

(** The monitor without its drift-check clock. *)
Definition timeless (m : t) : t := set_lastDriftCheck None m.

(** The two streak counters are never both running. *)
Definition oneStreak (m : t) : Prop :=
  slouchFrames m = 0 \/ goodPostureFrames m = 0.

(** The calibrator has no good-posture baseline to compare with. *)
Definition noBaseline (cal : PostureCalibrator.t) : Prop :=
  PostureCalibrator.calibrationData cal = None \/
  exists d,
    PostureCalibrator.calibrationData cal = Some d /\
    PostureCalibrator.goodPosture d = None.

(** The frames that carry metrics. *)
Definition hasMetrics (f : Session.Frame) : bool :=
  match Session.metricsOf f with Some _ => true | None => false end.

Definition withMetrics (frames : list Session.Frame) : list Session.Frame :=
  filter hasMetrics frames.

(** The statistics with [n] more frames in [totalFrames] only. *)
Definition countedOnly (n : nat) (s : Stats.t) : Stats.t :=
  {| Stats.totalFrames := Stats.totalFrames s + n;
     Stats.slouchFrames := Stats.slouchFrames s;
     Stats.goodFrames := Stats.goodFrames s;
     Stats.alerts := Stats.alerts s |}.

End MonitorViews.

(* ================================================================= *)
(** * Properties *)

(** ** Decimal output of numbers *)

Module ToFixedProps.

Open Scope Z_scope.

(** For a finite value [m * 2^e] with [e < 0], the integer that
    [toFixed(f)] prints is the one nearest to [m * 2^e * 10^f], a tie
    going up: [n - 1/2 <= m * 10^f / 2^(-e) < n + 1/2], here cleared of
    denominators. *)
Lemma round_scaled_nearest (m : positive) (e : Z) (f : nat) :
  e < 0 ->
  2 ^ (- e) * (2 * JS.round_scaled m e f - 1)
    <= 2 * (Zpos m * 10 ^ Z.of_nat f)
    < 2 ^ (- e) * (2 * JS.round_scaled m e f + 1).
Proof.
  intro He. unfold JS.round_scaled.
  destruct (Z.leb_spec 0 e) as [Hge|_]; [lia|].
  set (num := Zpos m * 10 ^ Z.of_nat f).
  set (den := 2 ^ (- e)).
  assert (Hden : 0 < den) by (apply Z.pow_pos_nonneg; lia).
  pose proof (Z.mul_div_le (2 * num + den) (2 * den) ltac:(lia)) as Hlo.
  pose proof (Z.mul_succ_div_gt (2 * num + den) (2 * den) ltac:(lia)) as Hhi.
  nia.
Qed.

Example toFixed_rounds_up_a_tie : JS.toFixed 6.25 1 = "6.3"%string.
Proof. vm_compute. reflexivity. Qed.

Example toFixed_reads_the_double : JS.toFixed 0.15 1 = "0.1"%string.
Proof. vm_compute. reflexivity. Qed.

Example toFixed_pads : JS.toFixed 5 3 = "5.000"%string.
Proof. vm_compute. reflexivity. Qed.

Example toFixed_nan : JS.toFixed nan 1 = "NaN"%string.
Proof. vm_compute. reflexivity. Qed.

Example toFixed_large : JS.toFixed 1.5e300 1 = "1.5e+300"%string.
Proof. vm_compute. reflexivity. Qed.

Close Scope Z_scope.

End ToFixedProps.

(* ----------------------------------------------------------------- *)
(** ** Printed numerals read back *)

Module NumeralProps.

Import Numerals.

Open Scope Z_scope.

Local Infix "+++" := String.append (at level 60, right associativity).

Lemma digit_cases (d : Z) :
  0 <= d <= 9 ->
  d = 0 \/ d = 1 \/ d = 2 \/ d = 3 \/ d = 4 \/ d = 5 \/ d = 6 \/ d = 7
  \/ d = 8 \/ d = 9.
Proof. lia. Qed.

Ltac each_digit H :=
  apply digit_cases in H;
  repeat (destruct H as [H | H]); subst.

Lemma digit_of_digit_char (d : Z) :
  0 <= d <= 9 -> digit_of (JS.digit_char d) = Some d.
Proof. intro H. each_digit H; reflexivity. Qed.

Lemma digit_char_not_point (d : Z) :
  0 <= d <= 9 -> Ascii.eqb (JS.digit_char d) "."%char = false.
Proof. intro H. each_digit H; reflexivity. Qed.

Lemma append_assoc (a b c : string) : (a +++ b) +++ c = a +++ b +++ c.
Proof. induction a as [|x a IH]; cbn; [reflexivity | now rewrite IH]. Qed.

Lemma length_append (a b : string) :
  String.length (a +++ b) = (String.length a + String.length b)%nat.
Proof. induction a as [|x a IH]; cbn; [reflexivity | now rewrite IH]. Qed.

Lemma substring_prefix (a b : string) :
  substring 0 (String.length a) (a +++ b) = a.
Proof.
  induction a as [|x a IH]; cbn.
  - destruct b; reflexivity.
  - now rewrite IH.
Qed.

Lemma substring_suffix (a : string) (c : ascii) :
  substring (String.length a) 1 (a +++ String c EmptyString)
  = String c EmptyString.
Proof. induction a as [|x a IH]; cbn; [reflexivity | exact IH]. Qed.

(** *** The digits of a natural number *)

Lemma digits_fuel_acc (fuel : nat) :
  forall n acc,
    JS.digits_fuel fuel n acc = JS.digits_fuel fuel n EmptyString +++ acc.
Proof.
  induction fuel as [|k IH]; intros n acc; cbn [JS.digits_fuel].
  - reflexivity.
  - destruct (n / 10 =? 0); [reflexivity|].
    rewrite (IH (n / 10) (String _ acc)), (IH (n / 10) (String _ EmptyString)).
    rewrite append_assoc. reflexivity.
Qed.

Lemma digits_fuel_enough (f1 : nat) :
  forall f2 n acc,
    0 <= n -> n < 10 ^ Z.of_nat (S f1) -> n < 10 ^ Z.of_nat (S f2) ->
    JS.digits_fuel (S f1) n acc = JS.digits_fuel (S f2) n acc.
Proof.
  induction f1 as [|k IH]; intros f2 n acc H0 H1 H2;
    cbn [JS.digits_fuel];
    destruct (Z.eqb_spec (n / 10) 0) as [E | E]; try reflexivity.
  - exfalso. apply E. apply Z.div_small. change (10 ^ Z.of_nat 1) with 10 in H1.
    lia.
  - assert (Hq : 0 < n / 10) by (pose proof (Z.div_pos n 10 H0); lia).
    destruct f2 as [|j].
    + exfalso. apply E. apply Z.div_small.
      change (10 ^ Z.of_nat 1) with 10 in H2. lia.
    + apply IH; try lia.
      * apply Z.div_lt_upper_bound; [lia|].
        rewrite <- Z.pow_succ_r by lia. now rewrite <- Nat2Z.inj_succ.
      * apply Z.div_lt_upper_bound; [lia|].
        rewrite <- Z.pow_succ_r by lia. now rewrite <- Nat2Z.inj_succ.
Qed.

Lemma fuel_suffices (n : Z) :
  0 <= n -> n < 10 ^ Z.of_nat (S (Z.to_nat (Z.log2 n))).
Proof.
  intro H0.
  rewrite Nat2Z.inj_succ, Z2Nat.id by apply Z.log2_nonneg.
  destruct (Z.eq_dec n 0) as [-> | Hn]; [reflexivity|].
  pose proof (Z.log2_spec n ltac:(lia)) as [_ Hlt].
  apply Z.lt_le_trans with (1 := Hlt).
  apply Z.pow_le_mono_l. pose proof (Z.log2_nonneg n). lia.
Qed.

Lemma Z_digits_small (n : Z) :
  0 <= n < 10 -> JS.Z_digits n = String (JS.digit_char n) EmptyString.
Proof.
  intro H. unfold JS.Z_digits. cbn [JS.digits_fuel].
  rewrite (Z.div_small n 10 H), (Z.mod_small n 10 H). reflexivity.
Qed.

Lemma Z_digits_step (n : Z) :
  10 <= n ->
  JS.Z_digits n
  = JS.Z_digits (n / 10) +++ String (JS.digit_char (n mod 10)) EmptyString.
Proof.
  intro H. unfold JS.Z_digits at 1. cbn [JS.digits_fuel].
  assert (Hq : 0 < n / 10).
  { apply Z.div_str_pos. lia. }
  destruct (Z.eqb_spec (n / 10) 0) as [E | _]; [lia|].
  rewrite digits_fuel_acc. f_equal.
  pose proof (fuel_suffices n ltac:(lia)) as Hn.
  destruct (Z.to_nat (Z.log2 n)) as [|f] eqn:Ef.
  - change (10 ^ Z.of_nat 1) with 10 in Hn. lia.
  - unfold JS.Z_digits. apply digits_fuel_enough; try lia.
    + apply Z.div_lt_upper_bound; [lia|].
      rewrite <- Z.pow_succ_r by lia. now rewrite <- Nat2Z.inj_succ.
    + apply fuel_suffices. lia.
Qed.

Lemma read_digits_snoc (s : string) (c : ascii) :
  forall acc,
    read_digits (s +++ String c EmptyString) acc
    = match read_digits s acc, digit_of c with
      | Some v, Some d => Some (10 * v + d)
      | _, _ => None
      end.
Proof.
  induction s as [|x s IH]; intro acc; cbn.
  - destruct (digit_of c); reflexivity.
  - destruct (digit_of x); [apply IH | reflexivity].
Qed.

(** The digits printed for [n] read back as [n], are digits only, and
    start with a digit other than 0 unless [n] is 0. *)
Lemma Z_digits_reads_back (n : Z) :
  0 <= n ->
  read_digits (JS.Z_digits n) 0 = Some n
  /\ digits_only (JS.Z_digits n)
  /\ exists d rest,
       JS.Z_digits n = String (JS.digit_char d) rest
       /\ 0 <= d <= 9 /\ (0 < n -> 0 < d).
Proof.
  revert n. apply (Zlt_0_ind (fun n =>
    read_digits (JS.Z_digits n) 0 = Some n
    /\ digits_only (JS.Z_digits n)
    /\ exists d rest,
         JS.Z_digits n = String (JS.digit_char d) rest
         /\ 0 <= d <= 9 /\ (0 < n -> 0 < d))).
  intros n IH H0.
  destruct (Z_lt_le_dec n 10) as [Hs | Hb].
  - rewrite (Z_digits_small n) by lia. cbn [read_digits digits_only].
    rewrite digit_of_digit_char by lia.
    repeat split; try (f_equal; lia).
    + exists n. split; [lia | reflexivity].
    + exists n, EmptyString. repeat split; lia.
  - rewrite (Z_digits_step n Hb).
    assert (Hq : 0 < n / 10) by (apply Z.div_str_pos; lia).
    assert (Hlt : n / 10 < n) by (apply Z.div_lt; lia).
    destruct (IH (n / 10) ltac:(lia)) as (Hr & Hd & d & rest & Hs & Hd9 & Hpos).
    pose proof (Z.mod_pos_bound n 10 ltac:(lia)) as Hm.
    split; [|split].
    + rewrite read_digits_snoc, Hr, digit_of_digit_char by lia.
      f_equal. pose proof (Z.div_mod n 10 ltac:(lia)). lia.
    + clear - Hd Hm. induction (JS.Z_digits (n / 10)) as [|x s IHs]; cbn.
      * split; [|exact I]. exists (n mod 10). split; [lia | reflexivity].
      * destruct Hd as [Hx Hs]. split; [exact Hx | exact (IHs Hs)].
    + exists d, (rest +++ String (JS.digit_char (n mod 10)) EmptyString).
      rewrite Hs. repeat split; lia.
Qed.

Lemma read_natural_Z_digits (n : Z) :
  0 <= n -> read_natural (JS.Z_digits n) = Some n.
Proof.
  intro H0.
  destruct (Z_digits_reads_back n H0) as (Hr & _ & d & rest & Hs & Hd9 & Hpos).
  unfold read_natural. rewrite <- Hr. rewrite Hs.
  destruct rest as [|y rest]; [reflexivity|].
  rewrite digit_of_digit_char by exact Hd9.
  destruct d as [|p|p]; try reflexivity.
  exfalso.
  assert (Hn : 0 < n).
  { destruct (Z_lt_le_dec n 10) as [Hsm | Hb]; [|lia].
    rewrite (Z_digits_small n) in Hs by lia. discriminate Hs. }
  specialize (Hpos Hn). lia.
Qed.

Lemma before_point_digits (s t : string) :
  digits_only s ->
  before_point (s +++ String "."%char t) = Some (s, t).
Proof.
  induction s as [|x s IH]; intro H; [reflexivity|].
  destruct H as [(d & Hd & ->) Hs].
  cbn [String.append before_point].
  rewrite digit_char_not_point by exact Hd. now rewrite (IH Hs).
Qed.

(** *** One fractional digit *)

Lemma fixed_digits_one (n : Z) :
  0 <= n ->
  JS.fixed_digits n 1
  = JS.Z_digits (n / 10)
    +++ String "."%char (String (JS.digit_char (n mod 10)) EmptyString).
Proof.
  intro H0. unfold JS.fixed_digits.
  destruct (Z_lt_le_dec n 10) as [Hs | Hb].
  - rewrite (Z_digits_small n) by lia.
    rewrite (Z.div_small n 10) by lia. rewrite (Z.mod_small n 10) by lia.
    reflexivity.
  - rewrite (Z_digits_step n Hb).
    set (a := JS.Z_digits (n / 10)).
    set (c := JS.digit_char (n mod 10)).
    assert (Hlen : (1 <= String.length a)%nat).
    { destruct (Z_digits_reads_back (n / 10)) as (_ & _ & d & rest & Hs & _).
      - apply Z.div_pos; lia.
      - subst a. rewrite Hs. cbn. lia. }
    assert (Hl : String.length (a +++ String c EmptyString)
                 = S (String.length a))
      by (rewrite length_append; cbn; lia).
    cbv zeta. rewrite Hl.
    replace (2 - S (String.length a))%nat with 0%nat by lia.
    cbn [JS.zeros String.append]. rewrite Hl.
    replace (S (String.length a) - 1)%nat with (String.length a) by lia.
    rewrite substring_prefix, substring_suffix. reflexivity.
Qed.

(** The text printed for [n] tenths reads back as [n]: the printer and
    the reader are inverse to each other. *)
Lemma readTenths_fixed_digits (n : Z) :
  0 <= n ->
  readTenths (JS.fixed_digits n 1 +++ "%"%string) = Some n.
Proof.
  intro H0. rewrite (fixed_digits_one n H0), append_assoc.
  unfold readTenths.
  destruct (Z_digits_reads_back (n / 10)) as (_ & Hd & _);
    [apply Z.div_pos; lia|].
  cbn [String.append]. rewrite (before_point_digits _ _ Hd).
  cbn [Ascii.eqb Bool.eqb].
  rewrite read_natural_Z_digits by (apply Z.div_pos; lia).
  pose proof (Z.mod_pos_bound n 10 ltac:(lia)) as Hm.
  rewrite digit_of_digit_char by lia.
  f_equal. pose proof (Z.div_mod n 10 ltac:(lia)). lia.
Qed.

(** *** The reader accepts nothing but what the printer prints *)

Lemma digit_of_inv (c : ascii) (d : Z) :
  digit_of c = Some d -> c = JS.digit_char d /\ 0 <= d <= 9.
Proof.
  unfold digit_of, JS.digit_char.
  destruct (Z.leb_spec 48 (Z.of_nat (nat_of_ascii c))) as [Hlo|];
    [|discriminate].
  destruct (Z.leb_spec (Z.of_nat (nat_of_ascii c)) 57) as [Hhi|];
    [|discriminate].
  cbn [andb]. intro H. injection H as <-. split; [|lia].
  replace (48 + Z.to_nat (Z.of_nat (nat_of_ascii c) - 48))%nat
    with (nat_of_ascii c) by lia.
  symmetry. apply ascii_nat_embedding.
Qed.

Lemma append_nil_r (a : string) : a +++ EmptyString = a.
Proof. induction a as [|x a IH]; cbn; [reflexivity | now rewrite IH]. Qed.

Lemma read_digits_inv (s : string) :
  forall acc v,
    0 < acc ->
    read_digits s acc = Some v ->
    JS.Z_digits v = JS.Z_digits acc +++ s /\ 0 < v.
Proof.
  induction s as [|c s IH]; intros acc v Hacc; cbn [read_digits].
  - intro H. injection H as <-. now rewrite append_nil_r.
  - destruct (digit_of c) as [d|] eqn:Hd; [|discriminate].
    destruct (digit_of_inv c d Hd) as [-> Hd9].
    intro H. destruct (IH (10 * acc + d) v ltac:(lia) H) as [E Hv].
    split; [|exact Hv].
    rewrite E, (Z_digits_step (10 * acc + d)) by lia.
    replace ((10 * acc + d) / 10) with acc
      by (apply Z.div_unique with d; lia).
    replace ((10 * acc + d) mod 10) with d
      by (apply Z.mod_unique with acc; lia).
    now rewrite append_assoc.
Qed.

Lemma read_digits_cons (c : ascii) (s : string) (acc : Z) :
  read_digits (String c s) acc
  = match digit_of c with
    | Some d => read_digits s (10 * acc + d)
    | None => None
    end.
Proof. reflexivity. Qed.

Lemma read_natural_inv (s : string) (w : Z) :
  read_natural s = Some w -> s = JS.Z_digits w /\ 0 <= w.
Proof.
  unfold read_natural. destruct s as [|c rest]; [discriminate|].
  destruct rest as [|y rest].
  - cbn [read_digits]. destruct (digit_of c) as [d|] eqn:Hd; [|discriminate].
    destruct (digit_of_inv c d Hd) as [-> Hd9].
    replace (10 * 0 + d) with d by lia. intro H. injection H as <-.
    rewrite Z_digits_small by lia. split; [reflexivity | lia].
  - destruct (digit_of c) as [d|] eqn:Hd.
    + destruct (digit_of_inv c d Hd) as [-> Hd9].
      destruct d as [|p|p]; [discriminate | | lia].
      rewrite read_digits_cons, digit_of_digit_char by exact Hd9.
      replace (10 * 0 + Z.pos p) with (Z.pos p) by lia. intro H.
      apply read_digits_inv in H; [|lia]. destruct H as [E Hw].
      rewrite E, Z_digits_small by lia. split; [reflexivity | lia].
    + cbn [read_digits]. rewrite Hd. discriminate.
Qed.

Lemma before_point_inv (s : string) :
  forall a b,
    before_point s = Some (a, b) -> s = a +++ String "."%char b.
Proof.
  induction s as [|c s IH]; intros a b; cbn [before_point];
    [discriminate|].
  destruct (Ascii.eqb_spec c "."%char) as [-> | _].
  - intro H. injection H as <- <-. reflexivity.
  - destruct (before_point s) as [[a' b']|]; [|discriminate].
    intro H. injection H as <- <-. cbn. now rewrite (IH a' b' eq_refl).
Qed.

Lemma readTenths_inv (s : string) (n : Z) :
  readTenths s = Some n ->
  s = JS.fixed_digits n 1 +++ "%"%string /\ 0 <= n.
Proof.
  unfold readTenths.
  destruct (before_point s) as [[whole rest]|] eqn:Hb; [|discriminate].
  destruct rest as [|d [|p [|]]]; try discriminate.
  destruct (Ascii.eqb_spec p "%"%char) as [-> | _]; [|discriminate].
  destruct (read_natural whole) as [w|] eqn:Hw; [|discriminate].
  destruct (digit_of d) as [f|] eqn:Hf; [|discriminate].
  intro H.
  assert (Hn : 10 * w + f = n) by (injection H as H; exact H).
  clear H. subst n.
  destruct (read_natural_inv whole w Hw) as [-> Hw0].
  destruct (digit_of_inv d f Hf) as [-> Hf9].
  split; [|lia].
  rewrite (before_point_inv _ _ _ Hb), fixed_digits_one by lia.
  replace ((10 * w + f) / 10) with w
    by (apply Z.div_unique with f; lia).
  replace ((10 * w + f) mod 10) with f
    by (apply Z.mod_unique with w; lia).
  now rewrite append_assoc.
Qed.

(** A number of tenths has one text only. *)
Lemma readTenths_unique (s s' : string) (n : Z) :
  readTenths s = Some n -> readTenths s' = Some n -> s = s'.
Proof.
  intros H H'.
  destruct (readTenths_inv s n H) as [-> _].
  destruct (readTenths_inv s' n H') as [-> _]. reflexivity.
Qed.

Close Scope Z_scope.

End NumeralProps.

(** ** Facts about binary64 arithmetic used below *)

Module FloatFacts.

Open Scope float_scope.

Lemma of_SF_zero (a : float) : Prim2SF a = S754_zero false -> a = 0.
Proof. intro H. apply Prim2SF_inj. rewrite H. reflexivity. Qed.

Lemma of_SF_nan (a : float) : Prim2SF a = S754_nan -> a = nan.
Proof. intro H. apply Prim2SF_inj. rewrite H. reflexivity. Qed.

(** [a - a] is [+0], or NaN when [a] is an infinity or NaN. *)
Lemma sub_self (a : float) : a - a = 0 \/ a - a = nan.
Proof.
  assert (H : Prim2SF (a - a) = S754_zero false
              \/ Prim2SF (a - a) = S754_nan).
  { rewrite sub_spec. unfold SF64sub.
    destruct (Prim2SF a) as [s|s| |s m e].
    - left. destruct s; reflexivity.
    - right. destruct s; reflexivity.
    - right. reflexivity.
    - left. unfold SFsub. rewrite Z.sub_diag. reflexivity. }
  destruct H as [H|H]; [left; apply of_SF_zero | right; apply of_SF_nan];
    exact H.
Qed.

Lemma div_nan_l (a : float) : nan / a = nan.
Proof. apply of_SF_nan. rewrite div_spec. reflexivity. Qed.

Lemma div_nan_r (a : float) : a / nan = nan.
Proof.
  apply of_SF_nan. rewrite div_spec. unfold SF64div.
  change (Prim2SF nan) with S754_nan.
  destruct (Prim2SF a); reflexivity.
Qed.

(** [0 / a] is a zero, or NaN when [a] is a zero or NaN. *)
Lemma zero_div (a : float) : 0 / a = 0 \/ 0 / a = -0 \/ 0 / a = nan.
Proof.
  assert (H : Prim2SF (0 / a) = S754_zero false
              \/ Prim2SF (0 / a) = S754_zero true
              \/ Prim2SF (0 / a) = S754_nan).
  { rewrite div_spec. unfold SF64div.
    change (Prim2SF 0) with (S754_zero false).
    destruct (Prim2SF a) as [s|s| |s m e]; simpl;
      try (destruct s; auto). auto. }
  destruct H as [H|[H|H]]; [left|right;left|right;right];
    apply Prim2SF_inj; rewrite H; reflexivity.
Qed.

(** Dividing by [+0] gives an infinity or NaN, never a finite number. *)
Lemma div_zero (a : float) :
  JS.is_nan (a / 0) = true \/ JS.is_infinite (a / 0) = true.
Proof.
  unfold JS.is_nan, JS.is_infinite. rewrite div_spec. unfold SF64div.
  change (Prim2SF 0) with (S754_zero false).
  destruct (Prim2SF a) as [s|s| |s m e]; simpl; auto.
Qed.

(** The relative deviation of a value from itself. *)
Lemma self_deviation (b : float) :
  abs ((b - b) / b) = 0 \/ abs ((b - b) / b) = nan.
Proof.
  destruct (sub_self b) as [-> | ->].
  - destruct (zero_div b) as [-> | [-> | ->]]; [left|left|right]; reflexivity.
  - rewrite div_nan_l. right. reflexivity.
Qed.

Lemma ltb_nan_r (a : float) : (a <? nan) = false.
Proof.
  rewrite ltb_spec. change (Prim2SF nan) with S754_nan.
  unfold SFltb, SFcompare. destruct (Prim2SF a); reflexivity.
Qed.

Lemma ltb_zero_asym (a : float) : (0 <? a) = true -> (a <? 0) = false.
Proof.
  rewrite !ltb_spec. change (Prim2SF 0) with (S754_zero false).
  unfold SFltb, SFcompare.
  destruct (Prim2SF a) as [s|s| |s m e]; try destruct s; simpl; congruence.
Qed.

(** A value never deviates from itself by more than a positive
    tolerance. *)
Lemma self_deviation_within (b tolerance : float) :
  (0 <? tolerance) = true ->
  JS.gt (JS.Math_abs ((b - b) / b)) tolerance = false.
Proof.
  intro Htol. unfold JS.gt, JS.Math_abs.
  destruct (self_deviation b) as [-> | ->].
  - now apply ltb_zero_asym.
  - apply ltb_nan_r.
Qed.

Close Scope float_scope.

End FloatFacts.

(* ----------------------------------------------------------------- *)
(** ** Metrics extraction *)

Module PoseDetectorProps.

Import PoseDetector Landmarks SamplePoses.

(** A missing landmark is the failure the method does report: an array
    of thirteen points has no hips, and extraction returns nothing. *)
Example missing_hips_are_rejected :
  forall Math_atan2 now,
    calculatePostureMetrics Math_atan2 now
      (extractLandmarks (Some (repeat (point 0.5 0.5 0) 13))) = None.
Proof. reflexivity. Qed.

Lemma distance_coincident (p q : Landmark) :
  x p = x q -> y p = y q -> z p = z q ->
  calculateDistance p q = 0%float \/ calculateDistance p q = nan.
Proof.
  intros Hx Hy Hz. unfold calculateDistance. rewrite Hx, Hy, Hz.
  destruct (FloatFacts.sub_self (x q)) as [-> | ->];
  destruct (FloatFacts.sub_self (y q)) as [-> | ->];
  destruct (FloatFacts.sub_self (z q)) as [-> | ->];
  vm_compute; auto.
Qed.

Lemma height_diff_coincident (p q : Landmark) :
  y p = y q ->
  JS.Math_abs (y p - y q) = 0%float \/ JS.Math_abs (y p - y q) = nan.
Proof.
  intros Hy. unfold JS.Math_abs. rewrite Hy.
  destruct (FloatFacts.sub_self (y q)) as [-> | ->]; vm_compute; auto.
Qed.

(** C3, as stated, fails: with the two shoulders at one point the method
    still returns a record, for any [Math.atan2] and any clock, and the
    record's [shoulderAsymmetry] is NaN. *)
Lemma C3_collapsed_shoulders_yield_a_record :
  leftShoulder collapsedShoulders = rightShoulder collapsedShoulders /\
  forall Math_atan2 now,
    exists r,
      calculatePostureMetrics Math_atan2 now (Some collapsedShoulders)
        = Some r /\
      shoulderWidth r = 0%float /\
      JS.is_nan (shoulderAsymmetry r) = true /\
      JS.is_infinite (headShoulderRatio r) = true.
Proof.
  split; [reflexivity|].
  intros Math_atan2 now. eexists. split; [reflexivity|].
  repeat split; vm_compute; reflexivity.
Qed.

(** C3 (amended): when every landmark is present and the left shoulder
    has the coordinates of the right one, extraction does not fail: it
    returns a record whose [shoulderWidth] is 0 (or NaN), whose
    [shoulderAsymmetry] is NaN and whose [headShoulderRatio] is NaN or
    infinite. *)
Theorem C3_zero_shoulder_width_is_not_rejected :
  forall Math_atan2 now lm ls rs,
    complete lm ->
    leftShoulder lm = Some ls ->
    rightShoulder lm = Some rs ->
    x ls = x rs -> y ls = y rs -> z ls = z rs ->
    exists r,
      calculatePostureMetrics Math_atan2 now (Some lm) = Some r /\
      (shoulderWidth r = 0%float \/ shoulderWidth r = nan) /\
      JS.is_nan (shoulderAsymmetry r) = true /\
      (JS.is_nan (headShoulderRatio r) = true
       \/ JS.is_infinite (headShoulderRatio r) = true).
Proof.
  intros Math_atan2 now lm ls rs
    (n & ls' & rs' & lh & rh & le & re &
     Hn & Hls' & Hrs' & Hlh & Hrh & Hle & Hre) Hls Hrs Hx Hy Hz.
  unfold calculatePostureMetrics.
  rewrite Hn, Hls, Hrs, Hlh, Hrh, Hle, Hre.
  eexists. split; [reflexivity|].
  cbn [shoulderWidth shoulderAsymmetry headShoulderRatio].
  split; [now apply distance_coincident|].
  destruct (distance_coincident ls rs Hx Hy Hz) as [-> | ->]; split.
  - destruct (height_diff_coincident ls rs Hy) as [-> | ->]; reflexivity.
  - apply FloatFacts.div_zero.
  - unfold JS.is_nan. now rewrite FloatFacts.div_nan_r.
  - left. unfold JS.is_nan. now rewrite FloatFacts.div_nan_r.
Qed.

Lemma C3_zero_shoulder_width_is_not_rejected_witness :
  exists r,
    calculatePostureMetrics (fun _ _ => 0%float) 0 (Some collapsedShoulders)
      = Some r /\
    (shoulderWidth r = 0%float \/ shoulderWidth r = nan) /\
    JS.is_nan (shoulderAsymmetry r) = true /\
    (JS.is_nan (headShoulderRatio r) = true
     \/ JS.is_infinite (headShoulderRatio r) = true).
Proof.
  apply (C3_zero_shoulder_width_is_not_rejected
           (fun _ _ => 0%float) 0 collapsedShoulders
           (point 0.5 0.4 (-0.1)) (point 0.5 0.4 (-0.1))).
  - unfold complete, collapsedShoulders. simpl.
    repeat eexists.
  - reflexivity.
  - reflexivity.
  - reflexivity.
  - reflexivity.
  - reflexivity.
Defined.

(** C9, as stated, fails: two evaluations on the same landmarks at
    different clock readings differ (in [timestamp]), whatever
    [Math.atan2] is. *)
Lemma C9_two_evaluations_differ :
  exists now1 now2,
    forall Math_atan2,
      calculatePostureMetrics Math_atan2 now1 (Some sittingPose)
      <> calculatePostureMetrics Math_atan2 now2 (Some sittingPose).
Proof.
  exists 1000%Z, 1001%Z. intros Math_atan2 H.
  apply (f_equal (option_map timestamp)) in H. discriminate H.
Qed.

(** C9 (amended): two evaluations on the same landmarks both fail or both
    return a record; the two records agree on every geometric feature and
    each carries, as [timestamp], the clock reading of its own
    evaluation. *)
Theorem C9_deterministic_up_to_timestamp :
  forall Math_atan2 landmarks now1 now2,
    match calculatePostureMetrics Math_atan2 now1 landmarks,
          calculatePostureMetrics Math_atan2 now2 landmarks with
    | Some r1, Some r2 =>
        sameFeatures r1 r2 /\ timestamp r1 = now1 /\ timestamp r2 = now2
    | None, None => True
    | _, _ => False
    end.
Proof.
  intros Math_atan2 [lm|] now1 now2; [|exact I].
  unfold calculatePostureMetrics.
  destruct (leftShoulder lm), (rightShoulder lm), (leftHip lm),
    (rightHip lm), (leftEar lm), (rightEar lm), (nose lm);
    try exact I.
  unfold sameFeatures. cbn. repeat split.
Qed.

End PoseDetectorProps.

(* ----------------------------------------------------------------- *)
(** ** Calibration store *)

Module PostureCalibratorProps.

Import PostureCalibrator Calibration SampleStores.

Lemma accumulate_repeat (M : PoseDetector.PostureMetrics) (n : nat) :
  forall acc,
    fold_left accumulate (repeat M n) acc =
    {| headShoulderRatio :=
         sumOf n (PoseDetector.headShoulderRatio M) (headShoulderRatio acc);
       shoulderAsymmetry :=
         sumOf n (PoseDetector.shoulderAsymmetry M) (shoulderAsymmetry acc);
       torsoAngle := sumOf n (PoseDetector.torsoAngle M) (torsoAngle acc);
       neckAngle := sumOf n (PoseDetector.neckAngle M) (neckAngle acc);
       forwardLean := sumOf n (PoseDetector.forwardLean M) (forwardLean acc) |}.
Proof.
  induction n as [|n IH]; intro acc.
  - destruct acc; reflexivity.
  - cbn [repeat fold_left]. rewrite IH. reflexivity.
Qed.

(** While fewer frames than required are held, a frame is only appended. *)
Lemma addCalibrationFrame_collecting now M c :
  isCalibrating c = true ->
  S (List.length (calibrationFrames c)) < requiredFrames c ->
  fst (addCalibrationFrame now (Some M) c) =
  {| calibrationData := calibrationData c;
     isCalibrating := true;
     calibrationFrames := calibrationFrames c ++ [M];
     requiredFrames := requiredFrames c;
     currentPostureType := currentPostureType c |}.
Proof.
  intros Hcal Hlt. unfold addCalibrationFrame. rewrite Hcal.
  cbn [requiredFrames calibrationFrames fst].
  rewrite length_app, Nat.add_1_r.
  destruct (Nat.leb_spec (requiredFrames c) (S (List.length (calibrationFrames c))));
    [lia | reflexivity].
Qed.

Lemma addFrames_collecting M :
  forall nows c j,
    isCalibrating c = true ->
    calibrationFrames c = repeat M j ->
    j + List.length nows < requiredFrames c ->
    addFrames nows M c =
    {| calibrationData := calibrationData c;
       isCalibrating := true;
       calibrationFrames := repeat M (j + List.length nows);
       requiredFrames := requiredFrames c;
       currentPostureType := currentPostureType c |}.
Proof.
  induction nows as [|now rest IH]; intros c j Hcal Hfr Hlt.
  - cbn. rewrite Nat.add_0_r, <- Hfr, <- Hcal. destruct c; reflexivity.
  - cbn [addFrames List.length] in *.
    rewrite addCalibrationFrame_collecting
      by (try assumption; rewrite Hfr, repeat_length; lia).
    rewrite (IH _ (S j)); cbn; try reflexivity.
    + now rewrite Nat.add_succ_r.
    + rewrite Hfr. symmetry. apply repeat_cons.
    + lia.
Qed.

Lemma completeCalibration_keeps now c :
  calibrationFrames (fst (completeCalibration now c)) = calibrationFrames c /\
  requiredFrames (fst (completeCalibration now c)) = requiredFrames c.
Proof.
  unfold completeCalibration.
  destruct (calibrationFrames c) eqn:E; cbn; rewrite ?E; split; reflexivity.
Qed.

(** The frame that reaches the required count finalizes. *)
Lemma addCalibrationFrame_finalizes now M c :
  isCalibrating c = true ->
  S (List.length (calibrationFrames c)) = requiredFrames c ->
  addCalibrationFrame now (Some M) c =
  (fst (completeCalibration now
          {| calibrationData := calibrationData c;
             isCalibrating := true;
             calibrationFrames := calibrationFrames c ++ [M];
             requiredFrames := requiredFrames c;
             currentPostureType := currentPostureType c |}),
   Some {| progress :=
             (JS.of_nat (requiredFrames c) / JS.of_nat (requiredFrames c)
              * 100)%float;
           framesCollected := requiredFrames c;
           framesRequired := requiredFrames c |}).
Proof.
  intros Hcal Hlen. unfold addCalibrationFrame. rewrite Hcal.
  cbn [requiredFrames calibrationFrames].
  rewrite length_app, Nat.add_1_r, Hlen, Nat.leb_refl.
  destruct (completeCalibration_keeps now
              {| calibrationData := calibrationData c;
                 isCalibrating := true;
                 calibrationFrames := calibrationFrames c ++ [M];
                 requiredFrames := requiredFrames c;
                 currentPostureType := currentPostureType c |}) as [-> ->].
  cbn [requiredFrames calibrationFrames].
  now rewrite length_app, Nat.add_1_r, Hlen.
Qed.

Lemma addFrames_app M :
  forall nows1 nows2 c,
    addFrames (nows1 ++ nows2) M c = addFrames nows2 M (addFrames nows1 M c).
Proof.
  induction nows1 as [|now rest IH]; intros nows2 c; cbn; [reflexivity|].
  apply IH.
Qed.

Lemma calibrated_unfold kind nows now M c :
  List.length (nows ++ [now]) = requiredFrames c ->
  calibrated kind (nows ++ [now]) M c =
  {| calibrationData :=
       Some (setPosture (Some kind)
               (divideAll
                  (fold_left accumulate (repeat M (requiredFrames c))
                     zeroMetrics)
                  (JS.of_nat (requiredFrames c)))
               match calibrationData c with
               | Some d => d
               | None => {| goodPosture := None; slouchedPosture := None;
                            calibratedAt := now; otherPostures := [] |}
               end);
     isCalibrating := false;
     calibrationFrames := repeat M (requiredFrames c);
     requiredFrames := requiredFrames c;
     currentPostureType := Some kind |}.
Proof.
  intro Hlen. rewrite length_app, Nat.add_1_r in Hlen.
  unfold calibrated. rewrite addFrames_app.
  rewrite (addFrames_collecting M nows _ 0) by (cbn; (reflexivity || lia)).
  cbn [addFrames startCalibration calibrationData requiredFrames
       currentPostureType Nat.add].
  rewrite addCalibrationFrame_finalizes
    by (cbn; rewrite ?repeat_length; (reflexivity || exact Hlen)).
  cbn [fst calibrationData requiredFrames currentPostureType
       calibrationFrames].
  assert (Hrep : repeat M (List.length nows) ++ [M]
                 = repeat M (requiredFrames c)).
  { rewrite <- Hlen. symmetry. apply repeat_cons. }
  rewrite Hrep. unfold completeCalibration. cbn [calibrationFrames].
  destruct (repeat M (requiredFrames c)) eqn:E.
  - rewrite <- Hlen in E. discriminate E.
  - rewrite <- E. cbn. rewrite repeat_length. reflexivity.
Qed.

(** C6, as stated, fails: sixty frames equal to the upright sample of the
    specification's scenario ([headShoulderRatio] 0.30) finalize, but to
    a baseline whose [headShoulderRatio] is 0.30000000000000038: the
    sixty additions round. *)
Lemma C6_mean_of_equal_samples_is_inexact :
  isCalibrating (calibrated "good" (repeat 0%Z 60) uprightSample new)
    = false /\
  exists b,
    baselineFor "good" (calibrated "good" (repeat 0%Z 60) uprightSample new)
      = Some b /\
    PoseDetector.headShoulderRatio uprightSample = 0.3%float /\
    headShoulderRatio b = 0.30000000000000038%float /\
    (headShoulderRatio b =? PoseDetector.headShoulderRatio uprightSample)%float
      = false.
Proof.
  split; [vm_compute; reflexivity|].
  eexists. split; [vm_compute; reflexivity|].
  repeat split; vm_compute; reflexivity.
Qed.

(** C6 (amended): after [startCalibration(kind)] and exactly
    [requiredFrames] calls of [addCalibrationFrame] with one record [M],
    the store has left the collecting state and the baseline stored for
    [kind] holds, for each of the five averaged features, the binary64
    mean of the samples: the running sum [0 + v + ... + v] of
    [requiredFrames] copies of [M]'s value [v], divided by
    [requiredFrames]. *)
Theorem C6_equal_samples_finalize_to_their_mean :
  forall (c : t) (kind : string) (nows : list Z)
         (M : PoseDetector.PostureMetrics),
    kind = "good"%string \/ kind = "slouched"%string ->
    nows <> [] ->
    List.length nows = requiredFrames c ->
    isCalibrating (calibrated kind nows M c) = false /\
    exists b,
      baselineFor kind (calibrated kind nows M c) = Some b /\
      headShoulderRatio b
        = meanOf (requiredFrames c) (PoseDetector.headShoulderRatio M) /\
      shoulderAsymmetry b
        = meanOf (requiredFrames c) (PoseDetector.shoulderAsymmetry M) /\
      torsoAngle b
        = meanOf (requiredFrames c) (PoseDetector.torsoAngle M) /\
      neckAngle b
        = meanOf (requiredFrames c) (PoseDetector.neckAngle M) /\
      forwardLean b
        = meanOf (requiredFrames c) (PoseDetector.forwardLean M).
Proof.
  intros c kind nows M Hkind Hne Hlen.
  destruct (exists_last Hne) as (nows' & now & ->).
  rewrite (calibrated_unfold kind nows' now M c Hlen).
  split; [reflexivity|].
  rewrite accumulate_repeat. unfold baselineFor, meanOf.
  cbn [calibrationData].
  destruct Hkind as [-> | ->]; cbn; eexists; repeat split; reflexivity.
Qed.

Lemma C6_equal_samples_finalize_to_their_mean_witness :
  isCalibrating (calibrated "good" (repeat 0%Z 60) uprightSample new)
    = false /\
  exists b,
    baselineFor "good" (calibrated "good" (repeat 0%Z 60) uprightSample new)
      = Some b /\
    headShoulderRatio b = meanOf 60 0.30 /\
    shoulderAsymmetry b = meanOf 60 0.02 /\
    torsoAngle b = meanOf 60 5 /\
    neckAngle b = meanOf 60 30 /\
    forwardLean b = meanOf 60 0.1.
Proof.
  apply (C6_equal_samples_finalize_to_their_mean
           new "good" (repeat 0%Z 60) uprightSample).
  - left. reflexivity.
  - discriminate.
  - reflexivity.
Defined.

(** Integer-valued samples are averaged exactly; 0.30 is not. *)
Example mean_of_sixty_fives : meanOf 60 5 = 5%float.
Proof. vm_compute. reflexivity. Qed.

Example mean_of_sixty_030 : meanOf 60 0.30 = 0.30000000000000038%float.
Proof. vm_compute. reflexivity. Qed.

(** C7: with a good-posture baseline [B] stored, the drift check of a
    sample equal to [B] reports that no recalibration is needed, for
    every positive tolerance and in particular for the tolerance 0.15 of
    [checkIfRecalibrationNeeded]. *)
Theorem C7_sample_equal_to_baseline_is_within_range :
  forall (c : t) (d : CalibrationData) (B : AvgMetrics) (tolerance : float),
    calibrationData c = Some d ->
    goodPosture d = Some B ->
    (0 <? tolerance)%float = true ->
    checkDrift tolerance (entries B) c
      = {| needed := false; reason := "Within acceptable range" |} /\
    checkIfRecalibrationNeeded (entries B) c
      = {| needed := false; reason := "Within acceptable range" |}.
Proof.
  assert (Hgen : forall B tolerance,
             (0 <? tolerance)%float = true ->
             driftLoop tolerance B (entries B)
             = {| needed := false; reason := "Within acceptable range" |}).
  { intros B tolerance Htol. unfold entries. cbn [driftLoop].
    change (prop B "headShoulderRatio") with (headShoulderRatio B).
    change (prop B "shoulderAsymmetry") with (shoulderAsymmetry B).
    change (prop B "torsoAngle") with (torsoAngle B).
    change (prop B "neckAngle") with (neckAngle B).
    change (prop B "forwardLean") with (forwardLean B).
    rewrite !FloatFacts.self_deviation_within by exact Htol.
    reflexivity. }
  intros c d B tolerance Hd HB Htol.
  unfold checkIfRecalibrationNeeded, checkDrift. rewrite Hd, HB.
  split; apply Hgen; [exact Htol | reflexivity].
Qed.

Lemma C7_sample_equal_to_baseline_is_within_range_witness :
  checkDrift 0.15 (entries storedGood) calibratedStore
    = {| needed := false; reason := "Within acceptable range" |} /\
  checkIfRecalibrationNeeded (entries storedGood) calibratedStore
    = {| needed := false; reason := "Within acceptable range" |}.
Proof.
  refine (C7_sample_equal_to_baseline_is_within_range
            calibratedStore
            {| goodPosture := Some storedGood;
               slouchedPosture :=
                 Some {| headShoulderRatio := meanOf 60 0.45;
                         shoulderAsymmetry := meanOf 60 0.02;
                         torsoAngle := 25;
                         neckAngle := 30;
                         forwardLean := meanOf 60 0.1 |};
               calibratedAt := 0;
               otherPostures := [] |}
            storedGood 0.15%float _ _ _);
    vm_compute; reflexivity.
Defined.

End PostureCalibratorProps.

(* ----------------------------------------------------------------- *)
(** ** Classifier, start and statistics *)

Module MonitorProps.

Import CalibratedPostureMonitor FeatureTable SampleStores SampleSessions.

(** C4, as stated, fails: for [leaningSample] only the forward-lean
    tolerance is exceeded; [(diff / tolerance) * 15] is above 35 and 40
    (slouching, moderate) but the classifier divides by
    [tolerance + 0.01], finds 33.75 and answers not slouching, mild. *)
Lemma C4_stated_formula_disagrees :
  exists a,
    analyzePostureVsCalibration scenarioStore leaningSample = Returned a /\
    isSlouching a = false /\
    severity a = mild /\
    totalDeviation a = "33.8"%string /\
    issues a = ["leaning into screen"%string] /\
    slouchingBy (statedRules scenarioGood leaningSample) = true /\
    severityBy (statedRules scenarioGood leaningSample) = moderate.
Proof.
  eexists. split; [reflexivity|]. repeat split; vm_compute; reflexivity.
Qed.

Lemma assess_paddedRules good cur :
  assess good cur =
  (map issue (exceededRules (paddedRules good cur)),
   deviationOf (paddedRules good cur)).
Proof.
  unfold assess, paddedRules, rules, deviationOf, exceededRules, flag.
  cbn [filter exceeded].
  repeat match goal with
         | |- context [if JS.gt ?a ?b then _ else _] =>
             destruct (JS.gt a b)
         end; reflexivity.
Qed.

(** C4 (amended): with a complete calibration profile the classifier
    returns (it does not throw) and its answer follows the feature table
    in which the deviations of [shoulderAsymmetry] and [forwardLean] are
    divided by their tolerance plus 0.01: [isSlouching] is (number of
    exceeded features >= 2) or (totalDeviation > 35); [totalDeviation] is
    the sum over the exceeded features of [(diff / divisor) * weight],
    weights 30, 20, 25, 20, 15, reported with one decimal; [severity] is
    severe above 60, moderate above 40, else mild. *)
Theorem C4_classifier_follows_padded_table :
  forall (cal : PostureCalibrator.t) (cur : PoseDetector.PostureMetrics),
    PostureCalibrator.hasCalibration cal = true ->
    exists d good a,
      PostureCalibrator.calibrationData cal = Some d /\
      PostureCalibrator.goodPosture d = Some good /\
      analyzePostureVsCalibration cal cur = Returned a /\
      isSlouching a = slouchingBy (paddedRules good cur) /\
      issues a = map issue (exceededRules (paddedRules good cur)) /\
      totalDeviation a = JS.toFixed (deviationOf (paddedRules good cur)) 1 /\
      severity a = severityBy (paddedRules good cur).
Proof.
  intros cal cur Hcal. unfold PostureCalibrator.hasCalibration in Hcal.
  unfold analyzePostureVsCalibration, PostureCalibrator.getCalibrationData.
  destruct (PostureCalibrator.calibrationData cal) as [d|]; [|discriminate].
  destruct (PostureCalibrator.goodPosture d) as [good|] eqn:Hgood;
    [|discriminate].
  exists d, good. eexists.
  split; [reflexivity|]. split; [exact Hgood|]. split; [reflexivity|].
  rewrite assess_paddedRules.
  unfold verdictOf, slouchingBy, severityBy. cbn [fst snd isSlouching issues
    totalDeviation severity].
  rewrite length_map. repeat split; reflexivity.
Qed.

Lemma C4_classifier_follows_padded_table_witness :
  exists d good a,
    PostureCalibrator.calibrationData scenarioStore = Some d /\
    PostureCalibrator.goodPosture d = Some good /\
    analyzePostureVsCalibration scenarioStore leaningSample = Returned a /\
    isSlouching a = slouchingBy (paddedRules good leaningSample) /\
    issues a = map issue (exceededRules (paddedRules good leaningSample)) /\
    totalDeviation a
      = JS.toFixed (deviationOf (paddedRules good leaningSample)) 1 /\
    severity a = severityBy (paddedRules good leaningSample).
Proof.
  apply (C4_classifier_follows_padded_table scenarioStore leaningSample).
  reflexivity.
Defined.

(** C5: when the calibration profile is not complete (no calibration data
    at all, or the good or the slouched baseline missing), [start()]
    returns [false] and the monitor is left exactly as it was. *)
Theorem C5_start_refused_without_complete_calibration :
  forall (cal : PostureCalibrator.t) (now now' : Z) (m : t),
    (PostureCalibrator.calibrationData cal = None \/
     exists d,
       PostureCalibrator.calibrationData cal = Some d /\
       (PostureCalibrator.goodPosture d = None \/
        PostureCalibrator.slouchedPosture d = None)) ->
    start cal now now' m = (m, false).
Proof.
  intros cal now now' m H. unfold start, PostureCalibrator.hasCalibration.
  destruct H as [-> | (d & -> & [-> | Hs])]; try reflexivity.
  rewrite Hs. destruct (PostureCalibrator.goodPosture d); reflexivity.
Qed.

Lemma C5_start_refused_without_complete_calibration_witness :
  start PostureCalibrator.new 1000 1000 new = (new, false).
Proof.
  apply (C5_start_refused_without_complete_calibration
           PostureCalibrator.new 1000 1000 new).
  left. reflexivity.
Defined.

(** C8, as stated, fails: after 57 slouching and 23 good frames the
    counters are 23 of 80, the exact quotient is 28.75 (a tie between
    28.7 and 28.8) and rounds to 28.8, while [getStats()] reports 28.7:
    the double computed for [23 / 80 * 100] lies just below 28.75. *)
Lemma C8_exact_quotient_rounds_otherwise :
  Stats.goodFrames (stats SampleSessions.twentyThreeOfEighty) = 23 /\
  Stats.totalFrames (stats SampleSessions.twentyThreeOfEighty) = 80 /\
  postureQuality (getStats 0 SampleSessions.twentyThreeOfEighty)
    = "28.7%"%string /\
  Numerals.readTenths
    (postureQuality (getStats 0 SampleSessions.twentyThreeOfEighty))
    = Some 287%Z /\
  PostureQuality.statedPostureQuality
    (stats SampleSessions.twentyThreeOfEighty) = 288%Z.
Proof. repeat split; vm_compute; reflexivity. Qed.

(** C8 (amended): [getStats()] reports as [postureQuality] the text "0%"
    when [totalFrames] is 0.  Otherwise it reports the double
    [q = goodFrames / totalFrames * 100] (both operations rounded to
    binary64) with one decimal and a percent sign: when [n] is the
    integer nearest to [10 * q] (a tie going up), the text is
    [<n div 10>.<n mod 10>%], that is, it reads back as [n] tenths and
    is the only text that does.  The tenth is the one nearest to the
    double [q], not the one nearest to the exact quotient. *)
Theorem C8_postureQuality_is_the_nearest_tenth_of_the_double :
  forall (now : Z) (m : t),
    (Stats.totalFrames (stats m) = 0 ->
     postureQuality (getStats now m) = "0%"%string) /\
    (forall n : Z,
        0 < Stats.totalFrames (stats m) ->
        PostureQuality.nearestTenth
          (JS.of_nat (Stats.goodFrames (stats m))
           / JS.of_nat (Stats.totalFrames (stats m)) * 100)%float n ->
        Numerals.readTenths (postureQuality (getStats now m)) = Some n /\
        forall s : string,
          Numerals.readTenths s = Some n ->
          s = postureQuality (getStats now m)).
Proof.
  intros now m. unfold getStats. cbn [postureQuality]. split.
  - intros ->. reflexivity.
  - intros n Htot Hn.
    destruct (Nat.ltb_spec 0 (Stats.totalFrames (stats m))) as [_|]; [|lia].
    set (q := (JS.of_nat (Stats.goodFrames (stats m))
               / JS.of_nat (Stats.totalFrames (stats m)) * 100)%float) in *.
    assert (Hout : JS.toFixed q 1 = JS.fixed_digits n 1 /\ (0 <= n)%Z).
    { unfold PostureQuality.nearestTenth in Hn. unfold JS.toFixed.
      destruct (Prim2SF q) as [sg|sg| |sg mant e]; try contradiction.
      - subst n. split; [reflexivity | lia].
      - destruct sg; [contradiction|].
        destruct (Z.ltb_spec e 0) as [He | He].
        + destruct (Z.leb_spec 0 e) as [|_]; [lia|]. cbn [andb].
          pose proof (ToFixedProps.round_scaled_nearest mant e 1 He) as Hr.
          change (10 ^ Z.of_nat 1)%Z with 10%Z in Hr.
          assert (Hden : (0 < 2 ^ (- e))%Z)
            by (apply Z.pow_pos_nonneg; lia).
          assert (Heq : JS.round_scaled mant e 1 = n) by nia.
          rewrite Heq. split; [reflexivity | nia].
        + destruct Hn as [Hlt ->].
          destruct (Z.leb_spec 0 e) as [_|]; [|lia].
          destruct (Z.leb_spec (10 ^ 21) (Z.pos mant * 2 ^ e)) as [|_];
            [lia|].
          cbn [andb]. unfold JS.round_scaled.
          destruct (Z.leb_spec 0 e) as [_|]; [|lia].
          change (10 ^ Z.of_nat 1)%Z with 10%Z.
          assert (Hpow : (0 < 2 ^ e)%Z) by (apply Z.pow_pos_nonneg; lia).
          replace (Z.pos mant * 10 * 2 ^ e)%Z
            with (Z.pos mant * 2 ^ e * 10)%Z by lia.
          split; [reflexivity | nia]. }
    destruct Hout as [-> Hn0]. split.
    + now apply NumeralProps.readTenths_fixed_digits.
    + intros s Hs.
      now destruct (NumeralProps.readTenths_inv s n Hs) as [-> _].
Qed.

Lemma C8_postureQuality_is_the_nearest_tenth_of_the_double_witness :
  Numerals.readTenths
    (postureQuality (getStats 0 SampleSessions.twentyThreeOfEighty))
    = Some 287%Z /\
  forall s : string,
    Numerals.readTenths s = Some 287%Z ->
    s = postureQuality (getStats 0 SampleSessions.twentyThreeOfEighty).
Proof.
  apply (proj2 (C8_postureQuality_is_the_nearest_tenth_of_the_double
                  0 SampleSessions.twentyThreeOfEighty) 287%Z).
  - vm_compute. lia.
  - vm_compute. split; [discriminate | reflexivity].
Defined.

Example fiveGoodOfSix_quality :
  postureQuality (getStats 0 fiveGoodOfSix) = "83.3%"%string.
Proof. vm_compute. reflexivity. Qed.

End MonitorProps.

(* ----------------------------------------------------------------- *)
(** ** Temporal debouncer *)

Module DebouncerProps.

Import CalibratedPostureMonitor Session SampleStores SampleSessions.

Ltac break_frame :=
  repeat match goal with
         | |- context [match ?x with _ => _ end] =>
             lazymatch x with
             | context [match _ with _ => _ end] => fail
             | _ => destruct x eqn:?
             end
         end.

Lemma feed_config cal f m : config (state (feed cal f m)) = config m.
Proof.
  unfold feed, processFrame, onSlouchingFrame, onGoodFrame, driftCheck.
  break_frame; cbn in *;
    repeat match goal with
           | H : (_, _) = (_, _) |- _ => injection H as <- <-
           end; reflexivity.
Qed.

Lemma driftCheck_cases now now' m :
  driftCheck now now' m = m
  \/ driftCheck now now' m = set_lastDriftCheck (Some now') m.
Proof.
  unfold driftCheck.
  destruct (driftCheckInterval m <=? _)%Z; [right | left]; reflexivity.
Qed.

Section Steps.

Variable cal : PostureCalibrator.t.

(** One slouching frame on a running monitor. *)
Lemma feed_slouching f m cb :
  isMonitoring m = true ->
  onSlouchDetected m = Some cb ->
  slouchingFrame cal f = true ->
  slouchFrames (state (feed cal f m)) = S (slouchFrames m) /\
  goodPostureFrames (state (feed cal f m)) = 0 /\
  isCurrentlySlouched (state (feed cal f m))
    = isCurrentlySlouched m
      || (requiredSlouchFrames m <=? S (slouchFrames m)) /\
  slouchAlerts (calls (feed cal f m))
    = (if negb (isCurrentlySlouched m)
          && (requiredSlouchFrames m <=? S (slouchFrames m))
       then 1 else 0) /\
  corrections (calls (feed cal f m)) = 0.
Proof.
  intros Hmon Hcb Hv. unfold slouchingFrame, verdict in Hv.
  unfold feed, processFrame. rewrite Hmon.
  destruct (metricsOf f) as [cur|]; [|discriminate].
  destruct (analyzePostureVsCalibration cal cur) as [a|]; [|discriminate].
  destruct (isSlouching a); [|discriminate].
  unfold onSlouchingFrame. cbn. rewrite Hcb.
  destruct (requiredSlouchFrames m <=? S (slouchFrames m)) eqn:Hr;
    destruct (isCurrentlySlouched m) eqn:Hs; cbn;
    match goal with
    | |- context [driftCheck ?n ?n' ?x] =>
        destruct (driftCheck_cases n n' x) as [-> | ->]
    end; cbn; rewrite ?Hs; repeat split; reflexivity.
Qed.

(** One good frame on a running monitor. *)
Lemma feed_good f m cb :
  isMonitoring m = true ->
  onPostureCorrected m = Some cb ->
  goodFrame cal f = true ->
  goodPostureFrames (state (feed cal f m)) = S (goodPostureFrames m) /\
  slouchFrames (state (feed cal f m)) = 0 /\
  isCurrentlySlouched (state (feed cal f m))
    = isCurrentlySlouched m
      && negb (requiredGoodFrames m <=? S (goodPostureFrames m)) /\
  corrections (calls (feed cal f m))
    = (if isCurrentlySlouched m
          && (requiredGoodFrames m <=? S (goodPostureFrames m))
       then 1 else 0) /\
  slouchAlerts (calls (feed cal f m)) = 0.
Proof.
  intros Hmon Hcb Hv. unfold goodFrame, verdict in Hv.
  unfold feed, processFrame. rewrite Hmon.
  destruct (metricsOf f) as [cur|]; [|discriminate].
  destruct (analyzePostureVsCalibration cal cur) as [a|]; [|discriminate].
  destruct (isSlouching a); [discriminate|].
  unfold onGoodFrame. cbn. rewrite Hcb.
  destruct (requiredGoodFrames m <=? S (goodPostureFrames m)) eqn:Hr;
    destruct (isCurrentlySlouched m) eqn:Hs; cbn;
    match goal with
    | |- context [driftCheck ?n ?n' ?x] =>
        destruct (driftCheck_cases n n' x) as [-> | ->]
    end; cbn; rewrite ?Hs; repeat split; reflexivity.
Qed.

(** While the alert is up, no frame of any kind raises it again. *)
Lemma no_alert_while_slouched f m :
  isCurrentlySlouched m = true ->
  slouchAlerts (calls (feed cal f m)) = 0.
Proof.
  intro Hs. unfold feed, processFrame, onSlouchingFrame, onGoodFrame.
  destruct (isMonitoring m); [|reflexivity].
  destruct (metricsOf f) as [cur|]; [|reflexivity].
  destruct (analyzePostureVsCalibration cal cur) as [a|]; [|reflexivity].
  destruct (isSlouching a); cbn; rewrite Hs.
  - rewrite Bool.andb_false_r. reflexivity.
  - cbn. break_frame; reflexivity.
Qed.

(** A slouching frame ends the good streak, whatever is registered. *)
Lemma slouching_resets_good_streak f m :
  isMonitoring m = true ->
  slouchingFrame cal f = true ->
  goodPostureFrames (state (feed cal f m)) = 0.
Proof.
  intros Hmon Hv. unfold slouchingFrame, verdict in Hv.
  unfold feed, processFrame. rewrite Hmon.
  destruct (metricsOf f) as [cur|]; [|discriminate].
  destruct (analyzePostureVsCalibration cal cur) as [a|]; [|discriminate].
  destruct (isSlouching a); [|discriminate].
  unfold onSlouchingFrame. cbn.
  destruct (onSlouchDetected m);
    destruct (requiredSlouchFrames m <=? S (slouchFrames m));
    destruct (isCurrentlySlouched m); cbn;
    match goal with
    | |- context [driftCheck ?n ?n' ?x] =>
        destruct (driftCheck_cases n n' x) as [-> | ->]
    end; reflexivity.
Qed.

Lemma config_fields m m' :
  config m' = config m ->
  isMonitoring m' = isMonitoring m /\
  requiredSlouchFrames m' = requiredSlouchFrames m /\
  requiredGoodFrames m' = requiredGoodFrames m /\
  onSlouchDetected m' = onSlouchDetected m /\
  onPostureCorrected m' = onPostureCorrected m.
Proof. unfold config. intro H. injection H as -> -> -> -> ->. auto. Qed.

Lemma slouchAlerts_app cs1 cs2 :
  slouchAlerts (cs1 ++ cs2) = slouchAlerts cs1 + slouchAlerts cs2.
Proof. unfold slouchAlerts. now rewrite filter_app, length_app. Qed.

Lemma corrections_app cs1 cs2 :
  corrections (cs1 ++ cs2) = corrections cs1 + corrections cs2.
Proof. unfold corrections. now rewrite filter_app, length_app. Qed.

Lemma processFrames_cons f rest m :
  processFrames cal (f :: rest) m =
  (fst (processFrames cal rest (state (feed cal f m))),
   calls (feed cal f m) ++ snd (processFrames cal rest (state (feed cal f m)))).
Proof.
  cbn [processFrames].
  destruct (processFrames cal rest (state (feed cal f m))). reflexivity.
Qed.

Lemma processFrames_app frames1 :
  forall frames2 m,
    processFrames cal (frames1 ++ frames2) m =
    (fst (processFrames cal frames2 (fst (processFrames cal frames1 m))),
     snd (processFrames cal frames1 m)
     ++ snd (processFrames cal frames2 (fst (processFrames cal frames1 m)))).
Proof.
  induction frames1 as [|f rest IH]; intros frames2 m.
  - cbn. now destruct (processFrames cal frames2 m).
  - rewrite <- app_comm_cons, !processFrames_cons, IH. cbn [fst snd].
    now rewrite app_assoc.
Qed.

Ltac decide_leb :=
  repeat match goal with
         | |- context [?a <=? ?b] => destruct (Nat.leb_spec a b)
         end;
  cbn; try reflexivity; try lia.

(** A run of slouching frames: the alert is raised once, by the frame
    that brings the streak to [requiredSlouchFrames], unless it is
    already up. *)
Lemma slouch_run cb :
  forall frames m,
    isMonitoring m = true ->
    onSlouchDetected m = Some cb ->
    forallb (slouchingFrame cal) frames = true ->
    slouchAlerts (snd (processFrames cal frames m))
      = (if negb (isCurrentlySlouched m)
            && (1 <=? List.length frames)
            && (requiredSlouchFrames m
                <=? slouchFrames m + List.length frames)
         then 1 else 0) /\
    corrections (snd (processFrames cal frames m)) = 0 /\
    isCurrentlySlouched (fst (processFrames cal frames m))
      = isCurrentlySlouched m
        || (1 <=? List.length frames)
           && (requiredSlouchFrames m
               <=? slouchFrames m + List.length frames) /\
    slouchFrames (fst (processFrames cal frames m))
      = slouchFrames m + List.length frames /\
    config (fst (processFrames cal frames m)) = config m.
Proof.
  induction frames as [|f rest IH]; intros m Hmon Hcb Hall.
  - cbn. rewrite Bool.andb_false_r, Bool.orb_false_r, Nat.add_0_r. auto.
  - cbn [forallb] in Hall. apply Bool.andb_true_iff in Hall as [Hf Hrest].
    rewrite processFrames_cons. cbn [fst snd List.length].
    destruct (feed_slouching f m cb Hmon Hcb Hf)
      as (Hs & _ & Hsl & Hal & Hco).
    destruct (config_fields _ _ (feed_config cal f m))
      as (Hm1 & HR1 & _ & Hcb1 & _).
    rewrite Hmon in Hm1. rewrite Hcb in Hcb1.
    destruct (IH (state (feed cal f m)) Hm1 Hcb1 Hrest)
      as (IHal & IHco & IHsl & IHs & IHcfg).
    rewrite slouchAlerts_app, corrections_app, Hal, Hco, IHal, IHco,
      IHsl, IHs, IHcfg, Hsl, Hs, HR1, feed_config.
    destruct (isCurrentlySlouched m); cbn [negb andb orb];
      repeat split; decide_leb.
Qed.

(** A run of good frames: the correction is signalled once, by the frame
    that brings the streak to [requiredGoodFrames], if the alert is up. *)
Lemma good_run cb :
  forall frames m,
    isMonitoring m = true ->
    onPostureCorrected m = Some cb ->
    forallb (goodFrame cal) frames = true ->
    corrections (snd (processFrames cal frames m))
      = (if isCurrentlySlouched m
            && (1 <=? List.length frames)
            && (requiredGoodFrames m
                <=? goodPostureFrames m + List.length frames)
         then 1 else 0) /\
    slouchAlerts (snd (processFrames cal frames m)) = 0 /\
    isCurrentlySlouched (fst (processFrames cal frames m))
      = isCurrentlySlouched m
        && negb ((1 <=? List.length frames)
                 && (requiredGoodFrames m
                     <=? goodPostureFrames m + List.length frames)) /\
    goodPostureFrames (fst (processFrames cal frames m))
      = goodPostureFrames m + List.length frames /\
    config (fst (processFrames cal frames m)) = config m.
Proof.
  induction frames as [|f rest IH]; intros m Hmon Hcb Hall.
  - cbn. rewrite Bool.andb_false_r, Bool.andb_true_r, Nat.add_0_r. auto.
  - cbn [forallb] in Hall. apply Bool.andb_true_iff in Hall as [Hf Hrest].
    rewrite processFrames_cons. cbn [fst snd List.length].
    destruct (feed_good f m cb Hmon Hcb Hf)
      as (Hg & _ & Hsl & Hco & Hal).
    destruct (config_fields _ _ (feed_config cal f m))
      as (Hm1 & _ & HG1 & _ & Hcb1).
    rewrite Hmon in Hm1. rewrite Hcb in Hcb1.
    destruct (IH (state (feed cal f m)) Hm1 Hcb1 Hrest)
      as (IHco & IHal & IHsl & IHg & IHcfg).
    rewrite slouchAlerts_app, corrections_app, Hal, Hco, IHal, IHco,
      IHsl, IHg, IHcfg, Hsl, Hg, HG1, feed_config.
    destruct (isCurrentlySlouched m); cbn [negb andb orb];
      repeat split; decide_leb.
Qed.

End Steps.

Lemma start_accepted cal now now' m0 m :
  start cal now now' m0 = (m, true) ->
  isMonitoring m = true /\
  isCurrentlySlouched m = false /\
  slouchFrames m = 0 /\
  goodPostureFrames m = 0 /\
  requiredSlouchFrames m = requiredSlouchFrames m0 /\
  requiredGoodFrames m = requiredGoodFrames m0 /\
  onSlouchDetected m = onSlouchDetected m0 /\
  onPostureCorrected m = onPostureCorrected m0 /\
  stats m = Stats.zero.
Proof.
  unfold start. destruct (PostureCalibrator.hasCalibration cal); cbn;
    intro H; [|discriminate].
  injection H as <-. cbn. repeat split; reflexivity.
Qed.

(** C1: on a freshly started monitor with a registered
    [onSlouchDetected], a run of slouching frames does not invoke the
    callback during its first [requiredSlouchFrames - 1] frames, invokes
    it exactly once on frame number [requiredSlouchFrames], and not again
    on the slouching frames that follow; more generally no frame at all
    invokes it while the alert is up (until the monitor is back to
    GOOD). *)
Theorem C1_alert_raised_exactly_once :
  forall (cal : PostureCalibrator.t) (m0 m : t) (now now' : Z)
         (cb : callback) (quiet : list Frame) (trigger : Frame)
         (more : list Frame),
    start cal now now' m0 = (m, true) ->
    onSlouchDetected m0 = Some cb ->
    S (List.length quiet) = requiredSlouchFrames m0 ->
    forallb (slouchingFrame cal) (quiet ++ trigger :: more) = true ->
    let m1 := fst (processFrames cal quiet m) in
    let m2 := state (feed cal trigger m1) in
    slouchAlerts (snd (processFrames cal quiet m)) = 0 /\
    slouchAlerts (calls (feed cal trigger m1)) = 1 /\
    isCurrentlySlouched m2 = true /\
    slouchAlerts (snd (processFrames cal more m2)) = 0 /\
    slouchAlerts (snd (processFrames cal (quiet ++ trigger :: more) m)) = 1 /\
    (forall (m' : t) (f : Frame),
        isCurrentlySlouched m' = true ->
        slouchAlerts (calls (feed cal f m')) = 0).
Proof.
  intros cal m0 m now now' cb quiet trigger more Hstart Hcb Hlen Hall m1 m2.
  destruct (start_accepted _ _ _ _ _ Hstart)
    as (Hmon & Hsl & Hs & _ & HR & _ & Hcb' & _).
  rewrite Hcb in Hcb'. rewrite <- HR in Hlen.
  rewrite forallb_app in Hall. cbn [forallb] in Hall.
  apply Bool.andb_true_iff in Hall as [Hquiet Hall].
  apply Bool.andb_true_iff in Hall as [Htrig Hmore].
  destruct (slouch_run cal cb quiet m Hmon Hcb' Hquiet)
    as (Hal1 & _ & Hsl1 & Hs1 & Hcfg1).
  fold m1 in Hsl1, Hs1, Hcfg1.
  destruct (config_fields _ _ Hcfg1) as (Hmon1 & HR1 & _ & Hcb1 & _).
  rewrite Hmon in Hmon1. rewrite Hcb' in Hcb1.
  assert (Hq : (requiredSlouchFrames m <=? slouchFrames m + List.length quiet)
               = false) by (apply Nat.leb_gt; lia).
  rewrite Hq, Bool.andb_false_r in Hal1, Hsl1. rewrite Hsl in Hsl1.
  cbn in Hsl1.
  destruct (feed_slouching cal trigger m1 cb Hmon1 Hcb1 Htrig)
    as (Hs2 & _ & Hsl2 & Hal2 & _).
  fold m2 in Hs2, Hsl2.
  assert (Ht : (requiredSlouchFrames m1 <=? S (slouchFrames m1)) = true)
    by (apply Nat.leb_le; lia).
  rewrite Ht, Hsl1 in Hal2, Hsl2. cbn in Hal2, Hsl2.
  destruct (config_fields _ _ (feed_config cal trigger m1))
    as (Hmon2 & _ & _ & Hcb2 & _).
  fold m2 in Hmon2, Hcb2. rewrite Hmon1 in Hmon2. rewrite Hcb1 in Hcb2.
  destruct (slouch_run cal cb more m2 Hmon2 Hcb2 Hmore) as (Hal3 & _).
  rewrite Hsl2 in Hal3. cbn in Hal3.
  repeat split; try assumption.
  - rewrite processFrames_app, processFrames_cons. cbn [fst snd].
    fold m1. fold m2.
    rewrite !slouchAlerts_app, Hal1, Hal2, Hal3. reflexivity.
  - intros m' f. apply no_alert_while_slouched.
Qed.

Lemma C1_alert_raised_exactly_once_witness :
  slouchAlerts
    (snd (processFrames calibratedStore
            (repeat slouchedFrame 99) started)) = 0 /\
  slouchAlerts
    (calls (feed calibratedStore slouchedFrame
              (fst (processFrames calibratedStore
                      (repeat slouchedFrame 99) started)))) = 1 /\
  isCurrentlySlouched
    (state (feed calibratedStore slouchedFrame
              (fst (processFrames calibratedStore
                      (repeat slouchedFrame 99) started)))) = true /\
  slouchAlerts
    (snd (processFrames calibratedStore
            (repeat slouchedFrame 50)
            (state (feed calibratedStore slouchedFrame
                      (fst (processFrames calibratedStore
                              (repeat slouchedFrame 99) started)))))) = 0 /\
  slouchAlerts
    (snd (processFrames calibratedStore
            (repeat slouchedFrame 99
             ++ slouchedFrame :: repeat slouchedFrame 50) started)) = 1 /\
  slouchAlerts
    (calls (feed calibratedStore uprightFrame alerted)) = 0.
Proof.
  destruct (C1_alert_raised_exactly_once calibratedStore
              wired started 1000 1000 1
              (repeat slouchedFrame 99) slouchedFrame
              (repeat slouchedFrame 50))
    as (H1 & H2 & H3 & H4 & H5 & H6);
    [vm_compute; reflexivity .. |].
  refine (conj H1 (conj H2 (conj H3 (conj H4 (conj H5
            (H6 alerted uprightFrame _)))))).
  vm_compute. reflexivity.
Defined.

(** C2: let the monitor be running in the SLOUCHED state with a
    registered [onPostureCorrected], and let [k] be its consecutive-good
    counter: the number of good frames already in the current good
    streak (0 right after the alert and after every slouching frame).
    Extending the streak by [n >= 1] consecutive good frames invokes the
    callback exactly once and returns the state to GOOD when the streak
    reaches [requiredGoodFrames] ([k + n >= requiredGoodFrames], so
    always for [n = requiredGoodFrames]); it invokes it zero times and
    the state stays SLOUCHED when the streak remains shorter
    ([k + n < requiredGoodFrames], so for every [n < requiredGoodFrames]
    from the start of a streak).  A slouching frame resets the
    consecutive-good counter to 0. *)
Theorem C2_correction_after_required_good_frames :
  forall (cal : PostureCalibrator.t) (m : t) (cb : callback)
         (frames : list Frame),
    isMonitoring m = true ->
    isCurrentlySlouched m = true ->
    onPostureCorrected m = Some cb ->
    forallb (goodFrame cal) frames = true ->
    (1 <= List.length frames ->
     requiredGoodFrames m <= goodPostureFrames m + List.length frames ->
     corrections (snd (processFrames cal frames m)) = 1 /\
     isCurrentlySlouched (fst (processFrames cal frames m)) = false) /\
    (goodPostureFrames m + List.length frames < requiredGoodFrames m ->
     corrections (snd (processFrames cal frames m)) = 0 /\
     isCurrentlySlouched (fst (processFrames cal frames m)) = true) /\
    (forall f : Frame,
        slouchingFrame cal f = true ->
        goodPostureFrames (state (feed cal f m)) = 0).
Proof.
  intros cal m cb frames Hmon Hsl Hcb Hall.
  destruct (good_run cal cb frames m Hmon Hcb Hall) as (Hco & _ & Hs & _).
  rewrite Hsl in Hco, Hs. cbn [andb] in Hco, Hs.
  repeat split.
  - rewrite Hco. destruct (Nat.leb_spec 1 (List.length frames)); [|lia].
    destruct (Nat.leb_spec (requiredGoodFrames m)
                (goodPostureFrames m + List.length frames)); [|lia].
    reflexivity.
  - rewrite Hs. destruct (Nat.leb_spec 1 (List.length frames)); [|lia].
    destruct (Nat.leb_spec (requiredGoodFrames m)
                (goodPostureFrames m + List.length frames)); [|lia].
    reflexivity.
  - rewrite Hco.
    destruct (Nat.leb_spec (requiredGoodFrames m)
                (goodPostureFrames m + List.length frames)); [lia|].
    now rewrite Bool.andb_false_r.
  - rewrite Hs.
    destruct (Nat.leb_spec (requiredGoodFrames m)
                (goodPostureFrames m + List.length frames)); [lia|].
    now rewrite Bool.andb_false_r.
  - intros f Hf. now apply slouching_resets_good_streak.
Qed.

Lemma C2_correction_after_required_good_frames_witness :
  (corrections
     (snd (processFrames calibratedStore
             (repeat uprightFrame 10) alerted)) = 1 /\
   isCurrentlySlouched
     (fst (processFrames calibratedStore
             (repeat uprightFrame 10) alerted)) = false) /\
  (corrections
     (snd (processFrames calibratedStore
             (repeat uprightFrame 9) alerted)) = 0 /\
   isCurrentlySlouched
     (fst (processFrames calibratedStore
             (repeat uprightFrame 9) alerted)) = true) /\
  goodPostureFrames
    (state (feed calibratedStore slouchedFrame
              nineGoodFramesLater)) = 0.
Proof.
  split; [|split].
  - apply (C2_correction_after_required_good_frames
             calibratedStore alerted 2
             (repeat uprightFrame 10));
      vm_compute; (reflexivity || lia).
  - apply (C2_correction_after_required_good_frames
             calibratedStore alerted 2
             (repeat uprightFrame 9));
      vm_compute; (reflexivity || lia).
  - apply (C2_correction_after_required_good_frames
             calibratedStore nineGoodFramesLater 2 []);
      vm_compute; reflexivity.
Defined.

(** *** Session statistics *)

Lemma analysis_returns cal cur :
  PostureCalibrator.hasCalibration cal = true ->
  exists a, analyzePostureVsCalibration cal cur = Returned a.
Proof.
  unfold PostureCalibrator.hasCalibration, analyzePostureVsCalibration,
    PostureCalibrator.getCalibrationData.
  destruct (PostureCalibrator.calibrationData cal) as [d|]; [|discriminate].
  destruct (PostureCalibrator.goodPosture d); [|discriminate].
  intros _. eexists. reflexivity.
Qed.

Lemma perform_sound cal m op : sound cal m -> sound cal (perform cal m op).
Proof.
  intros [Hbal Hcal]. unfold sound, balanced in *.
  destruct op as [now now'| |now now' metrics|now|cb|cb]; cbn [perform].
  - unfold start.
    destruct (PostureCalibrator.hasCalibration cal) eqn:E; cbn; auto.
  - cbn. split; [exact Hbal | discriminate].
  - unfold processFrame.
    destruct (isMonitoring m) eqn:Hmon; [|cbn; rewrite Hmon; auto].
    destruct metrics as [cur|]; [|cbn; rewrite Hmon; auto].
    destruct (analysis_returns cal cur (Hcal eq_refl)) as [a ->].
    unfold onSlouchingFrame, onGoodFrame.
    destruct (isSlouching a); cbn;
      break_frame; cbn;
      match goal with
      | |- context [driftCheck ?n ?n' ?x] =>
          destruct (driftCheck_cases n n' x) as [-> | ->]
      end; cbn; split; auto; lia.
  - cbn. auto.
  - cbn. auto.
  - cbn. auto.
Qed.

(** C10: after any sequence of [start], [stop], [processFrame] (metrics
    present or absent), [resetSession] and callback registrations on a
    new monitor, [stats.totalFrames = stats.slouchFrames +
    stats.goodFrames]. *)
Theorem C10_frame_counts_balanced :
  forall (cal : PostureCalibrator.t) (ops : list Op),
    Stats.totalFrames (stats (session cal ops))
    = Stats.slouchFrames (stats (session cal ops))
      + Stats.goodFrames (stats (session cal ops)).
Proof.
  intros cal ops.
  assert (H : forall m, sound cal m -> sound cal (fold_left (perform cal) ops m)).
  { induction ops as [|op rest IH]; intros m Hm; cbn; [exact Hm|].
    apply IH, perform_sound, Hm. }
  apply (H new). split; [reflexivity | discriminate].
Qed.

(** The equality rests on the calibrator being left alone: if the
    calibration is cleared while the monitor runs, [processFrame] counts
    the frame and then throws. *)
Example cleared_calibration_unbalances :
  let r := processFrame
             (PostureCalibrator.clearCalibration calibratedStore)
             2000 2000 (Some uprightSample) started in
  outcome r = Threw /\
  Stats.totalFrames (stats (state r)) = 1 /\
  Stats.slouchFrames (stats (state r)) = 0 /\
  Stats.goodFrames (stats (state r)) = 0.
Proof. repeat split. Qed.

End DebouncerProps.

(* ================================================================= *)
(** * Further properties of the three classes and of their callers *)

(** ** More binary64 facts *)

Module FloatArith.

Open Scope float_scope.

Lemma sub_nan_l (a : float) : nan - a = nan.
Proof. apply FloatFacts.of_SF_nan. rewrite sub_spec. reflexivity. Qed.

Lemma sub_nan_r (a : float) : a - nan = nan.
Proof.
  apply FloatFacts.of_SF_nan. rewrite sub_spec. unfold SF64sub.
  change (Prim2SF nan) with S754_nan. destruct (Prim2SF a); reflexivity.
Qed.

Lemma ltb_nan_l (a : float) : (nan <? a) = false.
Proof. rewrite ltb_spec. reflexivity. Qed.

(** Rounding treats a value and its opposite alike. *)
Lemma round_aux_abs (s : bool) (mx ex : Z) (lx : location) :
  SFabs (binary_round_aux prec emax s mx ex lx)
  = SFabs (binary_round_aux prec emax false mx ex lx).
Proof.
  unfold binary_round_aux.
  destruct (shr_fexp prec emax mx ex lx) as [mrs' e'].
  destruct (shr_fexp prec emax _ e' loc_Exact) as [mrs'' e''].
  destruct (shr_m mrs''); try reflexivity.
  destruct (Z.leb e'' _); reflexivity.
Qed.

Lemma normalize_opp_abs (m e : Z) :
  SFabs (binary_normalize prec emax (- m) e false)
  = SFabs (binary_normalize prec emax m e false).
Proof.
  destruct m as [|p|p]; cbn [Z.opp binary_normalize]; try reflexivity;
    unfold binary_round;
    destruct (shl_align p e _) as [mz ez];
    rewrite (round_aux_abs true); reflexivity.
Qed.

(** [a - b] and [b - a] have the same magnitude. *)
Lemma SFsub_swap_abs (a b : spec_float) :
  SFabs (SFsub prec emax a b) = SFabs (SFsub prec emax b a).
Proof.
  destruct a as [sa|sa| |sa ma ea], b as [sb|sb| |sb mb eb];
    try (destruct sa, sb; reflexivity);
    try (destruct sa; reflexivity); try (destruct sb; reflexivity);
    try reflexivity.
  unfold SFsub. rewrite (Z.min_comm eb ea).
  rewrite <- normalize_opp_abs. f_equal. f_equal. lia.
Qed.

Lemma SFmul_self_abs (a b : spec_float) :
  SFabs a = SFabs b -> SFmul prec emax a a = SFmul prec emax b b.
Proof.
  destruct a as [sa|sa| |sa ma ea], b as [sb|sb| |sb mb eb];
    cbn; intro H; try discriminate H; try reflexivity.
  - destruct sa, sb; reflexivity.
  - destruct sa, sb; reflexivity.
  - injection H as -> ->. destruct sa, sb; reflexivity.
Qed.

(** The square of a difference does not depend on its direction. *)
Lemma sq_sub_comm (a b : float) : (a - b) * (a - b) = (b - a) * (b - a).
Proof.
  apply Prim2SF_inj. rewrite !mul_spec, !sub_spec.
  apply SFmul_self_abs, SFsub_swap_abs.
Qed.

(** A positive finite product with 0.20 comes from a positive finite
    factor. *)
Lemma positive_tolerance (g : float) :
  (0 <? g * 0.20) = true -> (g * 0.20 <? infinity) = true ->
  exists m e, Prim2SF g = S754_finite false m e.
Proof.
  rewrite !ltb_spec, mul_spec. unfold SF64mul.
  change (Prim2SF 0) with (S754_zero false).
  change (Prim2SF infinity) with (S754_infinity false).
  replace (Prim2SF 0.20) with (S754_finite false 7205759403792794 (-55))
    by reflexivity.
  destruct (Prim2SF g) as [s|s| |s m e]; cbn [SFmul xorb].
  - destruct s; discriminate.
  - destruct s; discriminate.
  - discriminate.
  - destruct s; [|eauto].
    intro H. exfalso. revert H.
    unfold SFltb, SFcompare, binary_round_aux.
    destruct (shr_fexp prec emax _ _ loc_Exact) as [mrs' e'].
    destruct (shr_fexp prec emax _ e' loc_Exact) as [mrs'' e''].
    destruct (shr_m mrs''); try discriminate.
    destruct (Z.leb e'' _); discriminate.
Qed.

Lemma infinity_sub_finite (g : float) (s : bool) (m : positive) (e : Z) :
  Prim2SF g = S754_finite s m e -> infinity - g = infinity.
Proof.
  intro H. apply Prim2SF_inj. rewrite sub_spec, H. reflexivity.
Qed.

Lemma infinity_div_positive (t : float) :
  (0 <? t) = true -> (t <? infinity) = true -> infinity / t = infinity.
Proof.
  rewrite !ltb_spec. intros H0 Hinf.
  apply Prim2SF_inj. rewrite div_spec. revert H0 Hinf.
  change (Prim2SF 0) with (S754_zero false).
  change (Prim2SF infinity) with (S754_infinity false).
  destruct (Prim2SF t) as [s|s| |s m e]; try destruct s;
    cbn; try discriminate; reflexivity.
Qed.

Close Scope float_scope.

End FloatArith.

(* ----------------------------------------------------------------- *)
(** ** PoseDetector *)

Module PoseDetectorMore.

Import PoseDetector Landmarks.

Lemma metrics_exist_iff Math_atan2 now (landmarks : list Landmark) :
  (exists r,
      calculatePostureMetrics Math_atan2 now
        (extractLandmarks (Some landmarks)) = Some r)
  <-> 25 <= List.length landmarks.
Proof.
  destruct landmarks as [|l0 rest] eqn:E.
  - cbn. split; [intros [r H]; discriminate H | lia].
  - rewrite <- E. assert (Hne : landmarks <> []) by (rewrite E; discriminate).
    clear E l0 rest.
    unfold extractLandmarks.
    destruct landmarks as [|l0 rest] eqn:E; [contradiction|].
    rewrite <- E. clear E Hne l0 rest.
    unfold calculatePostureMetrics.
    cbn [nose leftShoulder rightShoulder leftHip rightHip leftEar rightEar].
    pose proof (nth_error_Some landmarks 0) as H0.
    pose proof (nth_error_Some landmarks 11) as H11.
    pose proof (nth_error_Some landmarks 12) as H12.
    pose proof (nth_error_Some landmarks 23) as H23.
    pose proof (nth_error_Some landmarks 24) as H24.
    pose proof (nth_error_Some landmarks 7) as H7.
    pose proof (nth_error_Some landmarks 8) as H8.
    destruct (nth_error landmarks 11), (nth_error landmarks 12),
      (nth_error landmarks 23), (nth_error landmarks 24),
      (nth_error landmarks 7), (nth_error landmarks 8),
      (nth_error landmarks 0);
      split;
      try (intros [r Hr]; discriminate Hr);
      try (intros _; eexists; reflexivity);
      try (intros _; apply H24; discriminate);
      intro Hlen; exfalso;
      repeat match goal with
             | H : None <> None <-> _ |- _ =>
                 let H' := fresh in
                 destruct H as [_ H']; specialize (H' ltac:(lia));
                 now apply H'
             | H : Some _ <> None <-> _ |- _ => clear H
             end.
Qed.

(** X1: the detector's array leads to a metrics record exactly when it
    has at least 25 entries (the right hip is entry 24); a shorter or
    absent array makes the pipeline skip the frame. *)
Theorem metrics_need_25_landmarks :
  forall Math_atan2 now (landmarks : list Landmark),
    (exists r,
        calculatePostureMetrics Math_atan2 now
          (extractLandmarks (Some landmarks)) = Some r)
    <-> 25 <= List.length landmarks.
Proof.
  intros Math_atan2 now landmarks. apply metrics_exist_iff.
Qed.

(** X2: the distance between two landmarks does not depend on their
    order. *)
Theorem calculateDistance_symmetric :
  forall p q : Landmark, calculateDistance p q = calculateDistance q p.
Proof.
  intros p q. unfold calculateDistance. cbv zeta.
  rewrite (FloatArith.sq_sub_comm (x p) (x q)),
    (FloatArith.sq_sub_comm (y p) (y q)),
    (FloatArith.sq_sub_comm (z p) (z q)).
  reflexivity.
Qed.

(** X3: on a landmark object with a missing point the two static methods
    fail differently: [checkLightingQuality] throws exactly where
    [calculatePostureMetrics] returns [null]. *)
Theorem lighting_check_throws_where_metrics_are_null :
  forall Math_atan2 now (lm : PostureLandmarks),
    checkLightingQuality (Some lm) = JS.Throws
    <-> calculatePostureMetrics Math_atan2 now (Some lm) = None.
Proof.
  intros Math_atan2 now lm.
  unfold checkLightingQuality, calculatePostureMetrics, values.
  destruct (nose lm), (leftShoulder lm), (rightShoulder lm), (leftHip lm),
    (rightHip lm), (leftEar lm), (rightEar lm);
    cbn [sumVisibility];
    try (split; reflexivity);
    split; intro H; try discriminate H;
    repeat match type of H with
           | context [if ?c then _ else _] => destruct c
           end; discriminate H.
Qed.

(** Landmarks that carry no visibility score are rated poor. *)
Lemma lighting_without_visibility (lm : PostureLandmarks) :
  complete lm ->
  (forall l, In (Some l) (values lm) -> visibilityOrZero l = 0%float) ->
  checkLightingQuality (Some lm)
  = JS.Normal {| quality := "poor"; message := "Poor lighting detected" |}.
Proof.
  intros (n & ls & rs & lh & rh & le & re &
          Hn & Hls & Hrs & Hlh & Hrh & Hle & Hre) Hvis.
  unfold checkLightingQuality.
  assert (Hv : values lm = [Some n; Some ls; Some rs; Some lh; Some rh;
                            Some le; Some re])
    by (unfold values; now rewrite Hn, Hls, Hrs, Hlh, Hrh, Hle, Hre).
  rewrite Hv in *. cbn [sumVisibility].
  rewrite !Hvis by (cbn; auto 10).
  vm_compute. reflexivity.
Qed.

End PoseDetectorMore.

(* ----------------------------------------------------------------- *)
(** ** PostureCalibrator *)

Module PostureCalibratorMore.

Import PostureCalibrator Calibration CalibratorSessions CalibrationRuns
  SampleStores.

(** What every call on the store preserves. *)
Definition collecting_bound (c : t) : Prop :=
  requiredFrames c = 60 /\
  List.length (calibrationFrames c) <= requiredFrames c /\
  (isCalibrating c = true ->
   List.length (calibrationFrames c) < requiredFrames c).

Lemma completeCalibration_stops now c :
  calibrationFrames c <> [] ->
  isCalibrating (fst (completeCalibration now c)) = false.
Proof.
  unfold completeCalibration.
  destruct (calibrationFrames c); [contradiction | reflexivity].
Qed.

(** The three things [addCalibrationFrame] can do to the store. *)
Lemma addCalibrationFrame_effect now metrics c :
  requiredFrames (fst (addCalibrationFrame now metrics c)) = requiredFrames c
  /\
  ((fst (addCalibrationFrame now metrics c) = c
    /\ snd (addCalibrationFrame now metrics c) = None)
   \/
   exists M p,
     isCalibrating c = true /\
     snd (addCalibrationFrame now metrics c) = Some p /\
     framesCollected p = S (List.length (calibrationFrames c)) /\
     framesRequired p = requiredFrames c /\
     calibrationFrames (fst (addCalibrationFrame now metrics c))
       = calibrationFrames c ++ [M] /\
     (isCalibrating (fst (addCalibrationFrame now metrics c)) = true ->
      S (List.length (calibrationFrames c)) < requiredFrames c)).
Proof.
  unfold addCalibrationFrame.
  destruct (isCalibrating c) eqn:Hcal; [|split; [reflexivity | left; auto]].
  destruct metrics as [M|]; [|split; [reflexivity | left; auto]].
  set (c1 := {| calibrationData := calibrationData c;
                isCalibrating := true;
                calibrationFrames := calibrationFrames c ++ [M];
                requiredFrames := requiredFrames c;
                currentPostureType := currentPostureType c |}).
  cbn [fst snd].
  change (requiredFrames c1) with (requiredFrames c).
  change (calibrationFrames c1) with (calibrationFrames c ++ [M]).
  rewrite length_app, Nat.add_1_r.
  destruct (Nat.leb_spec (requiredFrames c)
              (S (List.length (calibrationFrames c)))) as [Hfull|Hmore].
  - destruct (PostureCalibratorProps.completeCalibration_keeps now c1)
      as [Hf Hr].
    rewrite Hr, Hf.
    change (requiredFrames c1) with (requiredFrames c).
    change (calibrationFrames c1) with (calibrationFrames c ++ [M]).
    rewrite length_app, Nat.add_1_r.
    split; [reflexivity|]. right. eexists M, _.
    repeat split; try reflexivity.
    rewrite completeCalibration_stops; [discriminate|].
    cbn. destruct (calibrationFrames c); discriminate.
  - cbn. rewrite length_app, Nat.add_1_r.
    split; [reflexivity|]. right. eexists M, _.
    repeat split; try reflexivity. intros _. exact Hmore.
Qed.

Lemma perform_collecting_bound (c : t) (op : Op) :
  collecting_bound c -> collecting_bound (perform c op).
Proof.
  intros (Hreq & Hle & Hlt). unfold collecting_bound.
  destruct op as [kind|now metrics|now| |userId st]; cbn [perform].
  - cbn. repeat split; try assumption; intros; lia.
  - destruct (addCalibrationFrame_effect now metrics c)
      as (Hr & [[-> _] | (M & p & Hcal & _ & _ & _ & Hf & Hstill)]);
      [auto|].
    rewrite Hr, Hf, length_app, Nat.add_1_r.
    specialize (Hlt Hcal). repeat split; try assumption; lia.
  - destruct (PostureCalibratorProps.completeCalibration_keeps now c)
      as [Hf Hr].
    rewrite Hf, Hr. repeat split; try assumption.
    destruct (calibrationFrames c) eqn:E.
    + unfold completeCalibration. rewrite E. cbn. exact Hlt.
    + rewrite completeCalibration_stops by (rewrite E; discriminate).
      discriminate.
  - cbn. auto.
  - unfold loadCalibration.
    destruct (postureCalibration st) as [[|savedFor savedAt data]|];
      cbn; auto.
    destruct (String.eqb savedFor _); cbn; auto.
Qed.

(** X4: whatever calls are made on a new store, it never holds more than
    [requiredFrames] = 60 frames, holds fewer while it is collecting,
    and every progress report it returns has
    [framesCollected <= framesRequired]. *)
Theorem collected_frames_bounded :
  forall (ops : list Op),
    requiredFrames (session ops) = 60 /\
    List.length (calibrationFrames (session ops)) <= 60 /\
    (isCalibrating (session ops) = true ->
     List.length (calibrationFrames (session ops)) < 60) /\
    (forall now metrics p,
        snd (addCalibrationFrame now metrics (session ops)) = Some p ->
        framesCollected p <= framesRequired p /\ framesRequired p = 60).
Proof.
  intro ops.
  assert (H : forall c, collecting_bound c ->
                        collecting_bound (fold_left perform ops c)).
  { induction ops as [|op rest IH]; intros c Hc; cbn; [exact Hc|].
    apply IH, perform_collecting_bound, Hc. }
  assert (Hnew : collecting_bound new)
    by (unfold collecting_bound; cbn; repeat split; intros; lia).
  pose proof (H new Hnew) as (Hreq & Hle & Hlt). fold (session ops) in *.
  rewrite Hreq in Hle, Hlt.
  split; [exact Hreq|]. split; [exact Hle|]. split; [exact Hlt|].
  intros now metrics p Hp.
  destruct (addCalibrationFrame_effect now metrics (session ops))
    as (_ & [[_ Hnone] | (M & p' & Hcal & Hsome & Hc & Hr & _)]).
  - rewrite Hnone in Hp. discriminate Hp.
  - rewrite Hsome in Hp. injection Hp as <-.
    rewrite Hc, Hr, Hreq. specialize (Hlt Hcal). lia.
Qed.

(** *** Calibration runs of arbitrary frames *)

Lemma addCalibrationFrame_idle now metrics c :
  isCalibrating c = false \/ metrics = None ->
  addCalibrationFrame now metrics c = (c, None).
Proof.
  unfold addCalibrationFrame. intros [-> | ->]; [reflexivity|].
  destruct (isCalibrating c); reflexivity.
Qed.

Lemma collectFrames_idle run :
  forall c, isCalibrating c = false -> collectFrames run c = c.
Proof.
  induction run as [|[now metrics] rest IH]; intros c Hc; [reflexivity|].
  cbn [collectFrames].
  rewrite addCalibrationFrame_idle by (now left). now apply IH.
Qed.

(** A run on a collecting store keeps collecting until the required
    number of records is in; the record that completes it finalizes the
    store from the first [requiredFrames] records, and what follows is
    ignored. *)
Lemma collectFrames_spec run :
  forall c,
    isCalibrating c = true ->
    List.length (calibrationFrames c) < requiredFrames c ->
    (List.length (calibrationFrames c ++ metricsIn run) < requiredFrames c ->
     collectFrames run c
     = collecting c (calibrationFrames c ++ metricsIn run))
    /\
    (requiredFrames c <= List.length (calibrationFrames c ++ metricsIn run) ->
     exists now,
       In now (map fst run) /\
       collectFrames run c
       = finalized c now
           (firstn (requiredFrames c) (calibrationFrames c ++ metricsIn run))).
Proof.
  induction run as [|[now [M|]] rest IH]; intros c Hcal Hlt.
  - cbn [metricsIn collectFrames]. rewrite app_nil_r. split.
    + intros _. unfold collecting. rewrite <- Hcal. destruct c; reflexivity.
    + intro H. lia.
  - cbn [metricsIn collectFrames].
    destruct (Nat.lt_ge_cases (S (List.length (calibrationFrames c)))
                (requiredFrames c)) as [Hroom | Hfull].
    + rewrite (PostureCalibratorProps.addCalibrationFrame_collecting
                 now M c Hcal Hroom).
      match goal with
      | |- context [collectFrames rest ?c1] =>
          destruct (IH c1) as [IHa IHb]
      end.
      { reflexivity. }
      { cbn [calibrationFrames requiredFrames].
        rewrite length_app. cbn. lia. }
      cbn [calibrationFrames requiredFrames calibrationData
           currentPostureType] in IHa, IHb.
      rewrite <- app_assoc in IHa, IHb. cbn [app] in IHa, IHb.
      split; [exact IHa|].
      intro H. destruct (IHb H) as (now' & Hin & E).
      exists now'. split; [right; exact Hin | exact E].
    + assert (Hlen : S (List.length (calibrationFrames c))
                     = requiredFrames c) by lia.
      rewrite (PostureCalibratorProps.addCalibrationFrame_finalizes
                 now M c Hcal Hlen).
      cbn [fst].
      assert (Hfin :
        fst (completeCalibration now
               {| calibrationData := calibrationData c;
                  isCalibrating := true;
                  calibrationFrames := calibrationFrames c ++ [M];
                  requiredFrames := requiredFrames c;
                  currentPostureType := currentPostureType c |})
        = finalized c now (calibrationFrames c ++ [M])).
      { unfold completeCalibration. cbn [calibrationFrames].
        destruct (calibrationFrames c ++ [M]) eqn:E;
          [destruct (calibrationFrames c); discriminate E|].
        reflexivity. }
      rewrite Hfin, collectFrames_idle by reflexivity.
      split.
      * rewrite length_app. cbn [List.length]. intro H. lia.
      * intros _. exists now. split; [left; reflexivity|].
        f_equal.
        change (M :: metricsIn rest) with ([M] ++ metricsIn rest).
        rewrite app_assoc, firstn_app.
        assert (Hl : List.length (calibrationFrames c ++ [M])
                     = requiredFrames c)
          by (rewrite length_app; cbn; lia).
        rewrite <- Hl, firstn_all, Nat.sub_diag. cbn [firstn].
        now rewrite app_nil_r.
  - cbn [metricsIn collectFrames].
    rewrite addCalibrationFrame_idle by (now right). cbn [fst].
    destruct (IH c Hcal Hlt) as [IHa IHb]. split; [exact IHa|].
    intro H. destruct (IHb H) as (now' & Hin & E).
    exists now'. split; [right; exact Hin | exact E].
Qed.

(** A run that delivers at least [requiredFrames] records finalizes from
    the first [requiredFrames] of them. *)
Lemma calibrationRun_finalized kind run c :
  0 < requiredFrames c ->
  requiredFrames c <= List.length (metricsIn run) ->
  exists now,
    calibrationRun kind run c
    = finalized (startCalibration (Some kind) c) now
        (firstn (requiredFrames c) (metricsIn run)).
Proof.
  intros Hpos Hlen. unfold calibrationRun.
  destruct (collectFrames_spec run (startCalibration (Some kind) c))
    as [_ H]; [reflexivity | exact Hpos |].
  destruct (H Hlen) as (now & _ & E). exists now. exact E.
Qed.

(** X5: once a calibration run has delivered [requiredFrames] records
    and finalized, further frames are ignored: [addCalibrationFrame]
    returns [undefined] and leaves the store as it is, whatever the
    posture type and whatever the records of the run were. *)
Theorem finished_calibration_ignores_frames :
  forall (c : t) (kind : string) (run : list Delivery) (now : Z)
         (metrics : option PoseDetector.PostureMetrics),
    0 < requiredFrames c ->
    requiredFrames c <= List.length (metricsIn run) ->
    addCalibrationFrame now metrics (calibrationRun kind run c)
    = (calibrationRun kind run c, None).
Proof.
  intros c kind run now metrics Hpos Hlen.
  destruct (calibrationRun_finalized kind run c Hpos Hlen) as (now0 & ->).
  apply addCalibrationFrame_idle. left. reflexivity.
Qed.

Lemma finished_calibration_ignores_frames_witness :
  addCalibrationFrame 5 (Some slouchedSample)
    (calibrationRun "good" mixedGoodRun new)
  = (calibrationRun "good" mixedGoodRun new, None).
Proof.
  apply (finished_calibration_ignores_frames
           new "good" mixedGoodRun 5 (Some slouchedSample)).
  - vm_compute. lia.
  - vm_compute. lia.
Defined.

(** X6: the two-step calibration of the calibration screen (good, then
    slouched), each run delivering at least [requiredFrames] records of
    any kind, leaves a complete profile: each baseline is the average of
    the first [requiredFrames] records of its run, the second run keeps
    the creation time of the first, [hasCalibration()] is true and the
    monitor's [start()] is accepted. *)
Theorem two_step_calibration_is_complete :
  forall (c : t) (goodRun slouchedRun : list Delivery),
    0 < requiredFrames c ->
    requiredFrames c <= List.length (metricsIn goodRun) ->
    requiredFrames c <= List.length (metricsIn slouchedRun) ->
    hasCalibration
      (calibrationRun "slouched" slouchedRun
         (calibrationRun "good" goodRun c)) = true /\
    baselineFor "good"
      (calibrationRun "slouched" slouchedRun
         (calibrationRun "good" goodRun c))
      = Some (calculateAverageMetrics
                (firstn (requiredFrames c) (metricsIn goodRun))) /\
    baselineFor "slouched"
      (calibrationRun "slouched" slouchedRun
         (calibrationRun "good" goodRun c))
      = Some (calculateAverageMetrics
                (firstn (requiredFrames c) (metricsIn slouchedRun))) /\
    option_map calibratedAt
      (calibrationData
         (calibrationRun "slouched" slouchedRun
            (calibrationRun "good" goodRun c)))
      = option_map calibratedAt
          (calibrationData (calibrationRun "good" goodRun c)) /\
    forall now now' m,
      snd (CalibratedPostureMonitor.start
             (calibrationRun "slouched" slouchedRun
                (calibrationRun "good" goodRun c))
             now now' m) = true.
Proof.
  intros c goodRun slouchedRun Hpos Hgood Hslouched.
  destruct (calibrationRun_finalized "good" goodRun c Hpos Hgood)
    as (now1 & E1).
  assert (Hr1 : requiredFrames (calibrationRun "good" goodRun c)
                = requiredFrames c) by (rewrite E1; reflexivity).
  destruct (calibrationRun_finalized "slouched" slouchedRun
              (calibrationRun "good" goodRun c))
    as (now2 & E2); [lia | lia |].
  rewrite E2, Hr1, E1.
  unfold finalized, startCalibration.
  cbn [calibrationData requiredFrames currentPostureType].
  repeat split.
Qed.

Lemma two_step_calibration_is_complete_witness :
  hasCalibration
    (calibrationRun "slouched" mixedSlouchedRun
       (calibrationRun "good" mixedGoodRun new)) = true /\
  baselineFor "good"
    (calibrationRun "slouched" mixedSlouchedRun
       (calibrationRun "good" mixedGoodRun new))
    = Some (calculateAverageMetrics
              (firstn (requiredFrames new) (metricsIn mixedGoodRun))) /\
  baselineFor "slouched"
    (calibrationRun "slouched" mixedSlouchedRun
       (calibrationRun "good" mixedGoodRun new))
    = Some (calculateAverageMetrics
              (firstn (requiredFrames new) (metricsIn mixedSlouchedRun))) /\
  option_map calibratedAt
    (calibrationData
       (calibrationRun "slouched" mixedSlouchedRun
          (calibrationRun "good" mixedGoodRun new)))
    = option_map calibratedAt
        (calibrationData (calibrationRun "good" mixedGoodRun new)) /\
  forall now now' m,
    snd (CalibratedPostureMonitor.start
           (calibrationRun "slouched" mixedSlouchedRun
              (calibrationRun "good" mixedGoodRun new))
           now now' m) = true.
Proof.
  apply (two_step_calibration_is_complete new mixedGoodRun mixedSlouchedRun).
  - vm_compute. lia.
  - vm_compute. lia.
  - vm_compute. lia.
Defined.

(** *** Drift check *)

Lemma unknown_property_is_nan (B : AvgMetrics) (metric : string) :
  isFeature metric = false -> prop B metric = nan.
Proof.
  unfold isFeature, featureNames, prop. cbn [existsb].
  intro H. repeat (apply Bool.orb_false_iff in H as [-> H]). reflexivity.
Qed.

Lemma deviation_from_nothing (v : float) (tolerance : float) :
  JS.gt (JS.Math_abs ((v - nan) / nan)) tolerance = false.
Proof.
  rewrite FloatArith.sub_nan_r, FloatFacts.div_nan_l.
  unfold JS.gt, JS.Math_abs. change (abs nan) with nan.
  apply FloatFacts.ltb_nan_r.
Qed.

(** X7: the drift check looks only at the five averaged features: a
    property of the sample that the baseline lacks (the [shoulderWidth]
    and [timestamp] of a full metrics record, say) is never reported, so
    the result is that of the sample stripped of such properties. *)
Theorem drift_check_ignores_other_properties :
  forall (tolerance : float) (B : AvgMetrics)
         (currentMetrics : list (string * float)),
    driftLoop tolerance B currentMetrics
    = driftLoop tolerance B
        (filter (fun kv => isFeature (fst kv)) currentMetrics).
Proof.
  intros tolerance B currentMetrics.
  induction currentMetrics as [|[metric v] rest IH]; [reflexivity|].
  cbn [filter fst]. destruct (isFeature metric) eqn:Hf.
  - cbn [driftLoop]. rewrite IH. reflexivity.
  - cbn [driftLoop]. rewrite (unknown_property_is_nan B metric Hf).
    rewrite deviation_from_nothing. exact IH.
Qed.

(** X8: the drift check asks for recalibration exactly when some property
    of the sample deviates from the baseline by more than the tolerance,
    and the reason it gives names the first such property with its
    deviation in percent. *)
Theorem drift_check_names_first_offender :
  forall (tolerance : float) (B : AvgMetrics)
         (before after : list (string * float)) (metric : string)
         (v : float),
    forallb (fun kv => negb (JS.gt (deviationFrom B kv) tolerance)) before
      = true ->
    JS.gt (deviationFrom B (metric, v)) tolerance = true ->
    driftLoop tolerance B (before ++ (metric, v) :: after)
    = {| needed := true;
         reason :=
           String.append metric
             (String.append " deviation: "
                (String.append
                   (JS.toFixed (deviationFrom B (metric, v) * 100)%float 1)
                   "%")) |}.
Proof.
  intros tolerance B before after metric v Hbefore Hgt.
  induction before as [|[k w] rest IH].
  - cbn [app driftLoop]. unfold deviationFrom in Hgt. cbn [fst snd] in Hgt.
    rewrite Hgt. reflexivity.
  - cbn [forallb] in Hbefore.
    apply Bool.andb_true_iff in Hbefore as [Hk Hrest].
    cbn [app driftLoop]. unfold deviationFrom in Hk. cbn [fst snd] in Hk.
    apply Bool.negb_true_iff in Hk. rewrite Hk. exact (IH Hrest).
Qed.

Lemma drift_check_names_first_offender_witness :
  driftLoop 0.15 scenarioGood
    ([("headShoulderRatio"%string, 0.31%float)]
     ++ ("torsoAngle"%string, 9%float) :: [("neckAngle"%string, 90%float)])
  = {| needed := true;
       reason :=
         String.append "torsoAngle"
           (String.append " deviation: "
              (String.append
                 (JS.toFixed
                    (deviationFrom scenarioGood ("torsoAngle"%string, 9%float)
                     * 100)%float 1)
                 "%")) |}.
Proof.
  apply (drift_check_names_first_offender 0.15 scenarioGood
           [("headShoulderRatio"%string, 0.31%float)]
           [("neckAngle"%string, 90%float)] "torsoAngle" 9).
  - vm_compute. reflexivity.
  - vm_compute. reflexivity.
Defined.

Lemma drift_needed_iff_some_offender (tolerance : float) (B : AvgMetrics)
    (currentMetrics : list (string * float)) :
  needed (driftLoop tolerance B currentMetrics)
  = existsb (fun kv => JS.gt (deviationFrom B kv) tolerance) currentMetrics.
Proof.
  induction currentMetrics as [|[k w] rest IH]; [reflexivity|].
  cbn [driftLoop existsb]. unfold deviationFrom at 1. cbn [fst snd].
  destruct (JS.gt _ tolerance); [reflexivity | exact IH].
Qed.

(** *** Persistence *)

Lemma jsonMetrics_safe (a : AvgMetrics) :
  safeMetrics a = true -> jsonMetrics a = a.
Proof.
  unfold safeMetrics, jsonMetrics, jsonNumber. intro H.
  repeat (apply Bool.andb_true_iff in H as [H ?]).
  repeat match goal with Hs : jsonSafe _ = true |- _ => rewrite Hs; clear Hs end.
  destruct a; reflexivity.
Qed.

Lemma jsonData_safe (d : CalibrationData) :
  safeData d = true -> jsonData d = d.
Proof.
  unfold safeData, jsonData. intro H.
  apply Bool.andb_true_iff in H as [H Ho].
  apply Bool.andb_true_iff in H as [Hg Hs].
  assert (Hopt : forall b, safeBaseline b = true -> option_map jsonMetrics b = b).
  { intros [a|] Ha; [cbn; f_equal; now apply jsonMetrics_safe | reflexivity]. }
  rewrite (Hopt _ Hg), (Hopt _ Hs).
  assert (Hmap : map (fun kv => (fst kv, jsonMetrics (snd kv)))
                     (otherPostures d) = otherPostures d).
  { induction (otherPostures d) as [|[k a] rest IH]; [reflexivity|].
    cbn [forallb snd] in Ho. apply Bool.andb_true_iff in Ho as [Ha Hrest].
    cbn. rewrite (jsonMetrics_safe a Ha), (IH Hrest). reflexivity. }
  rewrite Hmap. destruct d; reflexivity.
Qed.

(** X9: a calibration whose numbers are all finite survives the round
    trip through storage: after a successful [saveCalibration(userId)],
    [loadCalibration(userId)] on any store (a fresh one after a reload,
    say) returns [true] and installs exactly the saved calibration
    data. *)
Theorem saved_calibration_loads_back :
  forall (userId : option string) (now : Z) (st : Storage) (c c0 : t)
         (d : CalibrationData),
    calibrationData c = Some d ->
    refusesWrites st = false ->
    safeData d = true ->
    snd (saveCalibration userId now st c) = true /\
    loadCalibration userId (fst (saveCalibration userId now st c)) c0
    = ({| calibrationData := Some d;
          isCalibrating := isCalibrating c0;
          calibrationFrames := calibrationFrames c0;
          requiredFrames := requiredFrames c0;
          currentPostureType := currentPostureType c0 |}, true).
Proof.
  intros userId now st c c0 d Hd Hw Hsafe.
  unfold saveCalibration, loadCalibration. rewrite Hd, Hw.
  cbn [fst snd postureCalibration]. rewrite String.eqb_refl.
  rewrite (jsonData_safe d Hsafe). split; reflexivity.
Qed.

Lemma saved_calibration_loads_back_witness :
  snd (saveCalibration None 7 emptyStorage scenarioStore) = true /\
  loadCalibration None
    (fst (saveCalibration None 7 emptyStorage scenarioStore)) new
  = ({| calibrationData :=
          Some {| goodPosture := Some scenarioGood;
                  slouchedPosture := Some scenarioSlouched;
                  calibratedAt := 0;
                  otherPostures := [] |};
        isCalibrating := isCalibrating new;
        calibrationFrames := calibrationFrames new;
        requiredFrames := requiredFrames new;
        currentPostureType := currentPostureType new |}, true).
Proof.
  apply (saved_calibration_loads_back None 7 emptyStorage scenarioStore new).
  - reflexivity.
  - reflexivity.
  - vm_compute. reflexivity.
Defined.

(** X10: a calibration saved for one user is not loaded for another:
    [loadCalibration] returns [false] and leaves the store untouched. *)
Theorem calibration_of_another_user_is_rejected :
  forall (saver loader : option string) (now : Z) (st : Storage)
         (c c0 : t) (d : CalibrationData),
    calibrationData c = Some d ->
    refusesWrites st = false ->
    userOf saver <> userOf loader ->
    loadCalibration loader (fst (saveCalibration saver now st c)) c0
    = (c0, false).
Proof.
  intros saver loader now st c c0 d Hd Hw Hneq.
  unfold saveCalibration, loadCalibration. rewrite Hd, Hw.
  cbn [fst postureCalibration].
  fold (userOf saver). fold (userOf loader).
  apply String.eqb_neq in Hneq. rewrite Hneq. reflexivity.
Qed.

Lemma calibration_of_another_user_is_rejected_witness :
  loadCalibration None
    (fst (saveCalibration (Some "ana"%string) 7 emptyStorage scenarioStore))
    new
  = (new, false).
Proof.
  apply (calibration_of_another_user_is_rejected
           (Some "ana"%string) None 7 emptyStorage scenarioStore new
           {| goodPosture := Some scenarioGood;
              slouchedPosture := Some scenarioSlouched;
              calibratedAt := 0;
              otherPostures := [] |}).
  - reflexivity.
  - reflexivity.
  - discriminate.
Defined.

(** X11: [clearCalibration()] erases both copies: afterwards the store
    has no calibration, nothing can be loaded for any user, the monitor
    refuses to start and the drift check asks for recalibration. *)
Theorem cleared_calibration_is_gone :
  forall (st : Storage) (c c0 : t) (userId : option string)
         (now now' : Z) (m : CalibratedPostureMonitor.t)
         (currentMetrics : list (string * float)),
    hasCalibration (fst (clearCalibrationIn st c)) = false /\
    loadCalibration userId (snd (clearCalibrationIn st c)) c0 = (c0, false) /\
    CalibratedPostureMonitor.start (fst (clearCalibrationIn st c)) now now' m
      = (m, false) /\
    checkIfRecalibrationNeeded currentMetrics (fst (clearCalibrationIn st c))
      = {| needed := true; reason := "No calibration data found" |}.
Proof. intros. repeat split. Qed.

End PostureCalibratorMore.

(* ----------------------------------------------------------------- *)
(** ** CalibratedPostureMonitor *)

Module MonitorMore.

Import CalibratedPostureMonitor Session MonitorViews SampleStores
  SampleSessions.

(** *** What one frame can do *)

Lemma feed_skipped cal f m :
  isMonitoring m = false \/ metricsOf f = None ->
  feed cal f m = {| state := m; outcome := Returned None; calls := [] |}.
Proof.
  unfold feed, processFrame.
  intros [H | H]; rewrite H; [reflexivity|].
  destruct (isMonitoring m); reflexivity.
Qed.

Lemma feed_thrown cal f m cur :
  isMonitoring m = true ->
  metricsOf f = Some cur ->
  analyzePostureVsCalibration cal cur = Threw ->
  feed cal f m
  = {| state := set_stats (Stats.incrTotalFrames (stats m)) m;
       outcome := Threw; calls := [] |}.
Proof.
  unfold feed, processFrame. intros -> -> ->. reflexivity.
Qed.

(** A frame is skipped, throws, or is counted as slouching or as good. *)
Lemma feed_cases cal f m :
  feed cal f m = {| state := m; outcome := Returned None; calls := [] |}
  \/ feed cal f m
     = {| state := set_stats (Stats.incrTotalFrames (stats m)) m;
          outcome := Threw; calls := [] |}
  \/ (isMonitoring m = true /\ slouchingFrame cal f = true)
  \/ (isMonitoring m = true /\ goodFrame cal f = true).
Proof.
  destruct (isMonitoring m) eqn:Hmon;
    [|left; apply feed_skipped; now left].
  destruct (metricsOf f) as [cur|] eqn:Hmet;
    [|left; apply feed_skipped; now right].
  destruct (analyzePostureVsCalibration cal cur) as [a|] eqn:Ha;
    [|right; left; now apply (feed_thrown cal f m cur)].
  right. right. unfold slouchingFrame, goodFrame, verdict.
  rewrite Hmet, Ha. destruct (isSlouching a); auto.
Qed.

Lemma slouching_stats cal f m :
  isMonitoring m = true ->
  slouchingFrame cal f = true ->
  stats (state (feed cal f m))
  = (if (requiredSlouchFrames m <=? S (slouchFrames m))
        && negb (isCurrentlySlouched m)
     then Stats.incrAlerts
            (Stats.incrSlouchFrames (Stats.incrTotalFrames (stats m)))
     else Stats.incrSlouchFrames (Stats.incrTotalFrames (stats m))).
Proof.
  intros Hmon Hv. unfold slouchingFrame, verdict in Hv.
  unfold feed, processFrame. rewrite Hmon.
  destruct (metricsOf f) as [cur|]; [|discriminate].
  destruct (analyzePostureVsCalibration cal cur) as [a|]; [|discriminate].
  destruct (isSlouching a); [|discriminate].
  unfold onSlouchingFrame. cbn.
  destruct (onSlouchDetected m);
    destruct (requiredSlouchFrames m <=? S (slouchFrames m));
    destruct (isCurrentlySlouched m); cbn;
    match goal with
    | |- context [driftCheck ?n ?n' ?x] =>
        destruct (DebouncerProps.driftCheck_cases n n' x) as [-> | ->]
    end; reflexivity.
Qed.

Lemma good_stats cal f m :
  isMonitoring m = true ->
  goodFrame cal f = true ->
  stats (state (feed cal f m))
  = Stats.incrGoodFrames (Stats.incrTotalFrames (stats m)).
Proof.
  intros Hmon Hv. unfold goodFrame, verdict in Hv.
  unfold feed, processFrame. rewrite Hmon.
  destruct (metricsOf f) as [cur|]; [|discriminate].
  destruct (analyzePostureVsCalibration cal cur) as [a|]; [|discriminate].
  destruct (isSlouching a); [discriminate|].
  unfold onGoodFrame. cbn.
  destruct (onPostureCorrected m);
    destruct (requiredGoodFrames m <=? S (goodPostureFrames m));
    destruct (isCurrentlySlouched m); cbn;
    match goal with
    | |- context [driftCheck ?n ?n' ?x] =>
        destruct (DebouncerProps.driftCheck_cases n n' x) as [-> | ->]
    end; reflexivity.
Qed.

(** *** stop *)

(** X12: after [stop()] every frame is ignored: the monitor stays as it
    is (a standing alert included) and no callback is invoked, until
    [start()] is called again. *)
Theorem stopped_monitor_ignores_frames :
  forall (cal : PostureCalibrator.t) (frames : list Frame) (m : t),
    processFrames cal frames (stop m) = (stop m, []) /\
    isCurrentlySlouched (stop m) = isCurrentlySlouched m /\
    stats (stop m) = stats m.
Proof.
  intros cal frames m. split; [|split; reflexivity].
  induction frames as [|f rest IH]; [reflexivity|].
  rewrite DebouncerProps.processFrames_cons.
  rewrite (feed_skipped cal f (stop m)) by (left; reflexivity).
  cbn [state calls]. rewrite IH. reflexivity.
Qed.

(** *** resetSession *)

(** X13: [resetSession()] puts a running monitor back to GOOD with both
    streaks at 0 and the statistics untouched; the next alert then takes
    a full streak: a run of [n] slouching frames raises it (once) exactly
    when [n >= requiredSlouchFrames]. *)
Theorem reset_requires_a_full_streak :
  forall (cal : PostureCalibrator.t) (m : t) (now : Z) (cb : callback)
         (frames : list Frame),
    isMonitoring m = true ->
    onSlouchDetected m = Some cb ->
    forallb (slouchingFrame cal) frames = true ->
    isCurrentlySlouched (resetSession now m) = false /\
    stats (resetSession now m) = stats m /\
    slouchAlerts (snd (processFrames cal frames (resetSession now m)))
    = (if (1 <=? List.length frames)
          && (requiredSlouchFrames m <=? List.length frames)
       then 1 else 0).
Proof.
  intros cal m now cb frames Hmon Hcb Hall.
  split; [reflexivity|]. split; [reflexivity|].
  destruct (DebouncerProps.slouch_run cal cb frames (resetSession now m)
              Hmon Hcb Hall) as (Hal & _).
  exact Hal.
Qed.

Lemma reset_requires_a_full_streak_witness :
  isCurrentlySlouched (resetSession 5000 alerted) = false /\
  stats (resetSession 5000 alerted) = stats alerted /\
  slouchAlerts
    (snd (processFrames calibratedStore (repeat slouchedFrame 99)
            (resetSession 5000 alerted)))
  = (if (1 <=? List.length (repeat slouchedFrame 99))
        && (requiredSlouchFrames alerted
            <=? List.length (repeat slouchedFrame 99))
     then 1 else 0).
Proof.
  apply (reset_requires_a_full_streak calibratedStore alerted 5000 1
           (repeat slouchedFrame 99));
    vm_compute; reflexivity.
Defined.

(** *** Alerts and corrections over a session *)

Lemma good_frame_effect cal f m :
  isMonitoring m = true ->
  goodFrame cal f = true ->
  slouchFrames (state (feed cal f m)) = 0 /\
  slouchAlerts (calls (feed cal f m)) = 0 /\
  (isCurrentlySlouched (state (feed cal f m)) = true ->
   isCurrentlySlouched m = true).
Proof.
  intros Hmon Hv. unfold goodFrame, verdict in Hv.
  unfold feed, processFrame. rewrite Hmon.
  destruct (metricsOf f) as [cur|]; [|discriminate].
  destruct (analyzePostureVsCalibration cal cur) as [a|]; [|discriminate].
  destruct (isSlouching a); [discriminate|].
  unfold onGoodFrame. cbn.
  destruct (onPostureCorrected m);
    destruct (requiredGoodFrames m <=? S (goodPostureFrames m));
    destruct (isCurrentlySlouched m) eqn:Hsl; cbn;
    match goal with
    | |- context [driftCheck ?n ?n' ?x] =>
        destruct (DebouncerProps.driftCheck_cases n n' x) as [-> | ->]
    end; cbn; repeat split; auto; congruence.
Qed.

Lemma feed_alerts cal f m cb :
  onSlouchDetected m = Some cb ->
  Stats.alerts (stats (state (feed cal f m)))
  = Stats.alerts (stats m) + slouchAlerts (calls (feed cal f m)).
Proof.
  intro Hcb.
  destruct (feed_cases cal f m) as [E | [E | [[Hmon Hv] | [Hmon Hv]]]].
  - rewrite E. cbn. lia.
  - rewrite E. cbn. lia.
  - rewrite (slouching_stats cal f m Hmon Hv).
    destruct (DebouncerProps.feed_slouching cal f m cb Hmon Hcb Hv)
      as (_ & _ & _ & -> & _).
    destruct (requiredSlouchFrames m <=? S (slouchFrames m));
      destruct (isCurrentlySlouched m); cbn; lia.
  - rewrite (good_stats cal f m Hmon Hv).
    destruct (good_frame_effect cal f m Hmon Hv) as (_ & -> & _).
    cbn. lia.
Qed.

(** X14: with [onSlouchDetected] registered, the alert count of the
    statistics moves in step with the callback: over any frames (good,
    slouching, skipped or throwing) [totalAlerts] grows by the number of
    times the callback was invoked. *)
Theorem totalAlerts_counts_the_callbacks :
  forall (cal : PostureCalibrator.t) (frames : list Frame) (m : t)
         (cb : callback) (now : Z),
    onSlouchDetected m = Some cb ->
    totalAlerts (getStats now (fst (processFrames cal frames m)))
    = totalAlerts (getStats now m)
      + slouchAlerts (snd (processFrames cal frames m)).
Proof.
  intros cal frames m cb now. cbn [getStats totalAlerts].
  revert m. induction frames as [|f rest IH]; intros m Hcb.
  - cbn. lia.
  - rewrite DebouncerProps.processFrames_cons. cbn [fst snd].
    destruct (DebouncerProps.config_fields _ _
                (DebouncerProps.feed_config cal f m))
      as (_ & _ & _ & Hcb1 & _).
    rewrite Hcb in Hcb1.
    rewrite (IH _ Hcb1), DebouncerProps.slouchAlerts_app,
      (feed_alerts cal f m cb Hcb).
    lia.
Qed.

Lemma totalAlerts_counts_the_callbacks_witness :
  totalAlerts
    (getStats 9000
       (fst (processFrames calibratedStore
               (repeat slouchedFrame 120 ++ repeat uprightFrame 12) started)))
  = totalAlerts (getStats 9000 started)
    + slouchAlerts
        (snd (processFrames calibratedStore
                (repeat slouchedFrame 120 ++ repeat uprightFrame 12) started)).
Proof.
  apply (totalAlerts_counts_the_callbacks calibratedStore
           (repeat slouchedFrame 120 ++ repeat uprightFrame 12) started 1 9000).
  reflexivity.
Defined.

Lemma feed_alternation cal f m cb cb' :
  onSlouchDetected m = Some cb ->
  onPostureCorrected m = Some cb' ->
  slouchAlerts (calls (feed cal f m)) + Nat.b2n (isCurrentlySlouched m)
  = corrections (calls (feed cal f m))
    + Nat.b2n (isCurrentlySlouched (state (feed cal f m))).
Proof.
  intros Hcb Hcb'.
  destruct (feed_cases cal f m) as [E | [E | [[Hmon Hv] | [Hmon Hv]]]].
  - rewrite E. reflexivity.
  - rewrite E. reflexivity.
  - destruct (DebouncerProps.feed_slouching cal f m cb Hmon Hcb Hv)
      as (_ & _ & -> & -> & ->).
    destruct (requiredSlouchFrames m <=? S (slouchFrames m));
      destruct (isCurrentlySlouched m); reflexivity.
  - destruct (DebouncerProps.feed_good cal f m cb' Hmon Hcb' Hv)
      as (_ & _ & -> & -> & ->).
    destruct (requiredGoodFrames m <=? S (goodPostureFrames m));
      destruct (isCurrentlySlouched m); reflexivity.
Qed.

(** X15: alerts and corrections alternate.  With both callbacks
    registered, over any frames the number of [onSlouchDetected] calls
    exceeds the number of [onPostureCorrected] calls by one if the
    monitor went from GOOD to SLOUCHED, is one less if it went from
    SLOUCHED to GOOD, and equals it otherwise. *)
Theorem alerts_and_corrections_alternate :
  forall (cal : PostureCalibrator.t) (frames : list Frame) (m : t)
         (cb cb' : callback),
    onSlouchDetected m = Some cb ->
    onPostureCorrected m = Some cb' ->
    slouchAlerts (snd (processFrames cal frames m))
    + Nat.b2n (isCurrentlySlouched m)
    = corrections (snd (processFrames cal frames m))
      + Nat.b2n (isCurrentlySlouched (fst (processFrames cal frames m))).
Proof.
  intros cal frames. induction frames as [|f rest IH];
    intros m cb cb' Hcb Hcb'; [reflexivity|].
  rewrite DebouncerProps.processFrames_cons. cbn [fst snd].
  destruct (DebouncerProps.config_fields _ _
              (DebouncerProps.feed_config cal f m))
    as (_ & _ & _ & Hcb1 & Hcb1').
  rewrite Hcb in Hcb1. rewrite Hcb' in Hcb1'.
  pose proof (IH _ cb cb' Hcb1 Hcb1') as Hrest.
  pose proof (feed_alternation cal f m cb cb' Hcb Hcb') as Hstep.
  rewrite DebouncerProps.slouchAlerts_app, DebouncerProps.corrections_app.
  lia.
Qed.

Lemma alerts_and_corrections_alternate_witness :
  slouchAlerts
    (snd (processFrames calibratedStore
            (repeat slouchedFrame 120 ++ repeat uprightFrame 12) started))
  + Nat.b2n (isCurrentlySlouched started)
  = corrections
      (snd (processFrames calibratedStore
              (repeat slouchedFrame 120 ++ repeat uprightFrame 12) started))
    + Nat.b2n
        (isCurrentlySlouched
           (fst (processFrames calibratedStore
                   (repeat slouchedFrame 120 ++ repeat uprightFrame 12)
                   started))).
Proof.
  apply (alerts_and_corrections_alternate calibratedStore
           (repeat slouchedFrame 120 ++ repeat uprightFrame 12) started 1 2);
    reflexivity.
Defined.

(** *** Streaks *)

Lemma perform_oneStreak cal m op : oneStreak m -> oneStreak (perform cal m op).
Proof.
  unfold oneStreak.
  destruct op as [now now'| |now now' metrics|now|cb|cb]; cbn [perform].
  - intro H. unfold start.
    destruct (PostureCalibrator.hasCalibration cal); cbn; auto.
  - cbn. auto.
  - intro H.
    change (processFrame cal now now' metrics m)
      with (feed cal {| readAt := now; markAt := now';
                        metricsOf := metrics |} m).
    destruct (feed_cases cal {| readAt := now; markAt := now';
                                metricsOf := metrics |} m)
      as [E | [E | [[Hmon Hv] | [Hmon Hv]]]].
    + rewrite E. exact H.
    + rewrite E. exact H.
    + right. now apply DebouncerProps.slouching_resets_good_streak.
    + left. now destruct (good_frame_effect cal _ m Hmon Hv) as (-> & _).
  - cbn. auto.
  - cbn. auto.
  - cbn. auto.
Qed.

(** X16: the two streak counters are never both running: after any
    sequence of calls on a new monitor, [slouchFrames] or
    [goodPostureFrames] is 0. *)
Theorem streaks_exclude_each_other :
  forall (cal : PostureCalibrator.t) (ops : list Op),
    slouchFrames (session cal ops) = 0
    \/ goodPostureFrames (session cal ops) = 0.
Proof.
  intros cal ops.
  assert (H : forall m, oneStreak m ->
                        oneStreak (fold_left (perform cal) ops m)).
  { induction ops as [|op rest IH]; intros m Hm; cbn; [exact Hm|].
    apply IH, perform_oneStreak, Hm. }
  apply (H new). left. reflexivity.
Qed.

(** *** The clock *)

Lemma processFrame_timeless cal n1 n1' n2 n2' metrics m1 m2 :
  timeless m1 = timeless m2 ->
  timeless (state (processFrame cal n1 n1' metrics m1))
  = timeless (state (processFrame cal n2 n2' metrics m2))
  /\ outcome (processFrame cal n1 n1' metrics m1)
     = outcome (processFrame cal n2 n2' metrics m2)
  /\ calls (processFrame cal n1 n1' metrics m1)
     = calls (processFrame cal n2 n2' metrics m2).
Proof.
  destruct m1 as [mon1 st1 dci1 ldc1 sf1 gf1 rs1 rg1 sl1 cs1 cc1 s1],
    m2 as [mon2 st2 dci2 ldc2 sf2 gf2 rs2 rg2 sl2 cs2 cc2 s2].
  unfold timeless, set_lastDriftCheck. cbn. intro H.
  injection H as -> -> -> -> -> -> -> -> -> -> ->.
  unfold processFrame. cbn.
  destruct mon2; [|auto].
  destruct metrics as [cur|]; [|auto].
  destruct (analyzePostureVsCalibration cal cur) as [a|]; [|auto].
  destruct (isSlouching a).
  - unfold onSlouchingFrame. cbn.
    destruct ((rs2 <=? S sf2) && negb sl2); cbn;
      [destruct cs2; cbn|];
      unfold driftCheck; cbn;
      repeat match goal with
             | |- context [if (?a <=? ?b)%Z then _ else _] =>
                 destruct (a <=? b)%Z
             end; cbn; auto.
  - unfold onGoodFrame. cbn.
    destruct (sl2 && (rg2 <=? S gf2)); cbn;
      [destruct cc2; cbn|];
      unfold driftCheck; cbn;
      repeat match goal with
             | |- context [if (?a <=? ?b)%Z then _ else _] =>
                 destruct (a <=? b)%Z
             end; cbn; auto.
Qed.

(** X17: the clock plays no part in the alerts.  Two runs over the same
    metrics, whatever the times at which the frames arrive, invoke the
    same callbacks with the same arguments and leave the same monitor,
    [lastDriftCheck] apart. *)
Theorem alerts_do_not_depend_on_the_clock :
  forall (cal : PostureCalibrator.t) (frames1 frames2 : list Frame) (m : t),
    map metricsOf frames1 = map metricsOf frames2 ->
    snd (processFrames cal frames1 m) = snd (processFrames cal frames2 m)
    /\ timeless (fst (processFrames cal frames1 m))
       = timeless (fst (processFrames cal frames2 m)).
Proof.
  intros cal frames1 frames2 m Hmap.
  assert (H : forall m1 m2, timeless m1 = timeless m2 ->
            snd (processFrames cal frames1 m1)
            = snd (processFrames cal frames2 m2)
            /\ timeless (fst (processFrames cal frames1 m1))
               = timeless (fst (processFrames cal frames2 m2))).
  { clear m. revert frames2 Hmap.
    induction frames1 as [|f1 rest1 IH]; intros [|f2 rest2] Hmap m1 m2 Hm;
      try discriminate Hmap.
    - cbn. auto.
    - cbn [map] in Hmap. injection Hmap as Hf Hrest.
      rewrite !DebouncerProps.processFrames_cons. cbn [fst snd].
      unfold feed. rewrite Hf.
      destruct (processFrame_timeless cal (readAt f1) (markAt f1)
                  (readAt f2) (markAt f2) (metricsOf f2) m1 m2 Hm)
        as (Hst & _ & Hcs).
      destruct (IH rest2 Hrest _ _ Hst) as (Hcs' & Hst').
      rewrite Hcs, Hcs'. auto. }
  apply H. reflexivity.
Qed.

Lemma alerts_do_not_depend_on_the_clock_witness :
  snd (processFrames calibratedStore (repeat slouchedFrame 100) started)
  = snd (processFrames calibratedStore
           (repeat {| readAt := 500000; markAt := 500001;
                      metricsOf := Some slouchedSample |} 100) started)
  /\ timeless
       (fst (processFrames calibratedStore (repeat slouchedFrame 100) started))
     = timeless
         (fst (processFrames calibratedStore
                 (repeat {| readAt := 500000; markAt := 500001;
                            metricsOf := Some slouchedSample |} 100) started)).
Proof.
  apply (alerts_do_not_depend_on_the_clock calibratedStore
           (repeat slouchedFrame 100)
           (repeat {| readAt := 500000; markAt := 500001;
                      metricsOf := Some slouchedSample |} 100) started).
  reflexivity.
Defined.

(** *** A calibrator without a baseline *)

Lemma noBaseline_throws cal cur :
  noBaseline cal -> analyzePostureVsCalibration cal cur = Threw.
Proof.
  unfold analyzePostureVsCalibration, PostureCalibrator.getCalibrationData.
  intros [-> | (d & -> & ->)]; reflexivity.
Qed.

(** X18: once the calibrator has lost its baseline (it is shared, and
    [clearCalibration] empties it), a running monitor throws on every
    frame that carries metrics: such frames are counted in [totalFrames]
    and nowhere else, no callback is invoked, and streaks and alert state
    stay as they were. *)
Theorem frames_without_baseline_are_only_counted :
  forall (cal : PostureCalibrator.t) (frames : list Frame) (m : t),
    noBaseline cal ->
    isMonitoring m = true ->
    processFrames cal frames m
    = (set_stats (countedOnly (List.length (withMetrics frames)) (stats m)) m,
       []).
Proof.
  intros cal frames m Hcal. revert m.
  induction frames as [|f rest IH]; intros m Hmon.
  - cbn. f_equal. destruct m as [? ? ? ? ? ? ? ? ? ? ? [? ? ? ?]].
    unfold set_stats, countedOnly. cbn. now rewrite Nat.add_0_r.
  - rewrite DebouncerProps.processFrames_cons.
    unfold withMetrics. cbn [filter]. unfold hasMetrics at 1.
    destruct (metricsOf f) as [cur|] eqn:Hmet.
    + rewrite (feed_thrown cal f m cur Hmon Hmet (noBaseline_throws _ _ Hcal)).
      cbn [state calls]. rewrite IH by exact Hmon. cbn [fst snd app].
      f_equal. unfold set_stats, countedOnly. cbn.
      rewrite Nat.add_succ_r. reflexivity.
    + rewrite (feed_skipped cal f m (or_intror Hmet)).
      cbn [state calls]. rewrite IH by exact Hmon. reflexivity.
Qed.

Lemma frames_without_baseline_are_only_counted_witness :
  processFrames (PostureCalibrator.clearCalibration calibratedStore)
    (repeat slouchedFrame 150) started
  = (set_stats
       (countedOnly (List.length (withMetrics (repeat slouchedFrame 150)))
          (stats started)) started,
     []).
Proof.
  apply (frames_without_baseline_are_only_counted
           (PostureCalibrator.clearCalibration calibratedStore)
           (repeat slouchedFrame 150) started).
  - left. reflexivity.
  - reflexivity.
Defined.

End MonitorMore.

(* ----------------------------------------------------------------- *)
(** ** The classifier on degenerate numbers *)

Module ClassifierMore.

Import CalibratedPostureMonitor SampleStores.

Open Scope float_scope.

Lemma mul_nan_l (a : float) : nan * a = nan.
Proof. apply FloatFacts.of_SF_nan. rewrite mul_spec. reflexivity. Qed.

Lemma add_nan_l (a : float) : nan + a = nan.
Proof. apply FloatFacts.of_SF_nan. rewrite add_spec. reflexivity. Qed.

Close Scope float_scope.

Ltac settle_nan H :=
  unfold assess, flag, JS.gt, JS.Math_abs; cbv zeta; rewrite H;
  rewrite ?FloatArith.sub_nan_l, ?FloatArith.sub_nan_r, ?mul_nan_l,
    ?add_nan_l;
  change (abs nan) with nan;
  rewrite ?FloatFacts.ltb_nan_r, ?FloatArith.ltb_nan_l;
  repeat match goal with
         | |- context [if ?c then _ else _] => destruct c
         end;
  cbn [fst snd app In]; intuition discriminate.

Lemma assess_silent_on_nan good cur :
  ((PoseDetector.headShoulderRatio cur = nan
    \/ PostureCalibrator.headShoulderRatio good = nan) ->
   ~ In "forward head posture"%string (fst (assess good cur)))
  /\ ((PoseDetector.shoulderAsymmetry cur = nan
       \/ PostureCalibrator.shoulderAsymmetry good = nan) ->
      ~ In "uneven shoulders"%string (fst (assess good cur)))
  /\ ((PoseDetector.torsoAngle cur = nan
       \/ PostureCalibrator.torsoAngle good = nan) ->
      ~ In "hunched spine"%string (fst (assess good cur)))
  /\ ((PoseDetector.neckAngle cur = nan
       \/ PostureCalibrator.neckAngle good = nan) ->
      ~ In "head tilted down"%string (fst (assess good cur)))
  /\ ((PoseDetector.forwardLean cur = nan
       \/ PostureCalibrator.forwardLean good = nan) ->
      ~ In "leaning into screen"%string (fst (assess good cur))).
Proof.
  repeat split; intros [H | H]; settle_nan H.
Qed.

(** X19: a feature that is NaN, in the frame or in the good-posture
    baseline, is never reported: the analysis returned for such a frame
    does not list the issue of that feature, however far off the posture
    is. *)
Theorem nan_feature_raises_no_issue :
  forall (cal : PostureCalibrator.t) (d : PostureCalibrator.CalibrationData)
         (good : PostureCalibrator.AvgMetrics)
         (cur : PoseDetector.PostureMetrics) (a : PostureAnalysis),
    PostureCalibrator.calibrationData cal = Some d ->
    PostureCalibrator.goodPosture d = Some good ->
    analyzePostureVsCalibration cal cur = Returned a ->
    ((PoseDetector.headShoulderRatio cur = nan
      \/ PostureCalibrator.headShoulderRatio good = nan) ->
     ~ In "forward head posture"%string (issues a))
    /\ ((PoseDetector.shoulderAsymmetry cur = nan
         \/ PostureCalibrator.shoulderAsymmetry good = nan) ->
        ~ In "uneven shoulders"%string (issues a))
    /\ ((PoseDetector.torsoAngle cur = nan
         \/ PostureCalibrator.torsoAngle good = nan) ->
        ~ In "hunched spine"%string (issues a))
    /\ ((PoseDetector.neckAngle cur = nan
         \/ PostureCalibrator.neckAngle good = nan) ->
        ~ In "head tilted down"%string (issues a))
    /\ ((PoseDetector.forwardLean cur = nan
         \/ PostureCalibrator.forwardLean good = nan) ->
        ~ In "leaning into screen"%string (issues a)).
Proof.
  intros cal d good cur a Hd Hgood.
  unfold analyzePostureVsCalibration, PostureCalibrator.getCalibrationData.
  rewrite Hd, Hgood. intro Ha. injection Ha as <-.
  cbn [verdictOf issues]. apply assess_silent_on_nan.
Qed.

Lemma nan_feature_raises_no_issue_witness :
  PoseDetector.headShoulderRatio (sample nan 0.02 5 30 0.1) = nan
  /\ ~ In "forward head posture"%string
        (issues (verdictOf (assess scenarioGood (sample nan 0.02 5 30 0.1))
                   (sample nan 0.02 5 30 0.1))).
Proof.
  split; [reflexivity|].
  refine (proj1 (nan_feature_raises_no_issue scenarioStore _ scenarioGood
                   (sample nan 0.02 5 30 0.1) _ _ _ _) _);
    [reflexivity | reflexivity | reflexivity | left; reflexivity].
Defined.

(** X20: a frame whose head-to-shoulder ratio is +Infinity (the ratio of
    a pose with zero shoulder width) is classified as slouching, with
    forward head posture among the issues, whenever the 20% tolerance of
    the baseline is a positive finite number. *)
Theorem infinite_head_ratio_is_slouching :
  forall (cal : PostureCalibrator.t) (d : PostureCalibrator.CalibrationData)
         (good : PostureCalibrator.AvgMetrics)
         (cur : PoseDetector.PostureMetrics),
    PostureCalibrator.calibrationData cal = Some d ->
    PostureCalibrator.goodPosture d = Some good ->
    PoseDetector.headShoulderRatio cur = infinity ->
    (0 <? PostureCalibrator.headShoulderRatio good * 0.20)%float = true ->
    (PostureCalibrator.headShoulderRatio good * 0.20 <? infinity)%float
    = true ->
    exists a,
      analyzePostureVsCalibration cal cur = Returned a
      /\ isSlouching a = true
      /\ In "forward head posture"%string (issues a).
Proof.
  intros cal d good cur Hd Hgood Hinf Hpos Hfin.
  unfold analyzePostureVsCalibration, PostureCalibrator.getCalibrationData.
  rewrite Hd, Hgood. eexists. split; [reflexivity|].
  destruct (FloatArith.positive_tolerance _ Hpos Hfin) as (mg & eg & Hg).
  unfold verdictOf. cbn [isSlouching issues].
  unfold assess, flag, JS.Math_abs. cbv zeta.
  rewrite Hinf, (FloatArith.infinity_sub_finite _ _ _ _ Hg).
  change (abs infinity) with infinity.
  unfold JS.gt. rewrite Hfin.
  rewrite (FloatArith.infinity_div_positive _ Hpos Hfin).
  change (0 + infinity * 30)%float with infinity.
  repeat match goal with
         | |- context [if ?c then _ else _] => destruct c
         end;
    cbn [fst snd app In]; (split; [reflexivity | auto]).
Qed.

Lemma infinite_head_ratio_is_slouching_witness :
  exists a,
    analyzePostureVsCalibration scenarioStore (sample infinity 0.02 5 30 0.1)
    = Returned a
    /\ isSlouching a = true
    /\ In "forward head posture"%string (issues a).
Proof.
  eapply (infinite_head_ratio_is_slouching scenarioStore _ scenarioGood
            (sample infinity 0.02 5 30 0.1));
    reflexivity.
Defined.

End ClassifierMore.

(* ----------------------------------------------------------------- *)
(** ** The detector callback of the monitoring hook *)

Module HookMore.

Import CalibratedPostureMonitor Session UsePostureMonitor.

Lemma processFrame_counts cal now now' cur m :
  isMonitoring m = true ->
  Stats.totalFrames
    (stats (state (processFrame cal now now' (Some cur) m)))
  = S (Stats.totalFrames (stats m)).
Proof.
  intro Hmon.
  change (processFrame cal now now' (Some cur) m)
    with (feed cal {| readAt := now; markAt := now';
                      metricsOf := Some cur |} m).
  set (f := {| readAt := now; markAt := now'; metricsOf := Some cur |}).
  destruct (analyzePostureVsCalibration cal cur) as [a|] eqn:Ha.
  - destruct (isSlouching a) eqn:Hs.
    + rewrite (MonitorMore.slouching_stats cal f m Hmon)
        by (unfold slouchingFrame, verdict; cbn; now rewrite Ha, Hs).
      destruct ((requiredSlouchFrames m <=? S (slouchFrames m))
                && negb (isCurrentlySlouched m)); reflexivity.
    + rewrite (MonitorMore.good_stats cal f m Hmon)
        by (unfold goodFrame, verdict; cbn; now rewrite Ha, Hs).
      reflexivity.
  - rewrite (MonitorMore.feed_thrown cal f m cur Hmon eq_refl Ha).
    reflexivity.
Qed.

(** X21: the hook hands a detection to a running monitor exactly when
    the detector reported at least 25 landmarks: then [processFrame] is
    called and [totalFrames] grows by one; with fewer landmarks, or none,
    the monitor is not touched. *)
Theorem hook_counts_detections_of_25_landmarks :
  forall Math_atan2 (cal : PostureCalibrator.t) (stamp now now' : Z)
         (poseLandmarks : option (list PoseDetector.Landmark)) (m : t),
    isMonitoring m = true ->
    match onResults Math_atan2 cal stamp now now' poseLandmarks m with
    | Some r =>
        (exists l, poseLandmarks = Some l /\ 25 <= List.length l)
        /\ Stats.totalFrames (stats (state r))
           = S (Stats.totalFrames (stats m))
    | None =>
        forall l, poseLandmarks = Some l -> List.length l < 25
    end.
Proof.
  intros Math_atan2 cal stamp now now' poseLandmarks m Hmon.
  unfold onResults.
  destruct poseLandmarks as [l|].
  - pose proof (PoseDetectorMore.metrics_exist_iff Math_atan2 stamp l)
      as Hiff.
    destruct (PoseDetector.extractLandmarks (Some l)) as [lm|] eqn:El.
    + destruct (PoseDetector.calculatePostureMetrics Math_atan2 stamp
                  (Some lm)) as [cur|] eqn:Ec.
      * split.
        -- exists l. split; [reflexivity|]. apply Hiff. now exists cur.
        -- now apply processFrame_counts.
      * intros l' Hl'. injection Hl' as <-.
        destruct (Nat.lt_ge_cases (List.length l) 25) as [Hlt | Hge];
          [exact Hlt|].
        apply Hiff in Hge. destruct Hge as [r Hr]. discriminate Hr.
    + intros l' Hl'. injection Hl' as <-.
      destruct (Nat.lt_ge_cases (List.length l) 25) as [Hlt | Hge];
        [exact Hlt|].
      apply Hiff in Hge. destruct Hge as [r Hr]. discriminate Hr.
  - cbn. intros l Hl. discriminate Hl.
Qed.

Lemma hook_counts_detections_of_25_landmarks_witness :
  match
    onResults (fun _ _ => 0%float) SampleStores.calibratedStore 0 2000 2000
      (Some (repeat (PoseDetector.point 0.5 0.5 0) 33)) SampleSessions.started
  with
  | Some r =>
      (exists l,
          Some (repeat (PoseDetector.point 0.5 0.5 0) 33) = Some l
          /\ 25 <= List.length l)
      /\ Stats.totalFrames (stats (state r))
         = S (Stats.totalFrames (stats SampleSessions.started))
  | None =>
      forall l,
        Some (repeat (PoseDetector.point 0.5 0.5 0) 33) = Some l ->
        List.length l < 25
  end.
Proof.
  apply (hook_counts_detections_of_25_landmarks (fun _ _ => 0%float)
           SampleStores.calibratedStore 0 2000 2000
           (Some (repeat (PoseDetector.point 0.5 0.5 0) 33))
           SampleSessions.started).
  reflexivity.
Defined.

End HookMore.

(* ----------------------------------------------------------------- *)
(** ** The quick reference check *)

Module QuickReferenceMore.

Import QuickReference ReferenceRuns.

Lemma collect_cons onProgress c metrics rest q :
  collect onProgress ((c, metrics) :: rest) q
  = (fst (collect onProgress rest
            (fst (collectFrame c onProgress metrics q))),
     match snd (collectFrame c onProgress metrics q) with
     | Some r =>
         r :: snd (collect onProgress rest
                     (fst (collectFrame c onProgress metrics q)))
     | None =>
         snd (collect onProgress rest
                (fst (collectFrame c onProgress metrics q)))
     end).
Proof.
  cbn [collect].
  destruct (collectFrame c onProgress metrics q) as [q1 report].
  cbn [fst snd].
  destruct (collect onProgress rest q1) as [q2 reports]. reflexivity.
Qed.

Lemma collectFrame_settled c onProgress metrics q v :
  promise q = Some v ->
  promise (fst (collectFrame c onProgress metrics q)) = Some v.
Proof.
  intro Hp. unfold collectFrame.
  destruct metrics as [m|]; [|exact Hp].
  cbn [fst promise].
  destruct (requiredFrames <=? S (frameCount q)); [|exact Hp].
  rewrite Hp. reflexivity.
Qed.

(** X22: the promise of [performQuickReference] is settled with the
    collector before any frame arrives, so the reference result computed
    from the 50th frame on is never delivered: whatever frames the
    collector receives, the promise still holds the collector. *)
Theorem quick_reference_result_is_never_delivered :
  forall (onProgress : bool) (ds : list Delivery),
    promise (fst (collect onProgress ds performQuickReference))
    = Some Collector.
Proof.
  intros onProgress ds.
  assert (H : forall q, promise q = Some Collector ->
                        promise (fst (collect onProgress ds q))
                        = Some Collector).
  { induction ds as [|[c metrics] rest IH]; intros q Hq; [exact Hq|].
    rewrite collect_cons. cbn [fst]. apply IH.
    now apply collectFrame_settled. }
  apply H. reflexivity.
Qed.

(** X23: the collector counts the frames that carry metrics and nothing
    makes it stop: after any deliveries [frameCount] and the number of
    stored frames equal the number of deliveries with metrics, and the
    progress reports carry the counts 1, 2, 3, ... without a bound at the
    50 frames required. *)
Theorem quick_reference_keeps_collecting :
  forall (ds : list Delivery),
    let n := List.length (filter carriesMetrics ds) in
    frameCount (fst (collect true ds performQuickReference)) = n
    /\ List.length
         (referenceFrames (fst (collect true ds performQuickReference)))
       = n
    /\ map framesCollected (snd (collect true ds performQuickReference))
       = seq 1 n.
Proof.
  intros ds n. subst n.
  assert (H : forall q,
             List.length (referenceFrames q) = frameCount q ->
             frameCount (fst (collect true ds q))
             = frameCount q + List.length (filter carriesMetrics ds)
             /\ List.length (referenceFrames (fst (collect true ds q)))
                = frameCount q + List.length (filter carriesMetrics ds)
             /\ map framesCollected (snd (collect true ds q))
                = seq (S (frameCount q))
                    (List.length (filter carriesMetrics ds))).
  { induction ds as [|[c metrics] rest IH]; intros q Hq.
    - cbn. rewrite Nat.add_0_r. auto.
    - rewrite collect_cons. cbn [fst snd filter].
      destruct metrics as [m|].
      + change (carriesMetrics (c, Some m)) with true. cbv iota.
        cbn [collectFrame fst snd].
        match goal with
        | |- context [collect true rest ?q1] =>
            destruct (IH q1) as (H1 & H2 & H3)
        end.
        { cbn [referenceFrames frameCount].
          rewrite length_app, Hq. cbn. lia. }
        cbn [frameCount] in H1, H2, H3.
        rewrite H1, H2. cbn [map framesCollected List.length seq].
        rewrite H3. repeat split; lia.
      + change (carriesMetrics (c, None)) with false. cbv iota.
        cbn [collectFrame fst snd]. now apply IH. }
  destruct (H performQuickReference eq_refl) as (H1 & H2 & H3).
  cbn [frameCount performQuickReference] in H1, H2, H3.
  rewrite Nat.add_0_l in H1, H2. auto.
Qed.

End QuickReferenceMore.
